(** * SevenX7 MyStore: order lifecycle, inventory and store profile

    A shallow embedding of the order-lifecycle logic of the SevenX7
    marketplace front end (TypeScript / React), and the properties of its
    specification checked against it.

    Conventions of the embedding:
    - a TypeScript union of string literals is an inductive type, with its
      literal spelling given by a [*_str] function where the code compares
      or converts strings;
    - an interface is a record, declared in a module named after the
      interface so that fields keep their source names ([Order.status]);
      an optional field [f?: T] has type [option T];
    - [number] is an IEEE 754 binary64 value: prices, amounts and the width
      of the progress line are [Double.t], on the Standard Library's
      specification of floating-point arithmetic, with the rounding of
      every operation; a quantity of a cart line is a [Z], since the code
      only builds quantities from whole numbers by addition and [Math.max];
      a stock count is a [Count.t], a whole number or [NaN], which is what
      [parseInt] gives for an empty input; coordinates and ratings, which
      are only stored and tested for truthiness, are [Q];
    - a JavaScript object used as a dictionary ([Record<string, T>], the
      [dbUpdates] object) is a [gmap string T];
    - a React state update [setX (prev => f prev)] is the function [f];
      handlers that read several pieces of state take and return a state
      record; exceptions and rejected promises are explicit results. *)

From Stdlib Require Import ZArith QArith Ascii String.
From Stdlib Require Import Floats.SpecFloat.
From stdpp Require Import base option list strings gmap fin_maps pretty.

Local Open Scope Z_scope.
Local Open Scope string_scope.

(** ** Numbers *)

(** A [number] as the language has it: a binary64 floating-point value (53
    bits of precision), with the operations rounding to nearest, ties to
    even. *)
Module Double.

Definition t : Type := spec_float.

Definition prec : Z := 53.
Definition emax : Z := 1024.

(** The double nearest to a whole number (the number itself up to 2^53). *)
Definition of_Z (z : Z) : t := binary_normalize prec emax z 0 false.

Definition zero : t := S754_zero false.
Definition nan : t := S754_nan.

Definition add (x y : t) : t := SFadd prec emax x y.
Definition mul (x y : t) : t := SFmul prec emax x y.
Definition div (x y : t) : t := SFdiv prec emax x y.

(** The double a decimal numeral with [k] digits after the point denotes,
    [m / 10^k] rounded once; this is what a numeric literal and
    [parseFloat] yield ([dec 1999 2] is [19.99]). *)
Definition dec (m : Z) (k : nat) : t := div (of_Z m) (of_Z (10 ^ Z.of_nat k)).

(** Truthiness: [0], [-0] and [NaN] are falsy. *)
Definition truthy (x : t) : bool :=
  match x with
  | S754_zero _ | S754_nan => false
  | _ => true
  end.

(** [x || y] *)
Definition or_else (x y : t) : t := if truthy x then x else y.

(** A number that a JSON document carries as it is: [NaN] and the
    infinities are written as [null], and [-0] as [0]. *)
Definition json_exact (x : t) : bool :=
  match x with
  | S754_finite _ _ _ | S754_zero false => true
  | _ => false
  end.

End Double.

Arguments Double.of_Z : simpl never.
Arguments Double.add : simpl never.
Arguments Double.mul : simpl never.
Arguments Double.div : simpl never.
Arguments Double.dec : simpl never.

(** A [number] that holds a count: a whole number, or [NaN].  Whole numbers
    are added exactly, as doubles are below 2^53, and [NaN] absorbs. *)
Module Count.

Inductive t := Int (z : Z) | NaN.

Definition add (x y : t) : t :=
  match x, y with
  | Int a, Int b => Int (a + b)
  | _, _ => NaN
  end.

End Count.

Coercion Count.Int : Z >-> Count.t.

(** ** Data model ([types.ts]) *)

Inductive OrderMode := DELIVERY | PICKUP.
Inductive DeliveryType := INSTANT | SCHEDULED.
Inductive PaymentStatus := PAID | PENDING.

(** [Order['status']] *)
Inductive OrderStatus :=
| Pending | Preparing | OnTheWay | Ready | Delivered | PickedUp
| Cancelled | Placed | Accepted | Rejected.

(** [Store['type']] *)
Inductive StoreType := general | produce | dairy.

#[global] Instance OrderMode_eq_dec : EqDecision OrderMode.
Proof. solve_decision. Defined.
#[global] Instance DeliveryType_eq_dec : EqDecision DeliveryType.
Proof. solve_decision. Defined.
#[global] Instance PaymentStatus_eq_dec : EqDecision PaymentStatus.
Proof. solve_decision. Defined.
#[global] Instance OrderStatus_eq_dec : EqDecision OrderStatus.
Proof. solve_decision. Defined.

(** The literal of each member of [Order['status']]. *)
Definition status_str (s : OrderStatus) : string :=
  match s with
  | Pending => "Pending"
  | Preparing => "Preparing"
  | OnTheWay => "On the way"
  | Ready => "Ready"
  | Delivered => "Delivered"
  | PickedUp => "Picked Up"
  | Cancelled => "Cancelled"
  | Placed => "Placed"
  | Accepted => "Accepted"
  | Rejected => "Rejected"
  end.

Module LatLng.
Record t := mk { lat : Q; lng : Q }.
End LatLng.

Module BrandOption.
Record t := mk { name : string; price : Double.t }.
End BrandOption.

Module Product.
Record t := mk {
  id : string;
  name : string;
  price : Double.t;
  mrp : option Double.t;
  emoji : string;
  category : string;
  brands : option (list BrandOption.t)
}.
End Product.

Module Store.
Record t := mk {
  id : string;
  name : string;
  address : string;
  rating : Q;
  distance : string;
  lat : Q;
  lng : Q;
  isOpen : bool;
  type : StoreType;
  availableProductIds : list string;
  upiId : option string;
  ownerId : option string
}.
End Store.

(** [CartItem extends Product]; the descriptive optional fields of
    [Product] (description, ingredients, nutrition) are carried along
    unchanged by every operation below and are left out. *)
Module CartItem.
Record t := mk {
  id : string;
  name : string;
  price : Double.t;
  mrp : option Double.t;
  emoji : string;
  category : string;
  brands : option (list BrandOption.t);
  quantity : Z;
  selectedBrand : string;
  originalProductId : string;
  storeId : string;
  storeName : string;
  storeType : StoreType
}.
End CartItem.

Module PaymentSplit.
Record t := mk {
  storeAmount : Double.t;
  storeUpi : option string;
  handlingFee : option Double.t;
  adminUpi : option string;
  deliveryFee : Double.t;
  driverUpi : option string
}.
End PaymentSplit.

Module Order.
Record t := mk {
  id : string;
  date : string;
  items : list CartItem.t;
  total : Double.t;
  status : OrderStatus;
  paymentStatus : PaymentStatus;
  paymentDeadline : option string;
  mode : OrderMode;
  deliveryType : DeliveryType;
  scheduledTime : option string;
  deliveryAddress : option string;
  storeName : string;
  storeLocation : option LatLng.t;
  userLocation : option LatLng.t;
  splits : option PaymentSplit.t;
  customerName : option string;
  customerPhone : option string
}.

(** [{ ...o, status: s }] *)
Definition with_status (o : t) (s : OrderStatus) : t :=
  {| id := id o; date := date o; items := items o; total := total o;
     status := s;
     paymentStatus := paymentStatus o; paymentDeadline := paymentDeadline o;
     mode := mode o; deliveryType := deliveryType o;
     scheduledTime := scheduledTime o; deliveryAddress := deliveryAddress o;
     storeName := storeName o; storeLocation := storeLocation o;
     userLocation := userLocation o; splits := splits o;
     customerName := customerName o; customerPhone := customerPhone o |}.
End Order.

(** ** JavaScript helpers *)

(** What a failed operation carries: a [TypeError] raised by the runtime, or
    the error object of a backend call. *)
Inductive JsError :=
| TypeError (msg : string)
| BackendError (msg : string).

(** A settled promise. *)
Inductive Settled (A : Type) :=
| Fulfilled (a : A)
| RejectedWith (e : JsError).
Arguments Fulfilled {A} a.
Arguments RejectedWith {A} e.

(** Truthiness of an optional string: [undefined], [null] and [''] are
    falsy. *)
Definition truthy_str (s : option string) : bool :=
  match s with
  | Some x => negb (x =? "")
  | None => false
  end.

(** [s || d] on an optional string. *)
Definition or_str (s : option string) (d : string) : string :=
  match s with
  | Some x => if x =? "" then d else x
  | None => d
  end.

(** Truthiness of a whole number that may be [null] or [undefined]: those
    and [0] are falsy. *)
Definition truthy_Z (z : option Z) : bool :=
  match z with
  | Some x => negb (x =? 0)%Z
  | None => false
  end.

(** Truthiness of an optional [number]: [undefined], [0], [-0] and [NaN] are
    falsy. *)
Definition truthy_num (x : option Double.t) : bool :=
  match x with
  | Some v => Double.truthy v
  | None => false
  end.

Definition truthy_Q (q : option Q) : bool :=
  match q with
  | Some x => negb (Qeq_bool x 0)
  | None => false
  end.

(** [Array.prototype.indexOf] on an array of strings: the first position
    holding the value, [-1] when there is none. *)
Fixpoint indexOf_from (l : list string) (x : string) (i : Z) : Z :=
  match l with
  | [] => -1
  | y :: l' => if y =? x then i else indexOf_from l' x (i + 1)
  end.

Definition indexOf (l : list string) (x : string) : Z := indexOf_from l x 0.

(** [Array.prototype.findIndex], as a natural number when found. *)
Fixpoint findIndex {A} (p : A -> bool) (l : list A) : option nat :=
  match l with
  | [] => None
  | y :: l' => if p y then Some 0%nat else S <$> findIndex p l'
  end.

(** [String.prototype.toLowerCase] on ASCII letters. *)
Definition lower_ascii (c : Ascii.ascii) : Ascii.ascii :=
  let n := nat_of_ascii c in
  if (65 <=? n)%nat && (n <=? 90)%nat then ascii_of_nat (n + 32) else c.

Fixpoint toLowerCase (s : string) : string :=
  match s with
  | EmptyString => EmptyString
  | String c s' => String (lower_ascii c) (toLowerCase s')
  end.

(** ** Rows of the backend tables, as the code reads them *)

(** A row of [orders].  [customer_id] and [type] may be [null]. *)
Module DbOrder.
Record t := mk {
  id : string;
  created_at : string;
  items : list CartItem.t;
  total_amount : Double.t;
  status : string;
  type : option OrderMode;
  delivery_lat : Q;
  delivery_lng : Q;
  delivery_address : option string;
  customer_id : option string;
  store_id : string
}.
End DbOrder.

(** A row of [profiles], restricted to the selected columns. *)
Module DbProfile.
Record t := mk {
  id : string;
  full_name : option string;
  phone_number : option string
}.
End DbProfile.

(** The [{ data, error }] object a backend query resolves to. *)
Module Response.
Record t (A : Type) := mk { data : option A; error : option JsError }.
Arguments mk {A}.
Arguments data {A}.
Arguments error {A}.
End Response.

(** ** Customer order view ([components/MyOrders.tsx]) *)

Module MyOrders.

(** The body of the [prevOrders.map] callback of the demo simulator: one
    order, one tick of the 15 second interval. *)
Definition tick_order (o : Order.t) : Order.t :=
  if bool_decide (Order.deliveryType o = SCHEDULED)
     && bool_decide (Order.paymentStatus o = PENDING) then o
  else if bool_decide (Order.status o = Cancelled)
          || bool_decide (Order.status o = Delivered)
          || bool_decide (Order.status o = PickedUp) then o
  else if bool_decide (Order.status o = Pending) then
    Order.with_status o Preparing
  else if bool_decide (Order.status o = Preparing) then
    Order.with_status o
      (if bool_decide (Order.mode o = DELIVERY) then OnTheWay else Ready)
  else if bool_decide (Order.status o = OnTheWay) then
    Order.with_status o Delivered
  else if bool_decide (Order.status o = Ready) then
    Order.with_status o PickedUp
  else o.

(** The state update run by every tick of the interval. *)
Definition tick (prevOrders : list Order.t) : list Order.t :=
  map tick_order prevOrders.

(** [n] ticks of the interval. *)
Definition ticks (n : nat) (orders : list Order.t) : list Order.t :=
  Nat.iter n tick orders.

(** The callback given to [subscribeToUserOrders]: the mapping from the
    status column of the changed row to the status shown. *)
Definition appStatus_of (dbStatus : string) : OrderStatus :=
  let appStatus := Pending in
  let appStatus := if dbStatus =? "packing" then Preparing else appStatus in
  let appStatus := if dbStatus =? "ready" then Ready else appStatus in
  let appStatus := if dbStatus =? "on_way" then OnTheWay else appStatus in
  let appStatus := if dbStatus =? "delivered" then Delivered else appStatus in
  let appStatus := if dbStatus =? "picked_up" then PickedUp else appStatus in
  let appStatus := if dbStatus =? "cancelled" then Cancelled else appStatus in
  appStatus.

(** The state update of the subscription callback, in live mode. *)
Definition onUserOrderChange (updatedOrderDb : DbOrder.t)
    (prev : list Order.t) : list Order.t :=
  map (fun o =>
         if Order.id o =? DbOrder.id updatedOrderDb then
           Order.with_status o (appStatus_of (DbOrder.status updatedOrderDb))
         else o)
      prev.

(** [getStatusInfo]: the step list of the mode, the position of the status
    in it and the width of the progress line, in percent.  The icon of a
    step is presentation only and is left out. *)
Definition deliverySteps : list string :=
  ["Pending"; "Preparing"; "On the way"; "Delivered"].
Definition pickupSteps : list string :=
  ["Pending"; "Preparing"; "Ready"; "Picked Up"].

Module StatusInfo.
Record t := mk { steps : list string; currentIndex : Z; progress : Double.t }.
End StatusInfo.

Definition getStatusInfo (status : string) (mode : OrderMode) : StatusInfo.t :=
  let steps :=
    if bool_decide (mode = DELIVERY) then deliverySteps else pickupSteps in
  let currentIndex := indexOf steps status in
  let progress :=
    Double.mul
      (Double.div (Double.of_Z currentIndex)
                  (Double.of_Z (Z.of_nat (length steps) - 1)))
      (Double.of_Z 100) in
  {| StatusInfo.steps := steps;
     StatusInfo.currentIndex := currentIndex;
     StatusInfo.progress := progress |}.

Definition getLabel (step : string) : string :=
  if step =? "Pending" then "Placed"
  else if step =? "Preparing" then "Packing"
  else if step =? "On the way" then "On Way"
  else if step =? "Ready" then "Ready"
  else if step =? "Picked Up" then "Picked Up"
  else step.

(** What the order card derives from an order before rendering: the
    timeline is drawn only when [showTimeline] holds. *)
Definition isCancelled (o : Order.t) : bool :=
  bool_decide (Order.status o = Cancelled).
Definition isPaymentPending (o : Order.t) : bool :=
  bool_decide (Order.paymentStatus o = PENDING).
Definition showTimeline (o : Order.t) : bool :=
  negb (isCancelled o) && negb (isPaymentPending o).

(** The text of the badge on the order card. *)
Definition statusBadge (o : Order.t) : string :=
  if isPaymentPending o then "Payment Pending" else status_str (Order.status o).

End MyOrders.

(** ** Customer application ([components/customer/CustomerApp.tsx]) *)

Module CustomerApp.

Inductive View := HOME | STORE | ORDERS | PROFILE | CART.

(** The [user] prop, restricted to the fields the handlers read. *)
Module UserState.
Record t := mk {
  id : option string;
  name : option string;
  phone : string;
  address : option string
}.
End UserState.

(** The object the cart sheet hands to [handlePlaceOrder] (typed [any]);
    these are the fields [handlePaymentSuccess] reads from it. *)
Module OrderDetails.
Record t := mk {
  deliveryType : DeliveryType;
  scheduledTime : option string;
  splits : option PaymentSplit.t
}.
End OrderDetails.

(** The [useState] cells of the component that the handlers touch. *)
Record State := mkState {
  activeView : View;
  selectedStore : option Store.t;
  storeProducts : list Product.t;
  cart : list CartItem.t;
  showPayment : bool;
  pendingOrderDetails : option OrderDetails.t;
  currentLocation : option LatLng.t
}.

Definition setCart (c : list CartItem.t) (st : State) : State :=
  {| activeView := activeView st; selectedStore := selectedStore st;
     storeProducts := storeProducts st; cart := c;
     showPayment := showPayment st;
     pendingOrderDetails := pendingOrderDetails st;
     currentLocation := currentLocation st |}.

(** A refresh of the store's product list (initial load, or the inventory
    subscription firing after the store changed its prices). *)
Definition setStoreProducts (ps : list Product.t) (st : State) : State :=
  {| activeView := activeView st; selectedStore := selectedStore st;
     storeProducts := ps; cart := cart st;
     showPayment := showPayment st;
     pendingOrderDetails := pendingOrderDetails st;
     currentLocation := currentLocation st |}.

Definition add_quantity (q : Z) (item : CartItem.t) : CartItem.t :=
  {| CartItem.id := CartItem.id item; CartItem.name := CartItem.name item;
     CartItem.price := CartItem.price item; CartItem.mrp := CartItem.mrp item;
     CartItem.emoji := CartItem.emoji item;
     CartItem.category := CartItem.category item;
     CartItem.brands := CartItem.brands item;
     CartItem.quantity := q;
     CartItem.selectedBrand := CartItem.selectedBrand item;
     CartItem.originalProductId := CartItem.originalProductId item;
     CartItem.storeId := CartItem.storeId item;
     CartItem.storeName := CartItem.storeName item;
     CartItem.storeType := CartItem.storeType item |}.

(** [addToCart]; [now] is the value of [Date.now()]. *)
Definition addToCart (now : Z) (product : Product.t) (quantity : Z)
    (brandName : string) (price : option Double.t) (st : State) : State :=
  match selectedStore st with
  | None => st
  | Some store =>
    let finalPrice :=
      if truthy_num price then default Double.zero price
      else Product.price product in
    let prev := cart st in
    let existingIdx :=
      findIndex (fun item =>
                   (CartItem.originalProductId item =? Product.id product)
                   && (CartItem.selectedBrand item =? brandName)) prev in
    match existingIdx with
    | Some idx =>
      setCart
        (alter (fun item => add_quantity (CartItem.quantity item + quantity) item)
               idx prev) st
    | None =>
      setCart
        (prev ++
         [ {| CartItem.id :=
                Product.id product ++ "-" ++ brandName ++ "-" ++ pretty now;
              CartItem.name := Product.name product;
              CartItem.price := finalPrice;
              CartItem.mrp := Product.mrp product;
              CartItem.emoji := Product.emoji product;
              CartItem.category := Product.category product;
              CartItem.brands := Product.brands product;
              CartItem.quantity := quantity;
              CartItem.selectedBrand := brandName;
              CartItem.originalProductId := Product.id product;
              CartItem.storeId := Store.id store;
              CartItem.storeName := Store.name store;
              CartItem.storeType := Store.type store |} ]) st
    end
  end.

Definition updateQuantity (cartItemId : string) (delta : Z) (st : State) : State :=
  setCart
    (List.filter (fun item => (0 <? CartItem.quantity item)%Z)
       (map (fun item =>
               if CartItem.id item =? cartItemId then
                 add_quantity (Z.max 0 (CartItem.quantity item + delta)) item
               else item)
            (cart st))) st.

Definition handlePlaceOrder (details : OrderDetails.t) (st : State) : State :=
  {| activeView := activeView st; selectedStore := selectedStore st;
     storeProducts := storeProducts st; cart := cart st;
     showPayment := true;
     pendingOrderDetails := Some details;
     currentLocation := currentLocation st |}.

(** [cart.reduce((sum, item) => sum + item.price * item.quantity, 0)], in
    the arithmetic of doubles: each product and each partial sum is
    rounded. *)
Definition totalAmount (cart : list CartItem.t) : Double.t :=
  fold_left (fun sum item =>
               Double.add sum
                 (Double.mul (CartItem.price item)
                             (Double.of_Z (CartItem.quantity item))))
            cart Double.zero.

(** What a run of [handlePaymentSuccess] leaves behind: the component
    state, the calls made to [saveOrder] (user id and order), and how the
    returned promise settled. *)
Record Outcome := mkOutcome {
  state : State;
  saved : list (string * Order.t);
  completion : Settled unit
}.

(** [handlePaymentSuccess].  [saveOrder] is the imported persistence call
    ([services/orderService]), given by how its promise settles; [now] and
    [iso] are [Date.now()] and [new Date().toISOString()].  Reading
    [cart[0].storeName] on an empty cart raises a [TypeError] while the
    order literal is being built. *)
Definition handlePaymentSuccess
    (saveOrder : string -> Order.t -> Settled unit)
    (user : UserState.t) (now : Z) (iso : string) (st : State) : Outcome :=
  match pendingOrderDetails st with
  | None => mkOutcome st [] (Fulfilled ())
  | Some details =>
    let total := totalAmount (cart st) in
    match cart st with
    | [] =>
      mkOutcome st []
        (RejectedWith
           (TypeError "Cannot read properties of undefined (reading 'storeName')"))
    | first :: _ =>
      let newOrder :=
        {| Order.id := "ord-" ++ pretty now;
           Order.date := iso;
           Order.items := cart st;
           Order.total := total;
           Order.status := Pending;
           Order.paymentStatus := PAID;
           Order.paymentDeadline := None;
           Order.mode := DELIVERY;
           Order.deliveryType := OrderDetails.deliveryType details;
           Order.scheduledTime := OrderDetails.scheduledTime details;
           Order.deliveryAddress :=
             Some (or_str (UserState.address user) "Current Location");
           Order.storeName := CartItem.storeName first;
           Order.storeLocation :=
             (fun s => LatLng.mk (Store.lat s) (Store.lng s))
               <$> selectedStore st;
           Order.userLocation := currentLocation st;
           Order.splits := OrderDetails.splits details;
           Order.customerName := UserState.name user;
           Order.customerPhone := Some (UserState.phone user) |} in
      let done_ :=
        {| activeView := ORDERS; selectedStore := selectedStore st;
           storeProducts := storeProducts st; cart := [];
           showPayment := false;
           pendingOrderDetails := pendingOrderDetails st;
           currentLocation := currentLocation st |} in
      match UserState.id user with
      | Some uid =>
        if uid =? "" then mkOutcome done_ [] (Fulfilled ())
        else
          match saveOrder uid newOrder with
          | Fulfilled _ => mkOutcome done_ [(uid, newOrder)] (Fulfilled ())
          | RejectedWith e => mkOutcome st [(uid, newOrder)] (RejectedWith e)
          end
      | None => mkOutcome done_ [] (Fulfilled ())
      end
    end
  end.

(** The count shown on a product card:
    [cart.filter(c => c.originalProductId === product.id)
         .reduce((sum, c) => sum + c.quantity, 0)]. *)
Definition countInCart (product : Product.t) (cart : list CartItem.t) : Z :=
  fold_left (fun sum c => sum + CartItem.quantity c)
    (List.filter (fun c => CartItem.originalProductId c =? Product.id product)
                 cart) 0.

(** The [onUpdateQuantity] callback of a product card: the first cart line
    of the product, whatever its brand, is the one that changes. *)
Definition onUpdateQuantity (pid : string) (delta : Z) (st : State) : State :=
  match List.find (fun c => CartItem.originalProductId c =? pid) (cart st) with
  | Some cartItem => updateQuantity (CartItem.id cartItem) delta st
  | None => st
  end.

End CustomerApp.

(** ** Store administration service ([services/storeAdminService.ts]) *)

(** A column value of a [stores] row or of an update sent to it. *)
Inductive JsVal :=
| JStr (s : string)
| JNum (q : Q).

Module StoreAdminService.

(** The backend as the service sees it: what each of the two queries of
    [getIncomingOrders] settles to, for a store id and for a list of
    customer ids.  Nothing is assumed about their results. *)
Module Backend.
Record t := mk {
  select_orders : string -> Settled (Response.t (list DbOrder.t));
  select_profiles : list string -> Settled (Response.t (list DbProfile.t))
}.
End Backend.

Definition mapDbStatusToAppStatus (dbStatus : string) : OrderStatus :=
  if dbStatus =? "placed" then Placed
  else if dbStatus =? "accepted" then Accepted
  else if dbStatus =? "packing" then Preparing
  else if dbStatus =? "ready" then Ready
  else if dbStatus =? "on_way" then OnTheWay
  else if dbStatus =? "delivered" then Delivered
  else if dbStatus =? "picked_up" then PickedUp
  else if dbStatus =? "cancelled" then Cancelled
  else if dbStatus =? "rejected" then Rejected
  else Pending.

(** The value [updateStoreOrderStatus] writes to the [status] column. *)
Definition dbStatus_of (status : string) : string :=
  let dbStatus := toLowerCase status in
  let dbStatus := if status =? "Preparing" then "packing" else dbStatus in
  let dbStatus := if status =? "Ready" then "ready" else dbStatus in
  let dbStatus := if status =? "Picked Up" then "picked_up" else dbStatus in
  let dbStatus := if status =? "On the way" then "on_way" else dbStatus in
  let dbStatus := if status =? "Rejected" then "rejected" else dbStatus in
  let dbStatus := if status =? "Accepted" then "accepted" else dbStatus in
  dbStatus.

(** [[...new Set(ids)]]: duplicates dropped, first occurrences kept in
    order. *)
Fixpoint uniq_from (seen l : list string) : list string :=
  match l with
  | [] => []
  | x :: l' =>
    if bool_decide (x ∈ seen) then uniq_from seen l'
    else x :: uniq_from (x :: seen) l'
  end.

(** [orders.map(o => o.customer_id).filter(Boolean)], without duplicates. *)
Definition customerIds_of (orders : list DbOrder.t) : list string :=
  uniq_from []
    (omap (fun o => match DbOrder.customer_id o with
                    | Some c => if c =? "" then None else Some c
                    | None => None
                    end) orders).

(** [profiles.forEach(p => { profilesMap[p.id] = p })] *)
Definition profilesMap_of (profiles : list DbProfile.t) : gmap string DbProfile.t :=
  foldl (fun m p => <[DbProfile.id p := p]> m) ∅ profiles.

(** The property key [row.customer_id] denotes: [null] reads key "null". *)
Definition customer_key (row : DbOrder.t) : string :=
  default "null" (DbOrder.customer_id row).

(** The object built for each row by the final [orders.map]. *)
Definition order_of_row (profilesMap : gmap string DbProfile.t)
    (row : DbOrder.t) : Order.t :=
  {| Order.id := DbOrder.id row;
     Order.date := DbOrder.created_at row;
     Order.items := DbOrder.items row;
     Order.total := DbOrder.total_amount row;
     Order.status := mapDbStatusToAppStatus (DbOrder.status row);
     Order.paymentStatus := PAID;
     Order.paymentDeadline := None;
     Order.mode := default DELIVERY (DbOrder.type row);
     Order.deliveryType := INSTANT;
     Order.scheduledTime := None;
     Order.deliveryAddress := DbOrder.delivery_address row;
     Order.storeName := "My Store";
     Order.storeLocation := None;
     Order.userLocation :=
       Some (LatLng.mk (DbOrder.delivery_lat row) (DbOrder.delivery_lng row));
     Order.splits := None;
     Order.customerName :=
       Some (or_str (profilesMap !! customer_key row ≫= DbProfile.full_name)
                    "Guest");
     Order.customerPhone :=
       Some (or_str (profilesMap !! customer_key row ≫= DbProfile.phone_number)
                    "") |}.

(** The body of the [try] block of [getIncomingOrders]: [inl e] when it
    throws [e], [inr l] when it returns [l]. *)
Definition getIncomingOrders_try (db : Backend.t) (storeId : string)
    : JsError + list Order.t :=
  match Backend.select_orders db storeId with
  | RejectedWith e => inl e
  | Fulfilled r =>
    match Response.error r with
    | Some e => inl e
    | None =>
      match Response.data r with
      | None => inr []
      | Some [] => inr []
      | Some orders =>
        let customerIds := customerIds_of orders in
        if (0 <? length customerIds)%nat then
          match Backend.select_profiles db customerIds with
          | RejectedWith e => inl e
          | Fulfilled pr =>
            let profilesMap :=
              match Response.error pr, Response.data pr with
              | None, Some profiles => profilesMap_of profiles
              | _, _ => ∅
              end in
            inr (map (order_of_row profilesMap) orders)
          end
        else inr (map (order_of_row ∅) orders)
      end
    end
  end.

(** [getIncomingOrders]: the [catch] clause turns every throw into the
    empty list, so the promise always fulfils. *)
Definition getIncomingOrders (db : Backend.t) (storeId : string) : list Order.t :=
  match getIncomingOrders_try db storeId with
  | inl _ => []
  | inr l => l
  end.

(** [Partial<Store>] *)
Module StoreUpdates.
Record t := mk {
  id : option string;
  name : option string;
  address : option string;
  rating : option Q;
  distance : option string;
  lat : option Q;
  lng : option Q;
  isOpen : option bool;
  type : option StoreType;
  availableProductIds : option (list string);
  upiId : option string;
  ownerId : option string
}.
End StoreUpdates.

(** [if (v) dbUpdates[col] = v], for a string and for a number. *)
Definition put_str (col : string) (v : option string)
    (dbUpdates : gmap string JsVal) : gmap string JsVal :=
  if truthy_str v then <[col := JStr (default "" v)]> dbUpdates else dbUpdates.

Definition put_num (col : string) (v : option Q)
    (dbUpdates : gmap string JsVal) : gmap string JsVal :=
  if truthy_Q v then <[col := JNum (default 0%Q v)]> dbUpdates else dbUpdates.

(** The [dbUpdates] object [updateStoreProfile] sends. *)
Definition dbUpdates_of (updates : StoreUpdates.t) : gmap string JsVal :=
  let dbUpdates := ∅ in
  let dbUpdates := put_str "name" (StoreUpdates.name updates) dbUpdates in
  let dbUpdates := put_str "address" (StoreUpdates.address updates) dbUpdates in
  let dbUpdates := put_str "upi_id" (StoreUpdates.upiId updates) dbUpdates in
  let dbUpdates := put_num "lat" (StoreUpdates.lat updates) dbUpdates in
  let dbUpdates := put_num "lng" (StoreUpdates.lng updates) dbUpdates in
  dbUpdates.

(** The contract of the backend call
    [from('stores').update(patch).eq('id', storeId)]: in every row whose
    [id] column is [storeId] the columns of the patch take the patch's
    values, and nothing else changes. *)
Definition update_where_id (storeId : string) (patch : gmap string JsVal)
    (stores : list (gmap string JsVal)) : list (gmap string JsVal) :=
  map (fun row =>
         match row !! "id" with
         | Some (JStr i) => if i =? storeId then patch ∪ row else row
         | _ => row
         end) stores.

(** [updateStoreProfile] against a [stores] table; [failure] is the error
    the backend reports, if any, in which case the call throws and the
    table is as before. *)
Definition updateStoreProfile (failure : option JsError) (storeId : string)
    (updates : StoreUpdates.t) (stores : list (gmap string JsVal))
    : list (gmap string JsVal) * Settled unit :=
  match failure with
  | Some e => (stores, RejectedWith e)
  | None => (update_where_id storeId (dbUpdates_of updates) stores, Fulfilled ())
  end.

End StoreAdminService.

(** ** Store owner console ([components/store/StoreApp.tsx]) *)

Module StoreApp.

(** Modelled from the spec: the declaration of [BrandInventoryInfo] (and of
    the [brandDetails] field of [InventoryItem]) is not among the sources;
    §3 gives each brand variant its own price, reference price, stock count
    and offered flag, which are the four fields of the default entry the
    console builds and of the inputs that edit it. *)
Module BrandInventoryInfo.
Record t := mk {
  price : Double.t;
  mrp : Double.t;
  stock : Count.t;
  inStock : bool
}.
End BrandInventoryInfo.

(** [InventoryItem extends Product], with the optional [brandDetails]
    dictionary keyed by brand name. *)
Module InventoryItem.
Record t := mk {
  id : string;
  name : string;
  price : Double.t;
  mrp : option Double.t;
  emoji : string;
  category : string;
  brands : option (list BrandOption.t);
  inStock : bool;
  stock : Count.t;
  storePrice : Double.t;
  isActive : bool;
  brandDetails : option (gmap string BrandInventoryInfo.t)
}.
End InventoryItem.

(** [product.mrp || product.price] *)
Definition mrp_or_price (product : InventoryItem.t) : Double.t :=
  if truthy_num (InventoryItem.mrp product)
  then default Double.zero (InventoryItem.mrp product)
  else InventoryItem.price product.

(** [handleInventoryUpdate], as the new value of the [inventory] state
    (the optimistic update); the persistence that follows does not feed
    back into it, and the draft fields it clears are not read here.
    [myStore] is the store state the guard reads; the console, and with it
    every caller, is only rendered once the store is loaded.  [newPrice] is
    a required [number], so the test [newPrice !== undefined] holds. *)
Definition handleInventoryUpdate (myStore : option Store.t)
    (inventory : list InventoryItem.t) (product : InventoryItem.t)
    (newPrice : Double.t) (newStockStatus : bool) (newStockQty : Count.t)
    (newMrp : option Double.t)
    (newBrandDetails : option (gmap string BrandInventoryInfo.t))
    : list InventoryItem.t :=
  match myStore with
  | None => inventory
  | Some _ =>
    let finalMrp :=
      match newMrp with Some m => m | None => mrp_or_price product end in
    let finalPrice := newPrice in
    let finalBrandDetails :=
      match newBrandDetails with
      | Some d => d
      | None => default ∅ (InventoryItem.brandDetails product)
      end in
    map (fun item =>
           if InventoryItem.id item =? InventoryItem.id product then
             {| InventoryItem.id := InventoryItem.id item;
                InventoryItem.name := InventoryItem.name item;
                InventoryItem.price := InventoryItem.price item;
                InventoryItem.mrp := Some finalMrp;
                InventoryItem.emoji := InventoryItem.emoji item;
                InventoryItem.category := InventoryItem.category item;
                InventoryItem.brands := InventoryItem.brands item;
                InventoryItem.inStock := newStockStatus;
                InventoryItem.stock := newStockQty;
                InventoryItem.storePrice := finalPrice;
                InventoryItem.isActive := true;
                InventoryItem.brandDetails := Some finalBrandDetails |}
           else item)
        inventory
  end.

(** The switch of an inventory row:
    [handleInventoryUpdate(item, item.storePrice, !item.inStock,
    item.stock, item.mrp)]. *)
Definition toggleInStock (myStore : option Store.t)
    (inventory : list InventoryItem.t) (item : InventoryItem.t)
    : list InventoryItem.t :=
  handleInventoryUpdate myStore inventory item (InventoryItem.storePrice item)
    (negb (InventoryItem.inStock item)) (InventoryItem.stock item)
    (InventoryItem.mrp item) None.

(** [handleDeleteItem], as the new value of the [inventory] state: the
    entry leaves the managed list and its stock is zeroed. *)
Definition handleDeleteItem (myStore : option Store.t)
    (inventory : list InventoryItem.t) (product : InventoryItem.t)
    : list InventoryItem.t :=
  match myStore with
  | None => inventory
  | Some _ =>
    map (fun item =>
           if InventoryItem.id item =? InventoryItem.id product then
             {| InventoryItem.id := InventoryItem.id item;
                InventoryItem.name := InventoryItem.name item;
                InventoryItem.price := InventoryItem.price item;
                InventoryItem.mrp := InventoryItem.mrp item;
                InventoryItem.emoji := InventoryItem.emoji item;
                InventoryItem.category := InventoryItem.category item;
                InventoryItem.brands := InventoryItem.brands item;
                InventoryItem.inStock := false;
                InventoryItem.stock := 0;
                InventoryItem.storePrice := InventoryItem.storePrice item;
                InventoryItem.isActive := false;
                InventoryItem.brandDetails := InventoryItem.brandDetails item |}
           else item)
        inventory
  end.

(** A [field] of [BrandInventoryInfo] together with the value written to
    it, as the four inputs of a brand row pass them: [parseFloat] of the
    field's text for the two prices and [parseInt] of it for the stock
    count, each of which is [NaN] when the field is empty. *)
Inductive BrandUpdate :=
| SetPrice (v : Double.t)
| SetMrp (v : Double.t)
| SetStock (v : Count.t)
| SetInStock (v : bool).

(** [{ ...brandInfo, [field]: value }] *)
Definition apply_update (u : BrandUpdate) (b : BrandInventoryInfo.t)
    : BrandInventoryInfo.t :=
  match u with
  | SetPrice v =>
    BrandInventoryInfo.mk v (BrandInventoryInfo.mrp b)
      (BrandInventoryInfo.stock b) (BrandInventoryInfo.inStock b)
  | SetMrp v =>
    BrandInventoryInfo.mk (BrandInventoryInfo.price b) v
      (BrandInventoryInfo.stock b) (BrandInventoryInfo.inStock b)
  | SetStock v =>
    BrandInventoryInfo.mk (BrandInventoryInfo.price b)
      (BrandInventoryInfo.mrp b) v (BrandInventoryInfo.inStock b)
  | SetInStock v =>
    BrandInventoryInfo.mk (BrandInventoryInfo.price b)
      (BrandInventoryInfo.mrp b) (BrandInventoryInfo.stock b) v
  end.

(** [field === 'stock' || field === 'inStock'] *)
Definition touches_stock (u : BrandUpdate) : bool :=
  match u with
  | SetStock _ | SetInStock _ => true
  | _ => false
  end.

(** [Object.values(d).reduce((sum, b) => sum + (b.inStock ? b.stock : 0), 0)] *)
Definition offeredStock (d : gmap string BrandInventoryInfo.t) : Count.t :=
  map_fold (fun _ b sum =>
              Count.add sum (if BrandInventoryInfo.inStock b
                             then BrandInventoryInfo.stock b else Count.Int 0))
           (Count.Int 0) d.

(** The entry a brand has before it was ever edited. *)
Definition defaultBrandInfo (product : InventoryItem.t) (brandName : string)
    : BrandInventoryInfo.t :=
  let listed :=
    InventoryItem.brands product ≫=
    (fun bs => BrandOption.price <$>
               List.find (fun b => BrandOption.name b =? brandName) bs) in
  {| BrandInventoryInfo.price := InventoryItem.storePrice product;
     BrandInventoryInfo.mrp :=
       if truthy_num listed then default Double.zero listed
       else mrp_or_price product;
     BrandInventoryInfo.stock := Count.Int 0;
     BrandInventoryInfo.inStock := true |}.

(** The [newBrandDetails] and [newTotalStock] computed by
    [handleBrandInventoryUpdate]. *)
Definition newBrandDetails_of (product : InventoryItem.t) (brandName : string)
    (u : BrandUpdate) : gmap string BrandInventoryInfo.t :=
  let currentDetails := default ∅ (InventoryItem.brandDetails product) in
  let brandInfo :=
    default (defaultBrandInfo product brandName) (currentDetails !! brandName) in
  <[brandName := apply_update u brandInfo]> currentDetails.

Definition newTotalStock_of (product : InventoryItem.t) (brandName : string)
    (u : BrandUpdate) : Count.t :=
  if touches_stock u then offeredStock (newBrandDetails_of product brandName u)
  else InventoryItem.stock product.

Definition handleBrandInventoryUpdate (myStore : option Store.t)
    (inventory : list InventoryItem.t) (product : InventoryItem.t)
    (brandName : string) (u : BrandUpdate) : list InventoryItem.t :=
  handleInventoryUpdate myStore inventory product
    (InventoryItem.storePrice product) (InventoryItem.inStock product)
    (newTotalStock_of product brandName u) (InventoryItem.mrp product)
    (Some (newBrandDetails_of product brandName u)).

(** *** Incoming orders *)

(** The mock order the console starts with in demo mode; [p0] is the first
    catalogue product and [iso] the current time. *)
Definition demoOrders (p0 : Product.t) (iso : string) : list Order.t :=
  [ {| Order.id := "demo-ord-1";
       Order.date := iso;
       Order.items :=
         [ {| CartItem.id := Product.id p0; CartItem.name := Product.name p0;
              CartItem.price := Product.price p0; CartItem.mrp := Product.mrp p0;
              CartItem.emoji := Product.emoji p0;
              CartItem.category := Product.category p0;
              CartItem.brands := Product.brands p0;
              CartItem.quantity := 2;
              CartItem.selectedBrand := "Generic";
              CartItem.originalProductId := "1";
              CartItem.storeId := "demo";
              CartItem.storeName := "My Demo Store";
              CartItem.storeType := general |} ];
       Order.total := Double.of_Z 120;
       Order.status := Placed;
       Order.paymentStatus := PAID;
       Order.paymentDeadline := None;
       Order.mode := DELIVERY;
       Order.deliveryType := INSTANT;
       Order.scheduledTime := None;
       Order.deliveryAddress := Some "12th Main, Indiranagar";
       Order.storeName := "My Demo Store";
       Order.storeLocation := None;
       Order.userLocation := Some (LatLng.mk (1297 # 100) (7764 # 100));
       Order.splits := None;
       Order.customerName := Some "Rahul Dravid";
       Order.customerPhone := Some "9876543210" |} ].

(** The buttons drawn on an order card, by the status each one passes to
    [handleOrderStatus], in the order they are drawn. *)
Definition order_actions (status : OrderStatus) : list OrderStatus :=
  (if bool_decide (status = Placed) then [Rejected; Accepted] else [])
  ++ (if bool_decide (status = Accepted) then [Preparing] else [])
  ++ (if bool_decide (status = Preparing) then [Ready] else [])
  ++ (if bool_decide (status = Ready) then [PickedUp] else []).

(** [handleOrderStatus] for the demo account. *)
Definition handleOrderStatus_demo (orderId : string) (status : OrderStatus)
    (prev : list Order.t) : list Order.t :=
  map (fun o => if Order.id o =? orderId then Order.with_status o status else o)
      prev.

(** [handleOrderStatus] for a registered account: [written] is how the
    status write settled, [db] the backend the re-fetch then reads.  A
    failed write raises the alert and leaves the list as it was. *)
Definition handleOrderStatus_live (written : Settled unit)
    (db : StoreAdminService.Backend.t) (myStore : option Store.t)
    (prev : list Order.t) : list Order.t :=
  match written with
  | RejectedWith _ => prev
  | Fulfilled _ =>
    match myStore with
    | Some s => StoreAdminService.getIncomingOrders db (Store.id s)
    | None => prev
    end
  end.

(** The handler of the [store-orders-sync] channel. *)
Definition onOrdersChange (db : StoreAdminService.Backend.t) (storeId : string)
    (prev : list Order.t) : list Order.t :=
  StoreAdminService.getIncomingOrders db storeId.

(** Everything that writes the [orders] state of the console: the demo
    seed, the initial fetch (both of its fetches catch their own failures,
    so it always reaches [setOrders]), the change handler and the two forms
    of the status handler. *)
Inductive OrdersEvent :=
| DemoInit (p0 : Product.t) (iso : string)
| FetchData (db : StoreAdminService.Backend.t) (storeId : string)
| OrdersChanged (db : StoreAdminService.Backend.t) (storeId : string)
| StatusDemo (orderId : string) (status : OrderStatus)
| StatusLive (written : Settled unit) (db : StoreAdminService.Backend.t)
             (myStore : option Store.t).

Definition orders_step (orders : list Order.t) (e : OrdersEvent) : list Order.t :=
  match e with
  | DemoInit p0 iso => demoOrders p0 iso
  | FetchData db storeId => StoreAdminService.getIncomingOrders db storeId
  | OrdersChanged db storeId => onOrdersChange db storeId orders
  | StatusDemo orderId status => handleOrderStatus_demo orderId status orders
  | StatusLive written db myStore =>
    handleOrderStatus_live written db myStore orders
  end.

(** The [orders] state after a sequence of events, from the initial
    [useState<Order[]>([])]. *)
Definition orders_after (es : list OrdersEvent) : list Order.t :=
  foldl orders_step [] es.

(** *** Dashboard figures *)

(** [orders.reduce((sum, o) => sum + o.total, 0)] *)
Definition totalRevenue (orders : list Order.t) : Double.t :=
  fold_left (fun sum o => Double.add sum (Order.total o)) orders Double.zero.

(** The statuses counted as active on the dashboard. *)
Definition countsAsPending (o : Order.t) : bool :=
  bool_decide (Order.status o = Placed)
  || bool_decide (Order.status o = Accepted)
  || bool_decide (Order.status o = Preparing).

Definition pendingOrders (orders : list Order.t) : nat :=
  length (List.filter countsAsPending orders).

(** [inventory.filter(i => i.isActive)], the list of the inventory tab. *)
Definition managedInventory (inventory : list InventoryItem.t)
    : list InventoryItem.t :=
  List.filter InventoryItem.isActive inventory.

(** *** Removing an item, with a backend *)

(** The state update of the [catch] clause of [handleDeleteItem]. *)
Definition revertDelete (product : InventoryItem.t)
    (prev : list InventoryItem.t) : list InventoryItem.t :=
  map (fun item =>
         if InventoryItem.id item =? InventoryItem.id product then
           {| InventoryItem.id := InventoryItem.id item;
              InventoryItem.name := InventoryItem.name item;
              InventoryItem.price := InventoryItem.price item;
              InventoryItem.mrp := InventoryItem.mrp item;
              InventoryItem.emoji := InventoryItem.emoji item;
              InventoryItem.category := InventoryItem.category item;
              InventoryItem.brands := InventoryItem.brands item;
              InventoryItem.inStock := InventoryItem.inStock item;
              InventoryItem.stock := InventoryItem.stock item;
              InventoryItem.storePrice := InventoryItem.storePrice item;
              InventoryItem.isActive := true;
              InventoryItem.brandDetails := InventoryItem.brandDetails item |}
         else item)
      prev.

(** [handleDeleteItem] for a registered account, as the [inventory] state it
    ends with: [deleted] is how the backend delete settled. *)
Definition handleDeleteItem_live (deleted : Settled unit)
    (myStore : option Store.t) (inventory : list InventoryItem.t)
    (product : InventoryItem.t) : list InventoryItem.t :=
  match myStore with
  | None => inventory
  | Some _ =>
    match deleted with
    | Fulfilled _ => handleDeleteItem myStore inventory product
    | RejectedWith _ =>
      revertDelete product (handleDeleteItem myStore inventory product)
    end
  end.

(** *** The store profile form *)

(** The form [startEditingProfile] opens for a store. *)
Definition formOf (store : Store.t) : StoreAdminService.StoreUpdates.t :=
  {| StoreAdminService.StoreUpdates.id := None;
     StoreAdminService.StoreUpdates.name := Some (Store.name store);
     StoreAdminService.StoreUpdates.address := Some (Store.address store);
     StoreAdminService.StoreUpdates.rating := None;
     StoreAdminService.StoreUpdates.distance := None;
     StoreAdminService.StoreUpdates.lat := Some (Store.lat store);
     StoreAdminService.StoreUpdates.lng := Some (Store.lng store);
     StoreAdminService.StoreUpdates.isOpen := None;
     StoreAdminService.StoreUpdates.type := None;
     StoreAdminService.StoreUpdates.availableProductIds := None;
     StoreAdminService.StoreUpdates.upiId := Store.upiId store;
     StoreAdminService.StoreUpdates.ownerId := None |}.

(** [{ ...myStore, ...profileForm }] *)
Definition mergeStore (store : Store.t)
    (form : StoreAdminService.StoreUpdates.t) : Store.t :=
  {| Store.id := default (Store.id store) (StoreAdminService.StoreUpdates.id form);
     Store.name :=
       default (Store.name store) (StoreAdminService.StoreUpdates.name form);
     Store.address :=
       default (Store.address store) (StoreAdminService.StoreUpdates.address form);
     Store.rating :=
       default (Store.rating store) (StoreAdminService.StoreUpdates.rating form);
     Store.distance :=
       default (Store.distance store) (StoreAdminService.StoreUpdates.distance form);
     Store.lat := default (Store.lat store) (StoreAdminService.StoreUpdates.lat form);
     Store.lng := default (Store.lng store) (StoreAdminService.StoreUpdates.lng form);
     Store.isOpen :=
       default (Store.isOpen store) (StoreAdminService.StoreUpdates.isOpen form);
     Store.type := default (Store.type store) (StoreAdminService.StoreUpdates.type form);
     Store.availableProductIds :=
       default (Store.availableProductIds store)
               (StoreAdminService.StoreUpdates.availableProductIds form);
     Store.upiId :=
       match StoreAdminService.StoreUpdates.upiId form with
       | Some u => Some u
       | None => Store.upiId store
       end;
     Store.ownerId :=
       match StoreAdminService.StoreUpdates.ownerId form with
       | Some u => Some u
       | None => Store.ownerId store
       end |}.

(** The state [saveProfile] reads and writes, with the two stores it
    persists to: the demo account's local storage slot and the backend's
    [stores] table. *)
Record ProfileState := mkProfileState {
  myStore : option Store.t;
  profileForm : StoreAdminService.StoreUpdates.t;
  isEditingProfile : bool;
  demo_store_profile : option Store.t;
  stores_table : list (gmap string JsVal);
  alerts : list string
}.

Definition startEditingProfile (st : ProfileState) : ProfileState :=
  match myStore st with
  | None => st
  | Some store =>
    {| myStore := myStore st; profileForm := formOf store;
       isEditingProfile := true;
       demo_store_profile := demo_store_profile st;
       stores_table := stores_table st; alerts := alerts st |}
  end.

(** [saveProfile]; [demo] tells whether the account is the demo user and
    [failure] is the error the backend update reports, if any. *)
Definition saveProfile (demo : bool) (failure : option JsError)
    (st : ProfileState) : ProfileState :=
  match myStore st with
  | None => st
  | Some store =>
    if negb (truthy_str (StoreAdminService.StoreUpdates.name (profileForm st)))
       || negb (truthy_str (StoreAdminService.StoreUpdates.address (profileForm st)))
    then st
    else
      let updatedStore := mergeStore store (profileForm st) in
      if demo then
        {| myStore := Some updatedStore; profileForm := profileForm st;
           isEditingProfile := false;
           demo_store_profile := Some updatedStore;
           stores_table := stores_table st; alerts := alerts st |}
      else
        match StoreAdminService.updateStoreProfile failure (Store.id store)
                (profileForm st) (stores_table st) with
        | (table, Fulfilled _) =>
          {| myStore := Some updatedStore; profileForm := profileForm st;
             isEditingProfile := false;
             demo_store_profile := demo_store_profile st;
             stores_table := table; alerts := alerts st |}
        | (table, RejectedWith _) =>
          {| myStore := Some updatedStore; profileForm := profileForm st;
             isEditingProfile := isEditingProfile st;
             demo_store_profile := demo_store_profile st;
             stores_table := table;
             alerts := (alerts st ++ ["Failed to update profile"])%list |}
        end
  end.

End StoreApp.

(** ** Inventory functions of the store administration service
    ([services/storeAdminService.ts]) *)

(** A row of [inventory]; [stock] and [brand_data] may be [null]. *)
Module DbInventory.
Record t := mk {
  store_id : string;
  product_id : string;
  price : Double.t;
  in_stock : bool;
  stock : option Z;
  brand_data : option (gmap string StoreApp.BrandInventoryInfo.t)
}.
End DbInventory.

(** A row of [products] (the custom products of the stores). *)
Module DbProduct.
Record t := mk {
  id : string;
  name : string;
  category : string;
  image_url : option string;
  base_price : Double.t
}.
End DbProduct.

Module StoreInventory.

(** The entry returned for every catalogue product when the inventory
    cannot be read. *)
Definition unlisted (c : Product.t) : StoreApp.InventoryItem.t :=
  {| StoreApp.InventoryItem.id := Product.id c;
     StoreApp.InventoryItem.name := Product.name c;
     StoreApp.InventoryItem.price := Product.price c;
     StoreApp.InventoryItem.mrp := Product.mrp c;
     StoreApp.InventoryItem.emoji := Product.emoji c;
     StoreApp.InventoryItem.category := Product.category c;
     StoreApp.InventoryItem.brands := Product.brands c;
     StoreApp.InventoryItem.inStock := false;
     StoreApp.InventoryItem.stock := Count.Int 0;
     StoreApp.InventoryItem.storePrice := Product.price c;
     StoreApp.InventoryItem.isActive := false;
     StoreApp.InventoryItem.brandDetails := Some ∅ |}.

(** [dbInv?.find(i => i.product_id === id)] *)
Definition rowOf (dbInv : list DbInventory.t) (id : string)
    : option DbInventory.t :=
  List.find (fun i => DbInventory.product_id i =? id) dbInv.

(** [dbItem.stock || 0] *)
Definition stock_or_0 (dbItem : DbInventory.t) : Z :=
  if truthy_Z (DbInventory.stock dbItem) then default 0 (DbInventory.stock dbItem)
  else 0.

(** The callback of [INITIAL_PRODUCTS.map] in [getStoreInventory]. *)
Definition catalogEntry (dbInv : list DbInventory.t) (catalogItem : Product.t)
    : StoreApp.InventoryItem.t :=
  let dbItem := rowOf dbInv (Product.id catalogItem) in
  {| StoreApp.InventoryItem.id := Product.id catalogItem;
     StoreApp.InventoryItem.name := Product.name catalogItem;
     StoreApp.InventoryItem.price := Product.price catalogItem;
     StoreApp.InventoryItem.mrp := Product.mrp catalogItem;
     StoreApp.InventoryItem.emoji := Product.emoji catalogItem;
     StoreApp.InventoryItem.category := Product.category catalogItem;
     StoreApp.InventoryItem.brands := Product.brands catalogItem;
     StoreApp.InventoryItem.inStock :=
       match dbItem with Some r => DbInventory.in_stock r | None => false end;
     StoreApp.InventoryItem.stock :=
       Count.Int match dbItem with Some r => stock_or_0 r | None => 0 end;
     StoreApp.InventoryItem.storePrice :=
       match dbItem with
       | Some r => DbInventory.price r
       | None => Product.price catalogItem
       end;
     StoreApp.InventoryItem.isActive := bool_decide (is_Some dbItem);
     StoreApp.InventoryItem.brandDetails :=
       Some (default ∅ (dbItem ≫= DbInventory.brand_data)) |}.

(** The callback of [customProducts.map] in [getStoreInventory].  The
    fallback of the emoji is the literal as the source file holds it. *)
Definition customEntry (dbInv : list DbInventory.t) (prod : DbProduct.t)
    : StoreApp.InventoryItem.t :=
  let dbItem := rowOf dbInv (DbProduct.id prod) in
  {| StoreApp.InventoryItem.id := DbProduct.id prod;
     StoreApp.InventoryItem.name := DbProduct.name prod;
     StoreApp.InventoryItem.price := DbProduct.base_price prod;
     StoreApp.InventoryItem.mrp := Some (DbProduct.base_price prod);
     StoreApp.InventoryItem.emoji := or_str (DbProduct.image_url prod) "ðŸ“¦";
     StoreApp.InventoryItem.category := DbProduct.category prod;
     StoreApp.InventoryItem.brands := None;
     StoreApp.InventoryItem.inStock :=
       match dbItem with Some r => DbInventory.in_stock r | None => true end;
     StoreApp.InventoryItem.stock :=
       Count.Int match dbItem with Some r => stock_or_0 r | None => 0 end;
     StoreApp.InventoryItem.storePrice :=
       match dbItem with
       | Some r => DbInventory.price r
       | None => DbProduct.base_price prod
       end;
     StoreApp.InventoryItem.isActive := true;
     StoreApp.InventoryItem.brandDetails :=
       Some (default ∅ (dbItem ≫= DbInventory.brand_data)) |}.

(** The ids of the rows that are not catalogue products. *)
Definition customIds_of (INITIAL_PRODUCTS : list Product.t)
    (dbInv : list DbInventory.t) : list string :=
  List.filter (fun id => negb (bool_decide (id ∈ Product.id <$> INITIAL_PRODUCTS)))
              (DbInventory.product_id <$> dbInv).

(** The body of the [try] block of [getStoreInventory]; [inventory] is what
    the inventory query for the store settles to and [products] what the
    query for the custom products settles to, given their ids.  Reading
    [dbInv.map] when the data is [null] raises a [TypeError]. *)
Definition getStoreInventory_try (INITIAL_PRODUCTS : list Product.t)
    (inventory : Settled (Response.t (list DbInventory.t)))
    (products : list string -> Settled (Response.t (list DbProduct.t)))
    : JsError + list StoreApp.InventoryItem.t :=
  match inventory with
  | RejectedWith e => inl e
  | Fulfilled r =>
    match Response.error r with
    | Some _ => inr (unlisted <$> INITIAL_PRODUCTS)
    | None =>
      match Response.data r with
      | None => inl (TypeError "Cannot read properties of null (reading 'map')")
      | Some dbInv =>
        let customIds := customIds_of INITIAL_PRODUCTS dbInv in
        let fetched :=
          if (0 <? length customIds)%nat then
            match products customIds with
            | RejectedWith e => inl e
            | Fulfilled pr => inr (default [] (Response.data pr))
            end
          else inr [] in
        match fetched with
        | inl e => inl e
        | inr customProducts =>
          inr ((customEntry dbInv <$> customProducts)
               ++ (catalogEntry dbInv <$> INITIAL_PRODUCTS))%list
        end
      end
    end
  end.

(** [getStoreInventory]: every throw ends in the same catalogue list as a
    reported error. *)
Definition getStoreInventory (INITIAL_PRODUCTS : list Product.t)
    (inventory : Settled (Response.t (list DbInventory.t)))
    (products : list string -> Settled (Response.t (list DbProduct.t)))
    : list StoreApp.InventoryItem.t :=
  match getStoreInventory_try INITIAL_PRODUCTS inventory products with
  | inl _ => unlisted <$> INITIAL_PRODUCTS
  | inr l => l
  end.

(** The contract of the backend's
    [upsert(row, { onConflict: 'store_id, product_id' })]: the row replaces
    the rows of the same store and product, and is added when there is
    none.  The row is stored as it is sent, which is as the caller built it
    when its numbers are ones JSON carries exactly. *)
Definition same_key (a b : DbInventory.t) : bool :=
  (DbInventory.store_id a =? DbInventory.store_id b)
  && (DbInventory.product_id a =? DbInventory.product_id b).

Definition upsert (row : DbInventory.t) (table : list DbInventory.t)
    : list DbInventory.t :=
  if existsb (same_key row) table
  then map (fun r => if same_key row r then row else r) table
  else (table ++ [row])%list.

(** The contract of [select('*').eq('store_id', storeId)]. *)
Definition select_store (storeId : string) (table : list DbInventory.t)
    : list DbInventory.t :=
  List.filter (fun r => DbInventory.store_id r =? storeId) table.

(** [updateInventoryItem] against an [inventory] table; [failure] is the
    error the backend reports, if any.  The row travels as JSON, where a
    [NaN] stock count is written [null]. *)
Definition updateInventoryItem (failure : option JsError) (storeId productId : string)
    (price : Double.t) (inStock : bool) (stock : Count.t)
    (brandDetails : option (gmap string StoreApp.BrandInventoryInfo.t))
    (table : list DbInventory.t) : list DbInventory.t * Settled unit :=
  match failure with
  | Some e => (table, RejectedWith e)
  | None =>
    (upsert {| DbInventory.store_id := storeId;
               DbInventory.product_id := productId;
               DbInventory.price := price;
               DbInventory.in_stock := inStock;
               DbInventory.stock :=
                 match stock with Count.Int z => Some z | Count.NaN => None end;
               DbInventory.brand_data := brandDetails |} table,
     Fulfilled ())
  end.

End StoreInventory.

(** ** Store service of the customer application
    ([services/storeService.ts]) *)

Module StoreService.

(** [new Map(inventory.map(i => [i.product_id, i]))]: of two rows for one
    product the later one stays. *)
Definition inventoryMap_of (inventory : list DbInventory.t)
    : gmap string DbInventory.t :=
  foldl (fun m i => <[DbInventory.product_id i := i]> m) ∅ inventory.

(** The product built from a row of [products]. *)
Definition customProduct_of (p : DbProduct.t) : Product.t :=
  {| Product.id := DbProduct.id p;
     Product.name := DbProduct.name p;
     Product.price := Double.or_else (DbProduct.base_price p) Double.zero;
     Product.mrp := None;
     Product.emoji := or_str (DbProduct.image_url p) "📦";
     Product.category := DbProduct.category p;
     Product.brands := Some [] |}.

(** [{ ...baseProduct, price: invItem.price }] *)
Definition with_price (baseProduct : Product.t) (price : Double.t) : Product.t :=
  {| Product.id := Product.id baseProduct;
     Product.name := Product.name baseProduct;
     Product.price := price;
     Product.mrp := Product.mrp baseProduct;
     Product.emoji := Product.emoji baseProduct;
     Product.category := Product.category baseProduct;
     Product.brands := Product.brands baseProduct |}.

(** The catalogue product with an id, or else the custom one. *)
Definition baseProduct_of (INITIAL_PRODUCTS customProducts : list Product.t)
    (id : string) : option Product.t :=
  match List.find (fun p => Product.id p =? id) INITIAL_PRODUCTS with
  | Some p => Some p
  | None => List.find (fun p => Product.id p =? id) customProducts
  end.

(** The body of the [try] block of [fetchStoreProducts]; [inventory] is
    what the query for the store's in-stock rows settles to and [products]
    what the query for the custom products settles to, given their ids. *)
Definition fetchStoreProducts_try (INITIAL_PRODUCTS : list Product.t)
    (inventory : Settled (Response.t (list DbInventory.t)))
    (products : list string -> Settled (Response.t (list DbProduct.t)))
    : JsError + list Product.t :=
  match inventory with
  | RejectedWith e => inl e
  | Fulfilled r =>
    match Response.error r with
    | Some e => inl e
    | None =>
      match Response.data r with
      | None => inr []
      | Some [] => inr []
      | Some rows =>
        let inventoryMap := inventoryMap_of rows in
        let allIds := DbInventory.product_id <$> rows in
        let customIds :=
          List.filter
            (fun id => negb (bool_decide (id ∈ Product.id <$> INITIAL_PRODUCTS)))
            allIds in
        let fetched :=
          if (0 <? length customIds)%nat then
            match products customIds with
            | RejectedWith e => inl e
            | Fulfilled pr =>
              inr match Response.error pr, Response.data pr with
                  | None, Some dbProducts => customProduct_of <$> dbProducts
                  | _, _ => []
                  end
            end
          else inr [] in
        match fetched with
        | inl e => inl e
        | inr customProducts =>
          inr (omap (fun id =>
                       match inventoryMap !! id with
                       | None => None
                       | Some invItem =>
                         (fun base => with_price base (DbInventory.price invItem))
                           <$> baseProduct_of INITIAL_PRODUCTS customProducts id
                       end) allIds)
        end
      end
    end
  end.

Definition fetchStoreProducts (INITIAL_PRODUCTS : list Product.t)
    (inventory : Settled (Response.t (list DbInventory.t)))
    (products : list string -> Settled (Response.t (list DbProduct.t)))
    : list Product.t :=
  match fetchStoreProducts_try INITIAL_PRODUCTS inventory products with
  | inl _ => []
  | inr l => l
  end.

End StoreService.

(** ** User service ([services/userService.ts]) *)

Module UserService.

Inductive CardType := VISA | MASTERCARD | UPI.

Module SavedCard.
Record t := mk {
  id : string;
  type : CardType;
  last4 : option string;
  upiId : option string;
  label : string
}.
End SavedCard.

(** [UserState], with the fields the service fills. *)
Module UserState.
Record t := mk {
  isAuthenticated : bool;
  id : option string;
  phone : string;
  email : option string;
  name : option string;
  address : option string;
  location : option LatLng.t;
  savedCards : option (list SavedCard.t)
}.
End UserState.

(** A row of [profiles], with all its columns. *)
Module Profile.
Record t := mk {
  id : string;
  email : option string;
  full_name : option string;
  phone_number : option string;
  address : option string
}.
End Profile.

Definition MOCK_CARDS : list SavedCard.t :=
  [ SavedCard.mk "c1" VISA (Some "4242") None "Personal Card";
    SavedCard.mk "u1" UPI None (Some "user@okaxis") "Primary UPI" ].

Inductive IdentifierType := PHONE | EMAIL.

(** The state returned for an identifier with no profile; [now] is
    [Date.now()]. *)
Definition tempUser (now : Z) (identifier : string) (type : IdentifierType)
    : UserState.t :=
  {| UserState.isAuthenticated := true;
     UserState.id := Some ("temp-" ++ pretty now);
     UserState.phone := match type with PHONE => identifier | EMAIL => "" end;
     UserState.email :=
       Some match type with EMAIL => identifier | PHONE => "" end;
     UserState.name := Some "";
     UserState.address := Some "";
     UserState.location := None;
     UserState.savedCards := Some [] |}.

(** The state built from a profile row. *)
Definition userOfProfile (p : Profile.t) : UserState.t :=
  {| UserState.isAuthenticated := true;
     UserState.id := Some (Profile.id p);
     UserState.phone := or_str (Profile.phone_number p) "";
     UserState.email := Some (or_str (Profile.email p) "");
     UserState.name := Some (or_str (Profile.full_name p) "");
     UserState.address := Some (or_str (Profile.address p) "");
     UserState.location := None;
     UserState.savedCards := Some MOCK_CARDS |}.

(** [syncUserWithSupabase]; [lookup] is what the profile query by phone
    number or email settles to.  The error of the query is only logged. *)
Definition syncUserWithSupabase (now : Z)
    (lookup : Settled (Response.t Profile.t))
    (identifier : string) (type : IdentifierType) : UserState.t :=
  match lookup with
  | RejectedWith _ => tempUser now identifier type
  | Fulfilled r =>
    match Response.data r with
    | Some existingUser => userOfProfile existingUser
    | None => tempUser now identifier type
    end
  end.

(** The user of the authentication service and its metadata. *)
Module AuthUser.
Record t := mk {
  id : string;
  email : option string;
  meta_full_name : option string;
  meta_phone : option string
}.
End AuthUser.

(** What [signInWithPassword] resolves to. *)
Module AuthResponse.
Record t := mk { user : option AuthUser.t; error : option JsError }.
End AuthResponse.

(** The profile [loginUser] writes when none is found. *)
Definition healingProfile (user : AuthUser.t) : Profile.t :=
  {| Profile.id := AuthUser.id user;
     Profile.email := AuthUser.email user;
     Profile.full_name := Some (or_str (AuthUser.meta_full_name user) "User");
     Profile.phone_number := Some (or_str (AuthUser.meta_phone user) "");
     Profile.address := Some "" |}.

(** The last [return] of [loginUser]. *)
Definition userOfLogin (profileData : option Profile.t) (user : AuthUser.t)
    : UserState.t :=
  {| UserState.isAuthenticated := true;
     UserState.id :=
       Some (or_str (Profile.id <$> profileData) (AuthUser.id user));
     UserState.phone :=
       or_str (profileData ≫= Profile.phone_number)
              (or_str (AuthUser.meta_phone user) "");
     UserState.email :=
       Some (or_str (profileData ≫= Profile.email)
                    (or_str (AuthUser.email user) ""));
     UserState.name :=
       Some (or_str (profileData ≫= Profile.full_name)
                    (or_str (AuthUser.meta_full_name user) ""));
     UserState.address := Some (or_str (profileData ≫= Profile.address) "");
     UserState.location := None;
     UserState.savedCards := Some MOCK_CARDS |}.

(** [loginUser]; [auth] is what the sign-in settles to, [profile] what the
    profile query for the user's id settles to, and [heal] what the upsert
    of a profile settles to.  [BackendError "Login failed"] stands for the
    plain [Error] the function throws itself when the sign-in reports no
    user. *)
Definition loginUser (auth : Settled AuthResponse.t)
    (profile : string -> Settled (Response.t Profile.t))
    (heal : Profile.t -> Settled (Response.t Profile.t))
    : Settled UserState.t :=
  match auth with
  | RejectedWith e => RejectedWith e
  | Fulfilled a =>
    match AuthResponse.error a with
    | Some e => RejectedWith e
    | None =>
      match AuthResponse.user a with
      | None => RejectedWith (BackendError "Login failed")
      | Some user =>
        match profile (AuthUser.id user) with
        | RejectedWith e => RejectedWith e
        | Fulfilled pr =>
          let profileData := Response.data pr in
          if bool_decide (profileData = None)
             || bool_decide (is_Some (Response.error pr)) then
            match heal (healingProfile user) with
            | RejectedWith e => RejectedWith e
            | Fulfilled hr =>
              match Response.data hr with
              | Some healedProfile => Fulfilled (userOfProfile healedProfile)
              | None => Fulfilled (userOfLogin profileData user)
              end
            end
          else Fulfilled (userOfLogin profileData user)
        end
      end
    end
  end.

End UserService.

(** ** Concrete inputs used by the examples *)

(** An amount in whole rupees. *)
Definition rupees (z : Z) : Double.t := Double.of_Z z.

Definition rice : Product.t :=
  {| Product.id := "1"; Product.name := "Rice"; Product.price := rupees 60;
     Product.mrp := Some (rupees 65); Product.emoji := "rice";
     Product.category := "Staples"; Product.brands := None |}.

Definition rice_item (q : Z) : CartItem.t :=
  {| CartItem.id := "1-Generic-1700000000000"; CartItem.name := "Rice";
     CartItem.price := rupees 60; CartItem.mrp := Some (rupees 65);
     CartItem.emoji := "rice";
     CartItem.category := "Staples"; CartItem.brands := None;
     CartItem.quantity := q; CartItem.selectedBrand := "Generic";
     CartItem.originalProductId := "1"; CartItem.storeId := "s1";
     CartItem.storeName := "Corner Mart"; CartItem.storeType := general |}.

(** A cart line of the same store with a given id and unit price. *)
Definition priced_item (id : string) (price : Double.t) (q : Z) : CartItem.t :=
  {| CartItem.id := id ++ "-Generic-1700000000000"; CartItem.name := "Item";
     CartItem.price := price; CartItem.mrp := None; CartItem.emoji := "item";
     CartItem.category := "Staples"; CartItem.brands := None;
     CartItem.quantity := q; CartItem.selectedBrand := "Generic";
     CartItem.originalProductId := id; CartItem.storeId := "s1";
     CartItem.storeName := "Corner Mart"; CartItem.storeType := general |}.

(** An order for two units of rice, in a given state. *)
Definition order_in (id : string) (s : OrderStatus) (p : PaymentStatus)
    (m : OrderMode) (d : DeliveryType) : Order.t :=
  {| Order.id := id; Order.date := "2025-01-01T10:00:00.000Z";
     Order.items := [rice_item 2]; Order.total := rupees 120;
     Order.status := s; Order.paymentStatus := p;
     Order.paymentDeadline := None; Order.mode := m; Order.deliveryType := d;
     Order.scheduledTime := None; Order.deliveryAddress := Some "12th Main";
     Order.storeName := "Corner Mart"; Order.storeLocation := None;
     Order.userLocation := None; Order.splits := None;
     Order.customerName := Some "Asha"; Order.customerPhone := Some "9000000000" |}.

(** A row of [orders] for two units of rice. *)
Definition row_in (id status : string) (customer : option string) : DbOrder.t :=
  {| DbOrder.id := id; DbOrder.created_at := "2025-01-01T10:00:00.000Z";
     DbOrder.items := [rice_item 2]; DbOrder.total_amount := rupees 120;
     DbOrder.status := status; DbOrder.type := Some DELIVERY;
     DbOrder.delivery_lat := 1297 # 100; DbOrder.delivery_lng := 7764 # 100;
     DbOrder.delivery_address := Some "12th Main";
     DbOrder.customer_id := customer; DbOrder.store_id := "s1" |}.

(** A signed-in shopper, a store, and the customer application at the
    payment step with a given cart. *)
Definition shopper : CustomerApp.UserState.t :=
  {| CustomerApp.UserState.id := Some "u1";
     CustomerApp.UserState.name := Some "Asha";
     CustomerApp.UserState.phone := "9000000000";
     CustomerApp.UserState.address := Some "12th Main" |}.

Definition corner_mart : Store.t :=
  {| Store.id := "s1"; Store.name := "Corner Mart";
     Store.address := "Indiranagar"; Store.rating := 48 # 10;
     Store.distance := "0.8 km"; Store.lat := 129716 # 10000;
     Store.lng := 775946 # 10000; Store.isOpen := true; Store.type := general;
     Store.availableProductIds := ["1"]; Store.upiId := Some "mart@upi";
     Store.ownerId := Some "owner1" |}.

Definition paying (c : list CartItem.t) : CustomerApp.State :=
  {| CustomerApp.activeView := CustomerApp.CART;
     CustomerApp.selectedStore := Some corner_mart;
     CustomerApp.storeProducts := [rice];
     CustomerApp.cart := c;
     CustomerApp.showPayment := true;
     CustomerApp.pendingOrderDetails :=
       Some (CustomerApp.OrderDetails.mk INSTANT None None);
     CustomerApp.currentLocation := None |}.

(** A [saveOrder] that always succeeds. *)
Definition saveOrder_ok (uid : string) (o : Order.t) : Settled unit :=
  Fulfilled ().

(** An inventory item with two brand overrides, one of them switched
    off. *)
Definition atta : StoreApp.InventoryItem.t :=
  {| StoreApp.InventoryItem.id := "7"; StoreApp.InventoryItem.name := "Atta";
     StoreApp.InventoryItem.price := rupees 50;
     StoreApp.InventoryItem.mrp := Some (rupees 55);
     StoreApp.InventoryItem.emoji := "atta";
     StoreApp.InventoryItem.category := "Staples";
     StoreApp.InventoryItem.brands :=
       Some [BrandOption.mk "Tata" (rupees 55);
             BrandOption.mk "Aashirvaad" (rupees 60)];
     StoreApp.InventoryItem.inStock := true;
     StoreApp.InventoryItem.stock := Count.Int 5;
     StoreApp.InventoryItem.storePrice := rupees 50;
     StoreApp.InventoryItem.isActive := true;
     StoreApp.InventoryItem.brandDetails :=
       Some (<["Tata" :=
                StoreApp.BrandInventoryInfo.mk (rupees 50) (rupees 55)
                  (Count.Int 5) true]>
             (<["Aashirvaad" :=
                  StoreApp.BrandInventoryInfo.mk (rupees 58) (rupees 60)
                    (Count.Int 7) false]> ∅)) |}.

(** A backend whose order query returns one row and whose profile lookup
    reports an error. *)
Definition db_profiles_unreadable : StoreAdminService.Backend.t :=
  {| StoreAdminService.Backend.select_orders := fun _ =>
       Fulfilled (Response.mk (Some [row_in "o1" "placed" (Some "c1")]) None);
     StoreAdminService.Backend.select_profiles := fun _ =>
       Fulfilled (Response.mk None (Some (BackendError "permission denied"))) |}.

(** A backend whose order query reports an error. *)
Definition db_orders_unreadable : StoreAdminService.Backend.t :=
  {| StoreAdminService.Backend.select_orders := fun _ =>
       Fulfilled (Response.mk None (Some (BackendError "connection lost")));
     StoreAdminService.Backend.select_profiles := fun _ =>
       Fulfilled (Response.mk (Some []) None) |}.

(** A [stores] row, and a profile form whose name and latitude are falsy. *)
Definition store_row : gmap string JsVal :=
  <["id" := JStr "s1"]>
  (<["name" := JStr "Corner Mart"]>
  (<["address" := JStr "Indiranagar"]>
  (<["lat" := JNum (129716 # 10000)]>
  (<["lng" := JNum (775946 # 10000)]> ∅)))).

Definition blank_name_form : StoreAdminService.StoreUpdates.t :=
  {| StoreAdminService.StoreUpdates.id := None;
     StoreAdminService.StoreUpdates.name := Some "";
     StoreAdminService.StoreUpdates.address := Some "HAL 2nd Stage";
     StoreAdminService.StoreUpdates.rating := None;
     StoreAdminService.StoreUpdates.distance := None;
     StoreAdminService.StoreUpdates.lat := Some 0%Q;
     StoreAdminService.StoreUpdates.lng := Some (776400 # 10000);
     StoreAdminService.StoreUpdates.isOpen := Some false;
     StoreAdminService.StoreUpdates.type := None;
     StoreAdminService.StoreUpdates.availableProductIds := None;
     StoreAdminService.StoreUpdates.upiId := None;
     StoreAdminService.StoreUpdates.ownerId := None |}.

(** ** The specification's side of the comparisons, in its words *)

(** The element that follows the first occurrence of [x] in [l]. *)
Fixpoint next_in `{EqDecision A} (l : list A) (x : A) : option A :=
  match l with
  | y :: l' =>
    if decide (y = x) then head l' else next_in l' x
  | [] => None
  end.

Definition spec_progression (m : OrderMode) : list OrderStatus :=
  match m with
  | DELIVERY => [Placed; Accepted; Preparing; OnTheWay; Delivered]
  | PICKUP => [Placed; Accepted; Preparing; Ready; PickedUp]
  end.

Definition spec_terminal (s : OrderStatus) : bool :=
  bool_decide (s ∈ [Delivered; PickedUp; Rejected; Cancelled]).

(** A change of status from [s] to [s'] that §4.2 permits in mode [m]: the
    next state of the progression, [Rejected] from [Placed] or [Accepted],
    or [Cancelled] from a state that is not terminal. *)
Definition spec_allows (m : OrderMode) (s s' : OrderStatus) : bool :=
  bool_decide (next_in (spec_progression m) s = Some s')
  || (bool_decide (s' = Rejected) && bool_decide (s ∈ [Placed; Accepted]))
  || (bool_decide (s' = Cancelled) && negb (spec_terminal s)).

(** The step list the progress indicator uses for a mode. *)
Definition steps_of (m : OrderMode) : list string :=
  MyOrders.StatusInfo.steps (MyOrders.getStatusInfo "Pending" m).

(** The progression the buttons of the store console follow, whatever the
    mode of the order. *)
Definition console_progression : list OrderStatus :=
  [Placed; Accepted; Preparing; Ready; PickedUp].

(** The sum of the line totals of an order, as the specification writes
    it ([Σ(item.price × item.quantity)]): the line totals are formed first,
    then added up in the order of the items, in the arithmetic of the
    language. *)
Definition line_total (item : CartItem.t) : Double.t :=
  Double.mul (CartItem.price item) (Double.of_Z (CartItem.quantity item)).

Definition sum_doubles (l : list Double.t) : Double.t :=
  foldl Double.add Double.zero l.

Definition sum_of_lines (items : list CartItem.t) : Double.t :=
  sum_doubles (line_total <$> items).

(** The variants of an item currently marked offered, and the sum of their
    stock counts. *)
Definition offered_variants
    (d : gmap string StoreApp.BrandInventoryInfo.t)
    : list StoreApp.BrandInventoryInfo.t :=
  List.filter StoreApp.BrandInventoryInfo.inStock (snd <$> map_to_list d).

Definition sum_stock (l : list StoreApp.BrandInventoryInfo.t) : Count.t :=
  foldr (fun b acc => Count.add (StoreApp.BrandInventoryInfo.stock b) acc)
        (Count.Int 0) l.

(** ** Predicates used in the statements *)

(** The two fields the specification's total invariant is about. *)
Definition total_and_items (o : Order.t) : Double.t * list CartItem.t :=
  (Order.total o, Order.items o).

(** The order query of a backend did not deliver: its promise rejected, or
    it resolved with an error. *)
Definition orders_query_failed (db : StoreAdminService.Backend.t)
    (storeId : string) : Prop :=
  match StoreAdminService.Backend.select_orders db storeId with
  | RejectedWith _ => True
  | Fulfilled r => is_Some (Response.error r)
  end.

(** What the store console can never show: an order awaiting payment or a
    scheduled one. *)
Definition paid_instant (o : Order.t) : Prop :=
  Order.paymentStatus o = PAID ∧ Order.deliveryType o = INSTANT.

(** What identifies a line of the cart: the product and the brand chosen. *)
Definition line_key (c : CartItem.t) : string * string :=
  (CartItem.originalProductId c, CartItem.selectedBrand c).

(** [price || product.price], the unit price [addToCart] gives a new line. *)
Definition finalPrice_of (price : option Double.t) (product : Product.t)
    : Double.t :=
  if truthy_num price then default Double.zero price else Product.price product.

(** The units of a product a cart line contributes to the product's card. *)
Definition units_of (pid : string) (c : CartItem.t) : Z :=
  if CartItem.originalProductId c =? pid then CartItem.quantity c else 0.

(** What [updateQuantity] does to one cart line before the filter. *)
Definition requantified (cartItemId : string) (delta : Z) (c : CartItem.t)
    : CartItem.t :=
  if CartItem.id c =? cartItemId
  then CustomerApp.add_quantity (Z.max 0 (CartItem.quantity c + delta)) c
  else c.

(** The line [addToCart] merges into: the first one with the product and
    the brand. *)
Definition matching_line (product : Product.t) (brandName : string)
    (cart : list CartItem.t) : option CartItem.t :=
  List.find (fun item =>
               (CartItem.originalProductId item =? Product.id product)
               && (CartItem.selectedBrand item =? brandName)) cart.

(** The profile a row's customer name is read from: the last one returned
    whose id is the row's customer key. *)
Definition profile_for (row : DbOrder.t) (profiles : list DbProfile.t)
    : option DbProfile.t :=
  List.find (fun p => DbProfile.id p =? StoreAdminService.customer_key row)
            (reverse profiles).

(** What a variant adds to the aggregate stock of its item. *)
Definition offered_units (b : StoreApp.BrandInventoryInfo.t) : Count.t :=
  if StoreApp.BrandInventoryInfo.inStock b
  then StoreApp.BrandInventoryInfo.stock b else Count.Int 0.

(** A console state with the store loaded and its profile form open. *)
Definition editing (store : Store.t) (form : StoreAdminService.StoreUpdates.t)
    (table : list (gmap string JsVal)) : StoreApp.ProfileState :=
  {| StoreApp.myStore := Some store; StoreApp.profileForm := form;
     StoreApp.isEditingProfile := true; StoreApp.demo_store_profile := None;
     StoreApp.stores_table := table; StoreApp.alerts := [] |}.

(** A form that moves the store to latitude 0. *)
Definition equator_form : StoreAdminService.StoreUpdates.t :=
  {| StoreAdminService.StoreUpdates.id := None;
     StoreAdminService.StoreUpdates.name := Some "Corner Mart";
     StoreAdminService.StoreUpdates.address := Some "Indiranagar";
     StoreAdminService.StoreUpdates.rating := None;
     StoreAdminService.StoreUpdates.distance := None;
     StoreAdminService.StoreUpdates.lat := Some 0%Q;
     StoreAdminService.StoreUpdates.lng := Some (775946 # 10000);
     StoreAdminService.StoreUpdates.isOpen := None;
     StoreAdminService.StoreUpdates.type := None;
     StoreAdminService.StoreUpdates.availableProductIds := None;
     StoreAdminService.StoreUpdates.upiId := None;
     StoreAdminService.StoreUpdates.ownerId := None |}.

(** The inventory query of a store did not deliver rows: its promise
    rejected, it resolved with an error, or it resolved without data. *)
Definition inventory_unreadable
    (inventory : Settled (Response.t (list DbInventory.t))) : Prop :=
  match inventory with
  | RejectedWith _ => True
  | Fulfilled r => is_Some (Response.error r) ∨ Response.data r = None
  end.

(** An inventory entry that carries a catalogue product's own fields. *)
Definition lists_product (c : Product.t) (e : StoreApp.InventoryItem.t) : Prop :=
  StoreApp.InventoryItem.id e = Product.id c
  ∧ StoreApp.InventoryItem.name e = Product.name c
  ∧ StoreApp.InventoryItem.category e = Product.category c
  ∧ StoreApp.InventoryItem.price e = Product.price c
  ∧ StoreApp.InventoryItem.mrp e = Product.mrp c
  ∧ StoreApp.InventoryItem.brands e = Product.brands c.

(** An inventory entry in the state of a product the store does not list. *)
Definition not_listed (e : StoreApp.InventoryItem.t) : Prop :=
  StoreApp.InventoryItem.isActive e = false
  ∧ StoreApp.InventoryItem.inStock e = false
  ∧ StoreApp.InventoryItem.stock e = Count.Int 0
  ∧ StoreApp.InventoryItem.storePrice e = StoreApp.InventoryItem.price e
  ∧ StoreApp.InventoryItem.brandDetails e = Some ∅.

(** A variant entry whose numbers a JSON document carries as they are. *)
Definition brand_json_exact (b : StoreApp.BrandInventoryInfo.t) : Prop :=
  Double.json_exact (StoreApp.BrandInventoryInfo.price b) = true
  ∧ Double.json_exact (StoreApp.BrandInventoryInfo.mrp b) = true
  ∧ StoreApp.BrandInventoryInfo.stock b ≠ Count.NaN.

(** A products query that never rejects. *)
Definition products_answer (pr : Response.t (list DbProduct.t))
    (ids : list string) : Settled (Response.t (list DbProduct.t)) :=
  Fulfilled pr.

(** An inventory table with a row of another store and an older row for
    atta. *)
Definition inventory_table : list DbInventory.t :=
  [ DbInventory.mk "s2" "7" (rupees 52) true (Some 3) None;
    DbInventory.mk "s1" "7" (rupees 50) true (Some 5) None;
    DbInventory.mk "s1" "1" (rupees 60) true None None ].

Definition atta_product : Product.t :=
  {| Product.id := "7"; Product.name := "Atta"; Product.price := rupees 50;
     Product.mrp := Some (rupees 55); Product.emoji := "atta";
     Product.category := "Staples";
     Product.brands :=
       Some [BrandOption.mk "Tata" (rupees 55);
             BrandOption.mk "Aashirvaad" (rupees 60)] |}.

(** The in-stock rows query of a store failed: its promise rejected or it
    resolved with an error. *)
Definition stock_query_failed
    (inventory : Settled (Response.t (list DbInventory.t))) : Prop :=
  match inventory with
  | RejectedWith _ => True
  | Fulfilled r => is_Some (Response.error r)
  end.

(** The rows a fulfilled query carries. *)
Definition rows_of (inventory : Settled (Response.t (list DbInventory.t)))
    : list DbInventory.t :=
  match inventory with
  | Fulfilled r => default [] (Response.data r)
  | RejectedWith _ => []
  end.

(** * Properties *)

(** Case analysis on the four enumerated fields of an order. *)
Ltac order_cases o :=
  let st := fresh "st" in
  let ps := fresh "ps" in
  let m := fresh "m" in
  let dt := fresh "dt" in
  destruct o as [? ? ? ? st ps ? m dt ? ? ? ? ? ? ? ?];
  destruct st, ps, m, dt.

(** ** Sanity checks on concrete inputs *)

(** The arithmetic is that of the language: [0.1 + 0.2] is
    [0.30000000000000004], not [0.3], and 2^53 + 1 is not a double. *)
Example double_arithmetic :
  Double.add (Double.dec 1 1) (Double.dec 2 1) = Double.dec 30000000000000004 17
  ∧ Double.add (Double.dec 1 1) (Double.dec 2 1) ≠ Double.dec 3 1
  ∧ Double.of_Z (2 ^ 53 + 1) = Double.of_Z (2 ^ 53)
  ∧ Double.of_Z 0 = Double.zero
  ∧ Double.div Double.zero Double.zero = Double.nan.
Proof. vm_compute. by repeat split. Qed.

(** §8 of the specification: a delivery order being prepared is at
    position 1 of 3, a third of the line; the width computed is
    [(1 / 3) * 100 = 33.33333333333333]. *)
Example getStatusInfo_preparing_delivery :
  MyOrders.StatusInfo.currentIndex (MyOrders.getStatusInfo "Preparing" DELIVERY) = 1
  ∧ MyOrders.StatusInfo.progress (MyOrders.getStatusInfo "Preparing" DELIVERY)
    = Double.dec 3333333333333333 14.
Proof. by vm_compute. Qed.

Example tick_pickup_preparing :
  MyOrders.tick [order_in "o1" Preparing PAID PICKUP INSTANT;
                 order_in "o2" Cancelled PAID PICKUP INSTANT]
  = [order_in "o1" Ready PAID PICKUP INSTANT;
     order_in "o2" Cancelled PAID PICKUP INSTANT].
Proof. reflexivity. Qed.

Example dbStatus_of_picked_up :
  StoreAdminService.dbStatus_of "Picked Up" = "picked_up"
  ∧ StoreAdminService.dbStatus_of "Delivered" = "delivered".
Proof. by split. Qed.

Example customerIds_of_rows :
  StoreAdminService.customerIds_of
    [row_in "o1" "placed" (Some "c1"); row_in "o2" "placed" None;
     row_in "o3" "ready" (Some "c2"); row_in "o4" "ready" (Some "c1")]
  = ["c1"; "c2"].
Proof. reflexivity. Qed.

Example addToCart_twice :
  CartItem.quantity
    <$> CustomerApp.cart
          (CustomerApp.addToCart 2 rice 3 "Generic" None
             (CustomerApp.addToCart 1 rice 1 "Generic" (Some (rupees 58))
                (paying [])))
  = [4]
  ∧ CartItem.price
      <$> CustomerApp.cart
            (CustomerApp.addToCart 2 rice 3 "Generic" None
               (CustomerApp.addToCart 1 rice 1 "Generic" (Some (rupees 58))
                  (paying [])))
    = [rupees 58].
Proof. by vm_compute. Qed.

(** ** The demo simulator *)

Section Simulator.
Import MyOrders.

Lemma ticks_S n orders : ticks (S n) orders = tick (ticks n orders).
Proof. reflexivity. Qed.

Lemma ticks_singleton n o : ticks n [o] = [Nat.iter n tick_order o].
Proof.
  induction n as [|n IH]; [reflexivity|].
  rewrite ticks_S, IH. reflexivity.
Qed.

Lemma ticks_lookup n orders i :
  ticks n orders !! i = Nat.iter n tick_order <$> orders !! i.
Proof.
  revert orders; induction n as [|n IH]; intros orders.
  - simpl. by destruct (orders !! i).
  - rewrite ticks_S. unfold tick. rewrite list_lookup_fmap, IH.
    simpl. by destruct (orders !! i).
Qed.

Lemma ticks_length n orders : length (ticks n orders) = length orders.
Proof.
  induction n as [|n IH]; [reflexivity|].
  rewrite ticks_S. unfold tick. by rewrite length_map.
Qed.

(** A tick only ever writes the [status] field. *)
Lemma tick_order_with_status o :
  tick_order o = Order.with_status o (Order.status (tick_order o)).
Proof. by order_cases o. Qed.

(** Completed and cancelled orders are fixed points of the tick. *)
Lemma tick_order_terminal o :
  Order.status o = Cancelled ∨ Order.status o = Delivered
  ∨ Order.status o = PickedUp →
  tick_order o = o.
Proof.
  destruct o as [? ? ? ? st [] ? [] [] ? ? ? ? ? ? ? ?]; simpl.
  all: intros [->|[->| ->]]; reflexivity.
Qed.

Lemma iter_tick_order_terminal n o :
  Order.status o = Cancelled ∨ Order.status o = Delivered
  ∨ Order.status o = PickedUp →
  Nat.iter n tick_order o = o.
Proof.
  intros H. induction n as [|n IH]; [reflexivity|].
  simpl. rewrite IH. by apply tick_order_terminal.
Qed.

(** A scheduled order awaiting payment is a fixed point of the tick. *)
Lemma tick_order_scheduled_unpaid o :
  Order.deliveryType o = SCHEDULED → Order.paymentStatus o = PENDING →
  tick_order o = o.
Proof.
  destruct o as [? ? ? ? st ps ? m dt ? ? ? ? ? ? ? ?]; simpl.
  intros -> ->. reflexivity.
Qed.

End Simulator.

(** C2: under the demo simulator a paid delivery order as the checkout
    creates it, with the status ['Pending'] that the specification writes
    [Placed/Pending] and the progress line labels "Placed", is
    ['Preparing'] after one tick, ['On the way'] after two and
    ['Delivered'] after three; it is ['Delivered'] after [n] ticks exactly
    when [n] is at least three. *)
Theorem simulator_pending_delivery_three_ticks (o : Order.t) :
  Order.status o = Pending → Order.mode o = DELIVERY →
  Order.paymentStatus o = PAID →
  MyOrders.getLabel (status_str (Order.status o)) = "Placed"
  ∧ MyOrders.ticks 1 [o] = [Order.with_status o Preparing]
  ∧ MyOrders.ticks 2 [o] = [Order.with_status o OnTheWay]
  ∧ MyOrders.ticks 3 [o] = [Order.with_status o Delivered]
  ∧ ∀ n, Order.status <$> MyOrders.ticks n [o] = [Delivered] ↔ (3 ≤ n)%nat.
Proof.
  intros Hs Hm Hp.
  assert (H1 : MyOrders.tick_order o = Order.with_status o Preparing).
  { destruct o as [? ? ? ? st ps ? m dt ? ? ? ? ? ? ? ?]; simpl in *; subst.
    by destruct dt. }
  assert (H2 : MyOrders.tick_order (Order.with_status o Preparing)
               = Order.with_status o OnTheWay).
  { destruct o as [? ? ? ? st ps ? m dt ? ? ? ? ? ? ? ?]; simpl in *; subst.
    by destruct dt. }
  assert (H3 : MyOrders.tick_order (Order.with_status o OnTheWay)
               = Order.with_status o Delivered).
  { destruct o as [? ? ? ? st ps ? m dt ? ? ? ? ? ? ? ?]; simpl in *; subst.
    by destruct dt. }
  assert (I1 : Nat.iter 1 MyOrders.tick_order o = Order.with_status o Preparing)
    by exact H1.
  assert (I2 : Nat.iter 2 MyOrders.tick_order o = Order.with_status o OnTheWay).
  { change (Nat.iter 2 MyOrders.tick_order o)
      with (MyOrders.tick_order (Nat.iter 1 MyOrders.tick_order o)).
    by rewrite I1. }
  assert (I3 : Nat.iter 3 MyOrders.tick_order o = Order.with_status o Delivered).
  { change (Nat.iter 3 MyOrders.tick_order o)
      with (MyOrders.tick_order (Nat.iter 2 MyOrders.tick_order o)).
    by rewrite I2. }
  split; [by rewrite Hs|].
  rewrite !ticks_singleton, I1, I2, I3. repeat split.
  - destruct n as [|[|[|n]]]; rewrite ticks_singleton; intros E.
    + simpl in E. congruence.
    + rewrite I1 in E. discriminate.
    + rewrite I2 in E. discriminate.
    + lia.
  - intros Hn. rewrite ticks_singleton.
    replace n with ((n - 3) + 3)%nat by lia.
    rewrite Nat.iter_add, I3.
    rewrite iter_tick_order_terminal; [reflexivity|]. right; left; reflexivity.
Qed.

Lemma simulator_pending_delivery_three_ticks_witness :
  MyOrders.ticks 3 [order_in "o1" Pending PAID DELIVERY INSTANT]
  = [order_in "o1" Delivered PAID DELIVERY INSTANT].
Proof.
  exact (proj1 (proj2 (proj2 (proj2
    (simulator_pending_delivery_three_ticks
       (order_in "o1" Pending PAID DELIVERY INSTANT) eq_refl eq_refl eq_refl))))).
Defined.

(** C6, as stated, at an instant order awaiting payment: one tick moves it
    from ['Pending'] to ['Preparing']; only scheduled orders are held. *)
Lemma simulator_advances_unpaid_instant :
  let o := order_in "o2" Pending PENDING DELIVERY INSTANT in
  Order.paymentStatus o = PENDING
  ∧ Order.status (MyOrders.tick_order o) = Preparing
  ∧ ¬ (∀ o' : Order.t, Order.paymentStatus o' = PENDING →
         Order.status (MyOrders.tick_order o') = Order.status o').
Proof.
  repeat split.
  intros H.
  specialize (H (order_in "o2" Pending PENDING DELIVERY INSTANT) eq_refl).
  discriminate H.
Qed.

(** C6 (amended): an order whose delivery sub-type is scheduled and whose
    payment is pending is left exactly as it is by the demo simulator, for
    either fulfillment mode and any number of ticks; it stays in the
    customer's list at its position, where its card reads "Payment
    Pending" and draws no progress line. *)
Theorem simulator_holds_scheduled_unpaid (orders : list Order.t) (i n : nat)
    (o : Order.t) :
  orders !! i = Some o →
  Order.deliveryType o = SCHEDULED → Order.paymentStatus o = PENDING →
  MyOrders.ticks n orders !! i = Some o
  ∧ length (MyOrders.ticks n orders) = length orders
  ∧ MyOrders.statusBadge o = "Payment Pending"
  ∧ MyOrders.showTimeline o = false.
Proof.
  intros Hi Hd Hp. split; [|split; [apply ticks_length|]].
  - rewrite ticks_lookup, Hi. simpl. f_equal.
    induction n as [|n IH]; [reflexivity|].
    simpl. rewrite IH. by apply tick_order_scheduled_unpaid.
  - unfold MyOrders.statusBadge, MyOrders.showTimeline,
      MyOrders.isPaymentPending.
    rewrite Hp. simpl. by rewrite andb_false_r.
Qed.

Lemma simulator_holds_scheduled_unpaid_witness :
  MyOrders.ticks 5 [order_in "o3" Pending PENDING PICKUP SCHEDULED] !! 0%nat
  = Some (order_in "o3" Pending PENDING PICKUP SCHEDULED).
Proof.
  exact (proj1 (simulator_holds_scheduled_unpaid
    [order_in "o3" Pending PENDING PICKUP SCHEDULED] 0 5
    (order_in "o3" Pending PENDING PICKUP SCHEDULED) eq_refl eq_refl eq_refl)).
Defined.

(** ** Status progression *)

(** The status written by the console survives the trip through the
    [status] column: what [updateStoreOrderStatus] stores,
    [mapDbStatusToAppStatus] reads back. *)
Lemma dbStatus_roundtrip (s : OrderStatus) :
  StoreAdminService.mapDbStatusToAppStatus
    (StoreAdminService.dbStatus_of (status_str s)) = s.
Proof. by destruct s. Qed.

(** C1, as stated, at a delivery order being prepared: the only button the
    console draws sends ['Ready'], which is not the next delivery state of
    §4.2 (['On the way']); and at a freshly created paid order: the
    simulator moves it from ['Pending'] to ['Preparing'], and no state of
    §4.2 is followed by ['Preparing'] except ['Accepted'], which the
    simulator never writes. *)
Lemma lifecycle_departs_from_spec_progression :
  let o := order_in "o1" Preparing PAID DELIVERY INSTANT in
  let c := order_in "o2" Pending PAID DELIVERY INSTANT in
  StoreApp.order_actions (Order.status o) = [Ready]
  ∧ Order.status <$> StoreApp.handleOrderStatus_demo "o1" Ready [o] = [Ready]
  ∧ spec_allows (Order.mode o) (Order.status o) Ready = false
  ∧ Order.status (MyOrders.tick_order c) = Preparing
  ∧ spec_allows (Order.mode c) (Order.status c) Preparing = false
  ∧ spec_allows (Order.mode c) Placed Preparing = false.
Proof. by repeat split. Qed.

(** C1 (amended): the demo simulator either leaves an order as it is or
    moves its status, and nothing else, to the immediate successor in one of
    the two step lists of the progress indicator (Pending, Preparing, On the
    way, Delivered for delivery; Pending, Preparing, Ready, Picked Up for
    pickup), the list of the order's own mode whenever the status is in it;
    it never writes Accepted, Rejected or Cancelled, and an order that
    starts at Pending and is not held for payment spells out the list of
    its mode, one step per tick, in three ticks.  Every button of
    the store console sends the immediate successor in Placed, Accepted,
    Preparing, Ready, Picked Up, whatever the mode of the order, or
    Rejected from Placed; the demo handler writes exactly that status on
    the order with the given id, and the live handler writes a column value
    that reads back as that status. *)
Theorem lifecycle_follows_code_progressions :
  (∀ o : Order.t,
     MyOrders.tick_order o = o
     ∨ (MyOrders.tick_order o
          = Order.with_status o (Order.status (MyOrders.tick_order o))
        ∧ (next_in MyOrders.deliverySteps (status_str (Order.status o))
           = Some (status_str (Order.status (MyOrders.tick_order o)))
           ∨ next_in MyOrders.pickupSteps (status_str (Order.status o))
             = Some (status_str (Order.status (MyOrders.tick_order o))))
        ∧ (status_str (Order.status o) ∈ steps_of (Order.mode o) →
           next_in (steps_of (Order.mode o)) (status_str (Order.status o))
           = Some (status_str (Order.status (MyOrders.tick_order o))))
        ∧ Order.status (MyOrders.tick_order o) ∉ [Accepted; Rejected; Cancelled]))
  ∧ (∀ o : Order.t,
       Order.status o = Pending →
       (Order.deliveryType o = SCHEDULED → Order.paymentStatus o = PAID) →
       (λ n, status_str (Order.status (Nat.iter n MyOrders.tick_order o)))
         <$> [0; 1; 2; 3]%nat
       = steps_of (Order.mode o))
  ∧ (∀ s a : OrderStatus,
       a ∈ StoreApp.order_actions s →
       (next_in console_progression s = Some a ∨ (s = Placed ∧ a = Rejected))
       ∧ StoreAdminService.mapDbStatusToAppStatus
           (StoreAdminService.dbStatus_of (status_str a)) = a)
  ∧ (∀ (orderId : string) (a : OrderStatus) (prev : list Order.t) (i : nat)
       (o : Order.t),
       prev !! i = Some o →
       StoreApp.handleOrderStatus_demo orderId a prev !! i
       = Some (if Order.id o =? orderId then Order.with_status o a else o)).
Proof.
  split; [|split; [|split]].
  - intros o. order_cases o; first [by left | right].
    all: split; [reflexivity|].
    all: split; [first [by left | by right]|].
    all: split; [|by apply (bool_decide_unpack _)].
    all: first [reflexivity | intros Hin; exfalso; simpl in Hin].
    all: repeat (apply elem_of_cons in Hin as [Hin|Hin]; [discriminate Hin|]).
    all: by apply elem_of_nil in Hin.
  - intros o Hs Hd. destruct o as [? ? ? ? st ps ? m dt ? ? ? ? ? ? ? ?].
    simpl in *; subst.
    destruct ps, m, dt; try reflexivity; by specialize (Hd eq_refl).
  - intros s a Ha. split; [|apply dbStatus_roundtrip].
    destruct s; simpl in Ha.
    all: repeat (apply elem_of_cons in Ha as [->|Ha]).
    all: try (by apply elem_of_nil in Ha).
    all: first [by left | by right].
  - intros orderId a prev i o Hi.
    unfold StoreApp.handleOrderStatus_demo.
    by rewrite list_lookup_fmap, Hi.
Qed.

Lemma lifecycle_follows_code_progressions_witness :
  next_in console_progression Placed = Some Accepted
  ∨ (Placed = Placed ∧ Accepted = Rejected).
Proof.
  refine (proj1 (proj1 (proj2 (proj2 lifecycle_follows_code_progressions))
                   Placed Accepted _)).
  apply (bool_decide_unpack _). reflexivity.
Defined.

(** ** The progress indicator *)

Lemma indexOf_from_not_in (l : list string) (x : string) (i : Z) :
  x ∉ l → indexOf_from l x i = -1.
Proof.
  revert i; induction l as [|y l IH]; intros i Hx; [reflexivity|].
  apply not_elem_of_cons in Hx as [Hxy Hl]. simpl.
  destruct (String.eqb_spec y x) as [->|_]; [done|]. by apply IH.
Qed.

(** The progress line for a status outside the step list of the mode:
    [indexOf] gives [-1], so the width is [(-1 / 3) * 100]. *)
Lemma getStatusInfo_not_in_steps (status : string) (mode : OrderMode) :
  status ∉ MyOrders.StatusInfo.steps (MyOrders.getStatusInfo status mode) →
  MyOrders.StatusInfo.currentIndex (MyOrders.getStatusInfo status mode) = -1
  ∧ MyOrders.StatusInfo.progress (MyOrders.getStatusInfo status mode)
    = Double.mul (Double.div (Double.of_Z (-1)) (Double.of_Z 3)) (Double.of_Z 100).
Proof.
  intros Hout.
  assert (E : indexOf (MyOrders.StatusInfo.steps
                         (MyOrders.getStatusInfo status mode)) status = -1)
    by by apply indexOf_from_not_in.
  unfold MyOrders.getStatusInfo in *. cbn [MyOrders.StatusInfo.steps
    MyOrders.StatusInfo.currentIndex MyOrders.StatusInfo.progress] in *.
  rewrite E. split; [reflexivity|]. by destruct mode.
Qed.

(** C3, at a status that reaches the progress line in live mode.  An order
    leaves the checkout as a delivery order; while it is being prepared the
    only button of the store console sends ['Ready'], whatever the mode;
    the customer's change handler then shows ['Ready'], and the card draws
    its progress line.  ['Ready'] is not in the delivery step list, and no
    fallback is applied: the position is [-1], not [0], the width is
    [-33.33333333333333] percent, not [0], and no step is the current
    one (every step lies after the position).  The computation itself
    returns, so nothing blocks rendering. *)
Theorem progress_line_has_no_fallback :
  let st := paying [rice_item 2] in
  let r := CustomerApp.handlePaymentSuccess saveOrder_ok shopper 1700000000000
             "2025-01-01T10:00:00.000Z" st in
  ∃ created shown,
    CustomerApp.saved r = [("u1", created)]
    ∧ Order.mode created = DELIVERY
    ∧ StoreApp.order_actions Preparing = [Ready]
    ∧ MyOrders.onUserOrderChange
        {| DbOrder.id := Order.id created;
           DbOrder.created_at := Order.date created;
           DbOrder.items := Order.items created;
           DbOrder.total_amount := Order.total created;
           DbOrder.status := StoreAdminService.dbStatus_of (status_str Ready);
           DbOrder.type := Some (Order.mode created);
           DbOrder.delivery_lat := 0; DbOrder.delivery_lng := 0;
           DbOrder.delivery_address := Order.deliveryAddress created;
           DbOrder.customer_id := Some "u1"; DbOrder.store_id := "s1" |}
        [created] = [shown]
    ∧ Order.status shown = Ready
    ∧ MyOrders.showTimeline shown = true
    ∧ (let info :=
         MyOrders.getStatusInfo (status_str (Order.status shown))
           (Order.mode shown) in
       (status_str (Order.status shown) ∉ MyOrders.StatusInfo.steps info)
       ∧ MyOrders.StatusInfo.currentIndex info = -1
       ∧ MyOrders.StatusInfo.currentIndex info ≠ 0
       ∧ MyOrders.StatusInfo.progress info = Double.dec (-3333333333333333) 14
       ∧ MyOrders.StatusInfo.progress info ≠ Double.zero
       ∧ ∀ i : Z, (0 ≤ i)%Z → (MyOrders.StatusInfo.currentIndex info < i)%Z).
Proof.
  eexists _, _. split; [reflexivity|]. split; [reflexivity|].
  split; [reflexivity|]. split; [reflexivity|]. split; [reflexivity|].
  split; [reflexivity|]. cbv zeta.
  assert (Hout : "Ready" ∉ MyOrders.StatusInfo.steps
                              (MyOrders.getStatusInfo "Ready" DELIVERY)).
  { intros Hin.
    repeat (apply elem_of_cons in Hin as [Hin|Hin]; [discriminate Hin|]).
    by apply elem_of_nil in Hin. }
  destruct (getStatusInfo_not_in_steps "Ready" DELIVERY Hout) as [Hidx Hprog].
  change (status_str (Order.status _)) with "Ready".
  change (Order.mode _) with DELIVERY.
  split; [exact Hout|]. split; [exact Hidx|]. rewrite Hidx, Hprog.
  split; [discriminate|]. split; [by vm_compute|].
  split; [by vm_compute|]. intros i Hi. lia.
Qed.

(** ** Change notifications in live mode *)

(** C4, as stated, on the customer side: the handler of a change event
    rewrites the status of the order it already holds and never looks at the
    backend, so its result depends on the previous local list; an event for
    an order that is not in the list leaves the list without it. *)
Lemma customer_change_handler_merges :
  let ev := row_in "o9" "packing" (Some "c1") in
  let held := order_in "o9" Pending PAID DELIVERY INSTANT in
  MyOrders.onUserOrderChange ev [] = []
  ∧ MyOrders.onUserOrderChange ev [held] = [Order.with_status held Preparing]
  ∧ ¬ (∀ (e : DbOrder.t) (prev1 prev2 : list Order.t),
         MyOrders.onUserOrderChange e prev1 = MyOrders.onUserOrderChange e prev2).
Proof.
  repeat split.
  intros H.
  specialize (H (row_in "o9" "packing" (Some "c1")) []
                [order_in "o9" Pending PAID DELIVERY INSTANT]).
  discriminate H.
Qed.

(** C4 (amended): in live mode the store console answers every change
    event by fetching the store's full order list again and replacing its
    local list with the result, whatever the list held before.  The
    customer view does not fetch: on a change event it keeps its list and
    overwrites only the status of the order whose id is that of the changed
    row, with the status the row's column maps to; every other order and
    every other field stays as it was, and no order is added or removed. *)
Theorem change_event_handling :
  (∀ (db : StoreAdminService.Backend.t) (storeId : string)
     (prev : list Order.t),
     StoreApp.onOrdersChange db storeId prev
     = StoreAdminService.getIncomingOrders db storeId)
  ∧ (∀ (db : StoreAdminService.Backend.t) (storeId : string)
       (prev1 prev2 : list Order.t),
       StoreApp.onOrdersChange db storeId prev1
       = StoreApp.onOrdersChange db storeId prev2)
  ∧ (∀ (ev : DbOrder.t) (prev : list Order.t),
       length (MyOrders.onUserOrderChange ev prev) = length prev
       ∧ ∀ (i : nat) (o : Order.t),
           prev !! i = Some o →
           MyOrders.onUserOrderChange ev prev !! i
           = Some (if Order.id o =? DbOrder.id ev
                   then Order.with_status o
                          (MyOrders.appStatus_of (DbOrder.status ev))
                   else o)).
Proof.
  split; [reflexivity|]. split; [reflexivity|].
  intros ev prev. unfold MyOrders.onUserOrderChange. split.
  - by rewrite length_map.
  - intros i o Hi. by rewrite list_lookup_fmap, Hi.
Qed.

Lemma change_event_handling_witness :
  MyOrders.onUserOrderChange (row_in "o9" "on_way" None)
    [order_in "o8" Pending PAID DELIVERY INSTANT;
     order_in "o9" Preparing PAID DELIVERY INSTANT] !! 1%nat
  = Some (order_in "o9" OnTheWay PAID DELIVERY INSTANT).
Proof.
  exact (proj2 (proj2 (proj2 change_event_handling) (row_in "o9" "on_way" None)
    [order_in "o8" Pending PAID DELIVERY INSTANT;
     order_in "o9" Preparing PAID DELIVERY INSTANT]) 1%nat
    (order_in "o9" Preparing PAID DELIVERY INSTANT) eq_refl).
Defined.

(** ** Order creation *)

(** Prices with a fractional part: the total is the rounded running sum the
    code computes, [0.1 + 0.2 + 0.3 = 0.6000000000000001]. *)
Example totalAmount_tenths :
  CustomerApp.totalAmount
    [priced_item "a" (Double.dec 1 1) 1; priced_item "b" (Double.dec 2 1) 1;
     priced_item "c" (Double.dec 3 1) 1]
  = Double.dec 6000000000000001 16
  ∧ Double.dec 6000000000000001 16 ≠ Double.dec 6 1.
Proof. by vm_compute. Qed.

(** What [findIndex] finds, and what it means that it finds nothing. *)
Lemma findIndex_Some {A} (p : A → bool) (l : list A) (i : nat) :
  findIndex p l = Some i →
  ∃ x, l !! i = Some x ∧ p x = true ∧ ∀ j y, (j < i)%nat → l !! j = Some y → p y = false.
Proof.
  revert i; induction l as [|y l IH]; intros i; simpl; [done|].
  destruct (p y) eqn:Hy.
  - intros [= <-]. exists y. repeat split; [done|]. intros j z Hj. lia.
  - destruct (findIndex p l) as [k|]; simpl; [|done].
    intros [= <-]. destruct (IH k eq_refl) as (x & Hx & Hp & Hbefore).
    exists x. repeat split; [done..|].
    intros [|j] z Hj; simpl; [by intros [= <-]|].
    apply Hbefore. lia.
Qed.

Lemma findIndex_None {A} (p : A → bool) (l : list A) :
  findIndex p l = None → ∀ x, x ∈ l → p x = false.
Proof.
  induction l as [|y l IH]; simpl; [by intros _ x ?%elem_of_nil|].
  destruct (p y) eqn:Hy; [done|].
  destruct (findIndex p l); simpl; [done|].
  intros _ x [->|Hx]%elem_of_cons; [done|by apply IH].
Qed.

Section Checkout.
Import CustomerApp.

(** The running sum of [reduce] adds the line totals in the order of the
    items. *)
Lemma fold_left_line_totals (items : list CartItem.t) (acc : Double.t) :
  fold_left (fun sum item =>
               Double.add sum
                 (Double.mul (CartItem.price item)
                             (Double.of_Z (CartItem.quantity item))))
            items acc
  = foldl Double.add acc (line_total <$> items).
Proof.
  revert acc; induction items as [|item items IH]; intros acc; [reflexivity|].
  rewrite fmap_cons. cbn [fold_left foldl]. by rewrite IH.
Qed.

Lemma totalAmount_sum_of_lines (items : list CartItem.t) :
  totalAmount items = sum_of_lines items.
Proof. apply fold_left_line_totals. Qed.

(** A line added at the end of the cart adds its line total to the total
    last. *)
Lemma totalAmount_snoc (items : list CartItem.t) (line : CartItem.t) :
  totalAmount (items ++ [line])
  = Double.add (totalAmount items) (line_total line).
Proof.
  rewrite !totalAmount_sum_of_lines. unfold sum_of_lines, sum_doubles.
  by rewrite fmap_app, foldl_app.
Qed.

(** Every order handed to [saveOrder] carries the cart as its items and the
    total of the cart as its total. *)
Lemma saved_order_of_cart saveOrder user now iso st uid o :
  (uid, o) ∈ saved (handlePaymentSuccess saveOrder user now iso st) →
  Order.items o = cart st ∧ Order.total o = totalAmount (cart st)
  ∧ Order.status o = Pending ∧ Order.paymentStatus o = PAID
  ∧ Order.mode o = DELIVERY.
Proof.
  unfold handlePaymentSuccess.
  destruct (pendingOrderDetails st) as [details|]; simpl;
    [|by intros ?%elem_of_nil].
  destruct (cart st) as [|first rest] eqn:Hc; simpl; [by intros ?%elem_of_nil|].
  destruct (UserState.id user) as [u|]; simpl; [|by intros ?%elem_of_nil].
  destruct (u =? ""); simpl; [by intros ?%elem_of_nil|].
  destruct (saveOrder u _); simpl.
  all: intros [E|?%elem_of_nil]%elem_of_cons; [|done].
  all: by injection E as -> ->.
Qed.

(** [Array.prototype.find] is the element at [findIndex]. *)
Lemma find_findIndex {A} (p : A → bool) (l : list A) :
  List.find p l = findIndex p l ≫= (fun i => l !! i).
Proof.
  induction l as [|c l IH]; simpl; [done|].
  destruct (p c); [done|]. rewrite IH. by destruct (findIndex p l).
Qed.

(** With no line for the product and brand, [addToCart] appends one that
    holds the price of that moment. *)
Lemma addToCart_new_line now product quantity brandName price st :
  is_Some (selectedStore st) →
  matching_line product brandName (cart st) = None →
  ∃ line,
    cart (addToCart now product quantity brandName price st)
    = (cart st ++ [line])%list
    ∧ CartItem.price line = finalPrice_of price product
    ∧ CartItem.quantity line = quantity
    ∧ line_key line = (Product.id product, brandName).
Proof.
  intros [store Hs]. unfold matching_line, addToCart.
  rewrite find_findIndex, Hs.
  destruct (findIndex _ (cart st)) as [idx|] eqn:Hf; simpl.
  - intros Hnone. exfalso. apply findIndex_Some in Hf as (x & Hx & _).
    by rewrite Hx in Hnone.
  - intros _. eexists. split; [reflexivity|]. by repeat split.
Qed.

(** With a line for the product and brand, [addToCart] raises the quantity
    of that line and writes nothing else: the price given is not used. *)
Lemma addToCart_merge now product quantity brandName price st line :
  is_Some (selectedStore st) →
  matching_line product brandName (cart st) = Some line →
  ∃ idx : nat,
    cart st !! idx = Some line
    ∧ cart (addToCart now product quantity brandName price st)
      = <[idx := add_quantity (CartItem.quantity line + quantity) line]> (cart st).
Proof.
  intros [store Hs]. unfold matching_line, addToCart.
  rewrite find_findIndex, Hs.
  destruct (findIndex _ (cart st)) as [idx|] eqn:Hf; simpl; [|done].
  intros Hline. exists idx. split; [done|].
  apply list_eq. intros i. destruct (decide (i = idx)) as [->|Hne].
  - rewrite list_lookup_alter_eq, Hline. simpl.
    rewrite list_lookup_insert_eq; [done|]. by eapply lookup_lt_Some.
  - by rewrite list_lookup_alter_ne, list_lookup_insert_ne.
Qed.

Lemma updateQuantity_keeps_prices cartItemId delta st item :
  item ∈ cart (updateQuantity cartItemId delta st) →
  ∃ item0, item0 ∈ cart st ∧ CartItem.id item = CartItem.id item0
           ∧ CartItem.price item = CartItem.price item0.
Proof.
  unfold updateQuantity. simpl.
  intros Hin%list_elem_of_In%filter_In. destruct Hin as [Hin _].
  apply list_elem_of_In, list_elem_of_fmap in Hin as (item0 & -> & Hin0).
  exists item0. split; [done|]. by destruct (CartItem.id item0 =? cartItemId).
Qed.

(** The payment handler does not read the product list. *)
Lemma handlePaymentSuccess_setStoreProducts saveOrder user now iso st ps :
  saved (handlePaymentSuccess saveOrder user now iso (setStoreProducts ps st))
  = saved (handlePaymentSuccess saveOrder user now iso st).
Proof.
  unfold handlePaymentSuccess. simpl.
  destruct (pendingOrderDetails st); [|reflexivity].
  destruct (cart st); [reflexivity|].
  destruct (UserState.id user) as [u|]; [|reflexivity].
  destruct (u =? ""); [reflexivity|].
  by destruct (saveOrder u _).
Qed.

End Checkout.

(** A list update that only writes statuses keeps totals and items. *)
Lemma status_only_keeps_totals (f : Order.t → Order.t) (l : list Order.t) :
  (∀ o, f o = Order.with_status o (Order.status (f o))) →
  total_and_items <$> (f <$> l) = total_and_items <$> l.
Proof.
  intros Hf. induction l as [|o l IH]; [reflexivity|].
  rewrite !fmap_cons, IH. f_equal. by rewrite Hf.
Qed.

(** C5: the total of every order the checkout creates is the sum over its
    line items of unit price times quantity, as the arithmetic of the
    language computes it (the line totals added up in the order of the
    items, each operation rounded), the items being the cart.  A line
    holds the price of the moment it was added: when a product is added
    that has no line yet, a later refresh of the store's products, with
    whatever prices, changes neither the cart nor the order then created,
    whose last item is that line at the price of the addition and whose
    total is the total of the earlier lines plus that price times the
    quantity; adding to a line that exists only raises its quantity and
    uses the price the line already holds, not the one passed; a change of
    quantity keeps the price of every line.  Every later step on an order
    (simulator tick, change event, status action) keeps its total and its
    items as they were stored. *)
Theorem order_total_fixed_at_creation :
  (∀ saveOrder user now iso st uid o,
     (uid, o) ∈ CustomerApp.saved
                  (CustomerApp.handlePaymentSuccess saveOrder user now iso st) →
     Order.items o = CustomerApp.cart st
     ∧ Order.total o = sum_of_lines (Order.items o))
  ∧ (∀ now product quantity brandName price st ps saveOrder user now' iso uid o,
       is_Some (CustomerApp.selectedStore st) →
       matching_line product brandName (CustomerApp.cart st) = None →
       (uid, o) ∈ CustomerApp.saved
                    (CustomerApp.handlePaymentSuccess saveOrder user now' iso
                       (CustomerApp.setStoreProducts ps
                          (CustomerApp.addToCart now product quantity brandName
                             price st))) →
       ∃ line,
         Order.items o = (CustomerApp.cart st ++ [line])%list
         ∧ CartItem.price line = finalPrice_of price product
         ∧ CartItem.quantity line = quantity
         ∧ line_key line = (Product.id product, brandName)
         ∧ Order.total o
           = Double.add (sum_of_lines (CustomerApp.cart st))
               (Double.mul (finalPrice_of price product) (Double.of_Z quantity)))
  ∧ (∀ now product quantity brandName price st line,
       is_Some (CustomerApp.selectedStore st) →
       matching_line product brandName (CustomerApp.cart st) = Some line →
       ∃ idx : nat,
         CustomerApp.cart st !! idx = Some line
         ∧ CustomerApp.cart
             (CustomerApp.addToCart now product quantity brandName price st)
           = <[idx := CustomerApp.add_quantity
                        (CartItem.quantity line + quantity) line]>
               (CustomerApp.cart st)
         ∧ CartItem.price
             (CustomerApp.add_quantity (CartItem.quantity line + quantity) line)
           = CartItem.price line)
  ∧ (∀ cartItemId delta st item,
       item ∈ CustomerApp.cart (CustomerApp.updateQuantity cartItemId delta st) →
       ∃ item0, item0 ∈ CustomerApp.cart st
                ∧ CartItem.id item = CartItem.id item0
                ∧ CartItem.price item = CartItem.price item0)
  ∧ (∀ l, total_and_items <$> MyOrders.tick l = total_and_items <$> l)
  ∧ (∀ ev l, total_and_items <$> MyOrders.onUserOrderChange ev l
             = total_and_items <$> l)
  ∧ (∀ orderId s l, total_and_items <$> StoreApp.handleOrderStatus_demo orderId s l
                    = total_and_items <$> l).
Proof.
  split; [|split; [|split; [|split; [|split; [|split]]]]].
  - intros saveOrder user now iso st uid o H.
    apply saved_order_of_cart in H as (-> & -> & _).
    split; [reflexivity|apply totalAmount_sum_of_lines].
  - intros now product quantity brandName price st ps saveOrder user now' iso
      uid o Hs Hnone H.
    rewrite handlePaymentSuccess_setStoreProducts in H.
    apply saved_order_of_cart in H as (Hitems & Htotal & _).
    destruct (addToCart_new_line now product quantity brandName price st Hs Hnone)
      as (line & Hcart & Hprice & Hq & Hkey).
    exists line. rewrite Hitems, Htotal, Hcart, totalAmount_snoc.
    rewrite totalAmount_sum_of_lines. unfold line_total. rewrite Hprice, Hq.
    done.
  - intros now product quantity brandName price st line Hs Hline.
    destruct (addToCart_merge now product quantity brandName price st line
                Hs Hline) as (idx & Hidx & Hcart).
    exists idx. by rewrite Hcart.
  - apply updateQuantity_keeps_prices.
  - intros l. apply status_only_keeps_totals, tick_order_with_status.
  - intros ev l. apply status_only_keeps_totals.
    intros o. by destruct (Order.id o =? DbOrder.id ev), o.
  - intros orderId s l. apply status_only_keeps_totals.
    intros o. by destruct (Order.id o =? orderId), o.
Qed.

(** Rice is added at 58 rupees, the store then raises it to 70, and the
    order is paid: its total is [120 + 58 * 3]. *)
Lemma order_total_fixed_at_creation_witness :
  let dearer :=
    {| Product.id := "1"; Product.name := "Rice"; Product.price := rupees 70;
       Product.mrp := Some (rupees 75); Product.emoji := "rice";
       Product.category := "Staples"; Product.brands := None |} in
  ∃ o,
    CustomerApp.saved
      (CustomerApp.handlePaymentSuccess saveOrder_ok shopper 1700000000001
         "2025-01-01T10:00:00.000Z"
         (CustomerApp.setStoreProducts [dearer]
            (CustomerApp.addToCart 1700000000000 rice 3 "Tata"
               (Some (rupees 58)) (paying [rice_item 2]))))
    = [("u1", o)]
    ∧ Order.total o = rupees 294.
Proof.
  intros dearer. eexists. split; [reflexivity|].
  destruct (proj1 (proj2 order_total_fixed_at_creation) 1700000000000 rice 3
              "Tata" (Some (rupees 58)) (paying [rice_item 2]) [dearer]
              saveOrder_ok shopper 1700000000001 "2025-01-01T10:00:00.000Z"
              "u1" _ ltac:(by eexists) eq_refl
              ltac:(apply elem_of_cons; left; reflexivity))
    as (line & _ & _ & _ & _ & Ht).
  rewrite Ht. by vm_compute.
Defined.

(** C7: with an empty cart the payment handler creates no order: nothing is
    handed to [saveOrder], the cart and views stay as they were, and, once
    a checkout is pending, the handler fails with a [TypeError] instead of
    completing. *)
Theorem empty_cart_creates_no_order saveOrder user now iso st :
  CustomerApp.cart st = [] →
  CustomerApp.saved (CustomerApp.handlePaymentSuccess saveOrder user now iso st) = []
  ∧ CustomerApp.state (CustomerApp.handlePaymentSuccess saveOrder user now iso st)
    = st
  ∧ (is_Some (CustomerApp.pendingOrderDetails st) →
     ∃ msg, CustomerApp.completion
              (CustomerApp.handlePaymentSuccess saveOrder user now iso st)
            = RejectedWith (TypeError msg)).
Proof.
  intros Hc. unfold CustomerApp.handlePaymentSuccess. rewrite Hc.
  destruct (CustomerApp.pendingOrderDetails st) as [details|]; simpl.
  - repeat split. intros _. by eexists.
  - repeat split. by intros [? ?].
Qed.

Lemma empty_cart_creates_no_order_witness :
  CustomerApp.saved
    (CustomerApp.handlePaymentSuccess saveOrder_ok shopper 1700000000000
       "2025-01-01T10:00:00.000Z" (paying [])) = []
  ∧ ∃ msg, CustomerApp.completion
             (CustomerApp.handlePaymentSuccess saveOrder_ok shopper 1700000000000
                "2025-01-01T10:00:00.000Z" (paying []))
           = RejectedWith (TypeError msg).
Proof.
  pose proof (empty_cart_creates_no_order saveOrder_ok shopper 1700000000000
                "2025-01-01T10:00:00.000Z" (paying []) eq_refl) as (H1 & _ & H3).
  split; [exact H1|]. apply H3. by eexists.
Defined.

(** ** Inventory *)

(** Adding counts is commutative and associative, with [NaN] absorbing, so
    the order in which [reduce] meets the entries of the brand dictionary
    does not matter. *)
Lemma count_add_comm (x y : Count.t) : Count.add x y = Count.add y x.
Proof. destruct x, y; simpl; try done. f_equal. lia. Qed.

Lemma count_add_assoc (x y z : Count.t) :
  Count.add x (Count.add y z) = Count.add (Count.add x y) z.
Proof. destruct x, y, z; simpl; try done. f_equal. lia. Qed.

Lemma count_add_0_r (x : Count.t) : Count.add x (Count.Int 0) = x.
Proof. destruct x; simpl; [|done]. f_equal. lia. Qed.

Lemma count_add_0_l (x : Count.t) : Count.add (Count.Int 0) x = x.
Proof. by destruct x. Qed.

Section Inventory.
Import StoreApp.

Lemma foldr_offered (l : list (string * BrandInventoryInfo.t)) :
  foldr (uncurry (fun (_ : string) b sum =>
                    Count.add sum (if BrandInventoryInfo.inStock b
                                   then BrandInventoryInfo.stock b
                                   else Count.Int 0))) (Count.Int 0) l
  = sum_stock (List.filter BrandInventoryInfo.inStock (snd <$> l)).
Proof.
  induction l as [|[k b] l IH]; [reflexivity|].
  rewrite fmap_cons. cbn [foldr uncurry List.filter snd]. rewrite IH.
  destruct (BrandInventoryInfo.inStock b); simpl.
  - apply count_add_comm.
  - apply count_add_0_r.
Qed.

(** The [reduce] over the brand dictionary is the sum of the stock counts of
    the variants marked offered. *)
Lemma offeredStock_sum (d : gmap string BrandInventoryInfo.t) :
  offeredStock d = sum_stock (offered_variants d).
Proof.
  unfold offeredStock, offered_variants.
  rewrite map_fold_foldr. apply foldr_offered.
Qed.

(** The entries of the inventory after an update: the ones with the id of
    the edited product are rebuilt, the others are as before. *)
Lemma handleInventoryUpdate_elem store inventory product newPrice newStockStatus
    newStockQty newMrp newBrandDetails item' :
  item' ∈ handleInventoryUpdate (Some store) inventory product newPrice
            newStockStatus newStockQty newMrp newBrandDetails →
  InventoryItem.id item' = InventoryItem.id product →
  InventoryItem.stock item' = newStockQty
  ∧ InventoryItem.inStock item' = newStockStatus
  ∧ InventoryItem.brandDetails item'
    = Some (match newBrandDetails with
            | Some d => d
            | None => default ∅ (InventoryItem.brandDetails product)
            end).
Proof.
  unfold handleInventoryUpdate.
  intros (item & -> & _)%list_elem_of_fmap Hid.
  destruct (String.eqb_spec (InventoryItem.id item) (InventoryItem.id product))
    as [_|Hne]; [by destruct newBrandDetails|done].
Qed.

End Inventory.

(** Clearing the stock field of a variant sends [NaN]: the table holds it
    and the aggregate is [NaN]; typing 5 afterwards brings the aggregate
    back to the sum of the offered variants. *)
Example brand_stock_field_cleared :
  StoreApp.InventoryItem.stock
    <$> StoreApp.handleBrandInventoryUpdate (Some corner_mart) [atta] atta
          "Tata" (StoreApp.SetStock Count.NaN)
  = [Count.NaN]
  ∧ ∀ cleared,
      StoreApp.handleBrandInventoryUpdate (Some corner_mart) [atta] atta
        "Tata" (StoreApp.SetStock Count.NaN) = [cleared] →
      StoreApp.InventoryItem.stock
        <$> StoreApp.handleBrandInventoryUpdate (Some corner_mart) [cleared]
              cleared "Tata" (StoreApp.SetStock (Count.Int 5))
      = [Count.Int 5].
Proof.
  split; [by vm_compute|]. intros cleared H.
  vm_compute in H. injection H as <-. by vm_compute.
Qed.

(** C8: after an update of a variant's stock count or offered flag, every
    inventory entry of the edited product holds the variant table in which
    the edited variant carries the value written (its other fields, and
    every other variant, being as before, a variant never edited before
    starting from stock 0, offered, at the item's store price), and an
    aggregate stock equal to the sum of the stock counts of exactly the
    variants marked offered in that table; the switch that turns the
    whole item off or on flips the item's offered flag and leaves its
    variant table (prices, stock counts, offered flags) and its aggregate
    stock as they were; and removing the item from the managed list leaves
    its variant table as it was. *)
Theorem brand_stock_aggregate_and_toggle :
  (∀ store inventory product brandName u item',
     StoreApp.touches_stock u = true →
     item' ∈ StoreApp.handleBrandInventoryUpdate (Some store) inventory product
               brandName u →
     StoreApp.InventoryItem.id item' = StoreApp.InventoryItem.id product →
     ∃ d old new,
       StoreApp.InventoryItem.brandDetails item' = Some d
       ∧ (∀ b, b ≠ brandName →
               d !! b = default ∅ (StoreApp.InventoryItem.brandDetails product) !! b)
       ∧ d !! brandName = Some new
       ∧ match default ∅ (StoreApp.InventoryItem.brandDetails product)
                 !! brandName with
         | Some e => old = e
         | None =>
           StoreApp.BrandInventoryInfo.price old
           = StoreApp.InventoryItem.storePrice product
           ∧ StoreApp.BrandInventoryInfo.stock old = Count.Int 0
           ∧ StoreApp.BrandInventoryInfo.inStock old = true
         end
       ∧ match u with
         | StoreApp.SetStock v =>
           StoreApp.BrandInventoryInfo.stock new = v
           ∧ StoreApp.BrandInventoryInfo.inStock new
             = StoreApp.BrandInventoryInfo.inStock old
         | StoreApp.SetInStock v =>
           StoreApp.BrandInventoryInfo.inStock new = v
           ∧ StoreApp.BrandInventoryInfo.stock new
             = StoreApp.BrandInventoryInfo.stock old
         | _ => False
         end
       ∧ StoreApp.BrandInventoryInfo.price new
         = StoreApp.BrandInventoryInfo.price old
       ∧ StoreApp.BrandInventoryInfo.mrp new = StoreApp.BrandInventoryInfo.mrp old
       ∧ StoreApp.InventoryItem.stock item' = sum_stock (offered_variants d))
  ∧ (∀ store inventory (i : nat) item,
       inventory !! i = Some item →
       ∃ item', StoreApp.toggleInStock (Some store) inventory item !! i = Some item'
                ∧ StoreApp.InventoryItem.inStock item'
                  = negb (StoreApp.InventoryItem.inStock item)
                ∧ StoreApp.InventoryItem.stock item'
                  = StoreApp.InventoryItem.stock item
                ∧ default ∅ (StoreApp.InventoryItem.brandDetails item')
                  = default ∅ (StoreApp.InventoryItem.brandDetails item)
                ∧ ∀ d, StoreApp.InventoryItem.brandDetails item = Some d →
                       StoreApp.InventoryItem.brandDetails item' = Some d)
  ∧ (∀ store inventory (i : nat) item,
       inventory !! i = Some item →
       ∃ item', StoreApp.handleDeleteItem (Some store) inventory item !! i
                = Some item'
                ∧ StoreApp.InventoryItem.inStock item' = false
                ∧ StoreApp.InventoryItem.brandDetails item'
                  = StoreApp.InventoryItem.brandDetails item).
Proof.
  split; [|split].
  - intros store inventory product brandName u item' Hu Hin Hid.
    unfold StoreApp.handleBrandInventoryUpdate in Hin.
    apply handleInventoryUpdate_elem in Hin as (Hs & _ & Hd); [|done].
    set (before := default ∅ (StoreApp.InventoryItem.brandDetails product)).
    exists (StoreApp.newBrandDetails_of product brandName u),
      (default (StoreApp.defaultBrandInfo product brandName) (before !! brandName)),
      (StoreApp.apply_update u
         (default (StoreApp.defaultBrandInfo product brandName)
                  (before !! brandName))).
    split; [exact Hd|]. split.
    { intros b Hb. unfold StoreApp.newBrandDetails_of.
      by rewrite lookup_insert_ne. }
    split; [apply lookup_insert_eq|]. split.
    { by destruct (before !! brandName). }
    split; [by destruct u|]. split; [by destruct u|]. split; [by destruct u|].
    rewrite Hs. unfold StoreApp.newTotalStock_of. rewrite Hu.
    apply offeredStock_sum.
  - intros store inventory i item Hi.
    unfold StoreApp.toggleInStock, StoreApp.handleInventoryUpdate.
    rewrite list_lookup_fmap, Hi. simpl.
    rewrite String.eqb_refl. eexists. split; [reflexivity|]. simpl.
    repeat split. by intros d ->.
  - intros store inventory i item Hi. unfold StoreApp.handleDeleteItem.
    rewrite list_lookup_fmap, Hi. simpl.
    rewrite String.eqb_refl. eexists. split; [reflexivity|]. by simpl.
Qed.

(** Aashirvaad, with 7 in stock, is switched on beside Tata, with 5. *)
Lemma brand_stock_aggregate_and_toggle_witness :
  ∃ item',
    StoreApp.handleBrandInventoryUpdate (Some corner_mart) [atta] atta
      "Aashirvaad" (StoreApp.SetInStock true) = [item']
    ∧ StoreApp.InventoryItem.stock item' = Count.Int 12
    ∧ ∃ d new,
        StoreApp.InventoryItem.brandDetails item' = Some d
        ∧ d !! "Aashirvaad" = Some new
        ∧ StoreApp.BrandInventoryInfo.inStock new = true
        ∧ StoreApp.InventoryItem.stock item' = sum_stock (offered_variants d).
Proof.
  eexists. split; [reflexivity|]. split; [reflexivity|].
  destruct (proj1 brand_stock_aggregate_and_toggle corner_mart [atta] atta
              "Aashirvaad" (StoreApp.SetInStock true) _ eq_refl
              ltac:(apply elem_of_cons; left; reflexivity) eq_refl)
    as (d & old & new & Hd & _ & Hnew & _ & [Hon _] & _ & _ & Hs).
  exists d, new. split; [exact Hd|]. split; [exact Hnew|].
  split; [exact Hon|exact Hs].
Defined.

(** ** Incoming orders of the store console *)

Section IncomingOrders.
Import StoreAdminService.

Lemma order_of_row_paid_instant profilesMap row :
  paid_instant (order_of_row profilesMap row).
Proof. by split. Qed.

Lemma getIncomingOrders_paid_instant db storeId o :
  o ∈ getIncomingOrders db storeId → paid_instant o.
Proof.
  unfold getIncomingOrders, getIncomingOrders_try.
  destruct (Backend.select_orders db storeId) as [r|e];
    [|by intros ?%elem_of_nil].
  destruct (Response.error r); [by intros ?%elem_of_nil|].
  destruct (Response.data r) as [[|row rows]|]; try by intros ?%elem_of_nil.
  destruct (0 <? length _)%nat.
  - destruct (Backend.select_profiles db _) as [pr|e];
      [|by intros ?%elem_of_nil].
    intros (row' & -> & _)%list_elem_of_fmap. apply order_of_row_paid_instant.
  - intros (row' & -> & _)%list_elem_of_fmap. apply order_of_row_paid_instant.
Qed.

Lemma getIncomingOrders_orders_query_failed db storeId :
  orders_query_failed db storeId → getIncomingOrders db storeId = [].
Proof.
  unfold orders_query_failed, getIncomingOrders, getIncomingOrders_try.
  destruct (Backend.select_orders db storeId) as [r|e]; [|done].
  by intros [e ->].
Qed.

Lemma with_status_paid_instant o s :
  paid_instant o → paid_instant (Order.with_status o s).
Proof. by intros [? ?]. Qed.

Lemma orders_step_paid_instant orders e :
  Forall paid_instant orders → Forall paid_instant (StoreApp.orders_step orders e).
Proof.
  intros H. destruct e as [p0 iso|db sid|db sid|orderId s|written db myStore];
    simpl.
  - repeat constructor.
  - apply Forall_forall. intros o. apply getIncomingOrders_paid_instant.
  - apply Forall_forall. intros o. apply getIncomingOrders_paid_instant.
  - unfold StoreApp.handleOrderStatus_demo. apply Forall_fmap.
    eapply Forall_impl; [exact H|]. intros o Ho. simpl.
    destruct (Order.id o =? orderId); [by apply with_status_paid_instant|done].
  - unfold StoreApp.handleOrderStatus_live.
    destruct written; [|done]. destruct myStore; [|done].
    apply Forall_forall. intros o. apply getIncomingOrders_paid_instant.
Qed.

End IncomingOrders.

(** C9, as stated, at a backend whose profile lookup reports an error: the
    fetch does not return the empty list, it returns the store's order with
    the name ['Guest']. *)
Lemma incoming_orders_survive_profile_error :
  StoreAdminService.Backend.select_profiles db_profiles_unreadable ["c1"]
  = Fulfilled (Response.mk None (Some (BackendError "permission denied")))
  ∧ StoreAdminService.getIncomingOrders db_profiles_unreadable "s1" ≠ []
  ∧ Order.customerName
      <$> StoreAdminService.getIncomingOrders db_profiles_unreadable "s1"
    = [Some "Guest"].
Proof. split; [reflexivity|]. split; [discriminate|reflexivity]. Qed.

(** C9 (amended): every order returned by the incoming-orders fetch has
    payment status PAID and delivery type INSTANT, whatever the backend
    rows hold; the fetch never raises; it returns the empty list whenever
    its body throws, in particular when the order query rejects or reports
    an error, while an error reported by the profile lookup is tolerated
    and the orders are returned without customer profiles; consequently
    the order list of the store console only ever holds paid, instant
    orders. *)
Theorem incoming_orders_paid_instant :
  (∀ db storeId o,
     o ∈ StoreAdminService.getIncomingOrders db storeId → paid_instant o)
  ∧ (∀ db storeId e,
       StoreAdminService.getIncomingOrders_try db storeId = inl e →
       StoreAdminService.getIncomingOrders db storeId = [])
  ∧ (∀ db storeId,
       orders_query_failed db storeId →
       StoreAdminService.getIncomingOrders db storeId = [])
  ∧ (∀ db storeId row rows e,
       StoreAdminService.Backend.select_orders db storeId
       = Fulfilled (Response.mk (Some (row :: rows)) None) →
       StoreAdminService.customerIds_of (row :: rows) ≠ [] →
       StoreAdminService.Backend.select_profiles db
         (StoreAdminService.customerIds_of (row :: rows)) = RejectedWith e →
       StoreAdminService.getIncomingOrders db storeId = [])
  ∧ (∀ db storeId row rows pr,
       StoreAdminService.Backend.select_orders db storeId
       = Fulfilled (Response.mk (Some (row :: rows)) None) →
       StoreAdminService.Backend.select_profiles db
         (StoreAdminService.customerIds_of (row :: rows)) = Fulfilled pr →
       is_Some (Response.error pr) →
       StoreAdminService.getIncomingOrders db storeId
       = StoreAdminService.order_of_row ∅ <$> (row :: rows))
  ∧ (∀ es, Forall paid_instant (StoreApp.orders_after es)).
Proof.
  split; [exact getIncomingOrders_paid_instant|].
  split; [|split; [exact getIncomingOrders_orders_query_failed|split; [|split]]].
  - intros db storeId e H. unfold StoreAdminService.getIncomingOrders.
    by rewrite H.
  - intros db storeId row rows e Ho Hids Hp.
    unfold StoreAdminService.getIncomingOrders,
      StoreAdminService.getIncomingOrders_try.
    rewrite Ho. simpl. rewrite Hp.
    destruct (StoreAdminService.customerIds_of (row :: rows)); done.
  - intros db storeId row rows pr Ho Hp [e He].
    unfold StoreAdminService.getIncomingOrders,
      StoreAdminService.getIncomingOrders_try.
    rewrite Ho. simpl. rewrite Hp, He.
    by destruct (0 <? length _)%nat.
  - intros es. unfold StoreApp.orders_after.
    assert (G : ∀ init, Forall paid_instant init →
                        Forall paid_instant (foldl StoreApp.orders_step init es)).
    { induction es as [|e es IH]; intros init Hi; [done|].
      simpl. by apply IH, orders_step_paid_instant. }
    by apply G.
Qed.

Lemma incoming_orders_paid_instant_witness :
  StoreAdminService.getIncomingOrders db_orders_unreadable "s1" = [].
Proof.
  refine (proj1 (proj2 (proj2 incoming_orders_paid_instant))
            db_orders_unreadable "s1" _).
  by eexists.
Defined.

(** ** Store profile *)

Section StoreProfile.
Import StoreAdminService.

Lemma put_str_None col v (d : gmap string JsVal) c :
  (c = col → truthy_str v = false) → d !! c = None →
  put_str col v d !! c = None.
Proof.
  intros H Hd. unfold put_str. destruct (truthy_str v) eqn:E; [|done].
  rewrite lookup_insert_ne; [done|]. intros <-. specialize (H eq_refl).
  congruence.
Qed.

Lemma put_num_None col v (d : gmap string JsVal) c :
  (c = col → truthy_Q v = false) → d !! c = None →
  put_num col v d !! c = None.
Proof.
  intros H Hd. unfold put_num. destruct (truthy_Q v) eqn:E; [|done].
  rewrite lookup_insert_ne; [done|]. intros <-. specialize (H eq_refl).
  congruence.
Qed.

(** A column is absent from [dbUpdates] unless it is one of the five mapped
    columns and its field is truthy. *)
Lemma dbUpdates_of_None updates col :
  (col = "name" → truthy_str (StoreUpdates.name updates) = false) →
  (col = "address" → truthy_str (StoreUpdates.address updates) = false) →
  (col = "upi_id" → truthy_str (StoreUpdates.upiId updates) = false) →
  (col = "lat" → truthy_Q (StoreUpdates.lat updates) = false) →
  (col = "lng" → truthy_Q (StoreUpdates.lng updates) = false) →
  dbUpdates_of updates !! col = None.
Proof.
  intros Hn Ha Hu Hlat Hlng. unfold dbUpdates_of.
  apply put_num_None; [done|]. apply put_num_None; [done|].
  apply put_str_None; [done|]. apply put_str_None; [done|].
  apply put_str_None; [done|]. apply lookup_empty.
Qed.

(** The backend update leaves alone every column the patch does not name. *)
Lemma update_where_id_keeps storeId patch stores (i : nat) row col :
  stores !! i = Some row → patch !! col = None →
  ∃ row', update_where_id storeId patch stores !! i = Some row'
          ∧ row' !! col = row !! col.
Proof.
  intros Hi Hp. unfold update_where_id. rewrite list_lookup_fmap, Hi. simpl.
  eexists. split; [reflexivity|].
  destruct (row !! "id") as [[j|q]|]; try done.
  destruct (j =? storeId); [|done]. by apply lookup_union_r.
Qed.

End StoreProfile.

(** C10: the store-profile update leaves out of what it sends every field
    whose value is falsy or absent (an empty name, address or UPI id, a
    latitude or longitude of 0) and every column other than the five it
    maps, so in every row of the store table such a column keeps the value
    it had, whether or not the backend accepts the update. *)
Theorem falsy_profile_fields_not_written failure storeId updates stores
    (i : nat) row col :
  stores !! i = Some row →
  (col = "name" →
   truthy_str (StoreAdminService.StoreUpdates.name updates) = false) →
  (col = "address" →
   truthy_str (StoreAdminService.StoreUpdates.address updates) = false) →
  (col = "upi_id" →
   truthy_str (StoreAdminService.StoreUpdates.upiId updates) = false) →
  (col = "lat" →
   truthy_Q (StoreAdminService.StoreUpdates.lat updates) = false) →
  (col = "lng" →
   truthy_Q (StoreAdminService.StoreUpdates.lng updates) = false) →
  (truthy_str (Some "") = false ∧ truthy_str None = false
   ∧ truthy_Q (Some 0%Q) = false ∧ truthy_Q None = false)
  ∧ StoreAdminService.dbUpdates_of updates !! col = None
  ∧ ∃ row',
      (StoreAdminService.updateStoreProfile failure storeId updates stores).1 !! i
      = Some row'
      ∧ row' !! col = row !! col.
Proof.
  intros Hi Hn Ha Hu Hlat Hlng.
  assert (Hd : StoreAdminService.dbUpdates_of updates !! col = None)
    by by apply dbUpdates_of_None.
  split; [done|]. split; [exact Hd|].
  unfold StoreAdminService.updateStoreProfile.
  destruct failure; simpl; [by exists row|].
  by apply update_where_id_keeps.
Qed.

Lemma falsy_profile_fields_not_written_witness :
  ∃ row',
    (StoreAdminService.updateStoreProfile None "s1" blank_name_form [store_row]).1
      !! 0%nat = Some row'
    ∧ row' !! "name" = Some (JStr "Corner Mart")
    ∧ row' !! "address" = Some (JStr "HAL 2nd Stage").
Proof.
  destruct (falsy_profile_fields_not_written None "s1" blank_name_form
              [store_row] 0 store_row "name" eq_refl)
    as (_ & _ & row' & Hrow & Hname); try (intros; done).
  exists row'. split; [exact Hrow|]. split; [by rewrite Hname|].
  injection Hrow as <-. reflexivity.
Defined.

(** * Further properties of the code *)

(** ** The cart *)

Section Cart.
Import CustomerApp.

(** Changing the quantity of a line keeps its key and its price. *)
Lemma fmap_alter_add_quantity {B} (g : CartItem.t → B) (h : CartItem.t → Z)
    (idx : nat) (l : list CartItem.t) :
  (∀ q c, g (add_quantity q c) = g c) →
  g <$> alter (fun c => add_quantity (h c) c) idx l = g <$> l.
Proof.
  intros Hg. apply list_eq; intros i. rewrite !list_lookup_fmap.
  destruct (decide (i = idx)) as [->|Hne].
  - rewrite list_lookup_alter_eq. destruct (l !! idx); simpl; [|done].
    by rewrite Hg.
  - by rewrite list_lookup_alter_ne.
Qed.

Lemma elem_of_filter_map_key {B} (g : CartItem.t → B)
    (P : CartItem.t → bool) (f : CartItem.t → CartItem.t)
    (l : list CartItem.t) (k : B) :
  (∀ c, g (f c) = g c) →
  k ∈ g <$> List.filter P (map f l) → k ∈ g <$> l.
Proof.
  intros Hg. induction l as [|c l IH]; [done|].
  cbn [map List.filter]. rewrite fmap_cons.
  destruct (P (f c)).
  - rewrite fmap_cons. intros [->|H]%elem_of_cons.
    + rewrite Hg. by left.
    + right. by apply IH.
  - intros H. right. by apply IH.
Qed.

Lemma NoDup_filter_map_key {B} (g : CartItem.t → B)
    (P : CartItem.t → bool) (f : CartItem.t → CartItem.t)
    (l : list CartItem.t) :
  (∀ c, g (f c) = g c) →
  NoDup (g <$> l) → NoDup (g <$> List.filter P (map f l)).
Proof.
  intros Hg. induction l as [|c l IH]; [done|].
  cbn [map List.filter]. rewrite fmap_cons. intros [Hc Hl]%NoDup_cons.
  destruct (P (f c)); [|by apply IH].
  rewrite fmap_cons. apply NoDup_cons. split; [|by apply IH].
  rewrite Hg. intros H. apply Hc. by eapply elem_of_filter_map_key.
Qed.

End Cart.

(** X1: the cart never holds two lines for the same product and brand:
    adding to the cart, changing a quantity and paying all keep the keys
    (product id, brand) of the lines pairwise distinct. *)
Theorem cart_lines_distinct :
  (∀ now product quantity brandName price st,
     NoDup (line_key <$> CustomerApp.cart st) →
     NoDup (line_key <$> CustomerApp.cart
              (CustomerApp.addToCart now product quantity brandName price st)))
  ∧ (∀ cartItemId delta st,
       NoDup (line_key <$> CustomerApp.cart st) →
       NoDup (line_key <$> CustomerApp.cart
                (CustomerApp.updateQuantity cartItemId delta st)))
  ∧ (∀ saveOrder user now iso st,
       NoDup (line_key <$> CustomerApp.cart st) →
       NoDup (line_key <$> CustomerApp.cart
                (CustomerApp.state
                   (CustomerApp.handlePaymentSuccess saveOrder user now iso st)))).
Proof.
  split; [|split].
  - intros now product quantity brandName price st Hnd.
    unfold CustomerApp.addToCart.
    destruct (CustomerApp.selectedStore st) as [store|]; [|done].
    destruct (findIndex _ (CustomerApp.cart st)) as [idx|] eqn:Hf; simpl.
    + by rewrite fmap_alter_add_quantity.
    + rewrite fmap_app. apply NoDup_app. split; [done|]. split.
      * intros k Hk Hnew. apply list_elem_of_singleton in Hnew. subst k.
        apply list_elem_of_fmap in Hk as (c & Hkey & Hc).
        pose proof (findIndex_None _ _ Hf c Hc) as Hp. simpl in Hp.
        injection Hkey as Ho Hb. rewrite <- Ho, <- Hb in Hp.
        by rewrite !String.eqb_refl in Hp.
      * apply NoDup_singleton.
  - intros cartItemId delta st Hnd. unfold CustomerApp.updateQuantity. simpl.
    apply NoDup_filter_map_key; [|done].
    intros c. by destruct (CartItem.id c =? cartItemId).
  - intros saveOrder user now iso st Hnd.
    unfold CustomerApp.handlePaymentSuccess.
    destruct (CustomerApp.pendingOrderDetails st); [|done].
    destruct (CustomerApp.cart st) as [|first rest] eqn:Hc; simpl;
      [by rewrite Hc|].
    destruct (CustomerApp.UserState.id user) as [u|]; simpl;
      [|apply NoDup_nil_2].
    destruct (u =? ""); simpl; [apply NoDup_nil_2|].
    destruct (saveOrder u _); simpl; [apply NoDup_nil_2|by rewrite Hc].
Qed.

Lemma cart_lines_distinct_witness :
  NoDup (line_key <$> CustomerApp.cart
           (CustomerApp.addToCart 2 rice 3 "Generic" None
              (CustomerApp.addToCart 1 rice 1 "Generic" (Some (rupees 58))
                 (paying [])))).
Proof.
  apply (proj1 cart_lines_distinct).
  apply (proj1 cart_lines_distinct). apply NoDup_nil_2.
Defined.

Section CartSums.
Import CustomerApp.

Lemma fold_left_add {A} (h : A → Z) (l : list A) (a : Z) :
  fold_left (fun sum c => sum + h c) l a = a + foldr (fun c acc => h c + acc) 0 l.
Proof.
  revert a; induction l as [|c l IH]; intros a; simpl; [lia|].
  rewrite IH. lia.
Qed.

Lemma countInCart_units product (l : list CartItem.t) :
  countInCart product l
  = foldr (fun c acc => units_of (Product.id product) c + acc) 0 l.
Proof.
  unfold countInCart. rewrite fold_left_add.
  induction l as [|c l IH]; [reflexivity|].
  cbn [List.filter foldr]. unfold units_of at 1.
  destruct (CartItem.originalProductId c =? Product.id product); simpl; lia.
Qed.

Lemma foldr_add_app {A} (h : A → Z) (l1 l2 : list A) :
  foldr (fun c acc => h c + acc) 0 (l1 ++ l2)
  = foldr (fun c acc => h c + acc) 0 l1 + foldr (fun c acc => h c + acc) 0 l2.
Proof. induction l1 as [|c l1 IH]; simpl; lia. Qed.

Lemma foldr_add_alter {A} (h : A → Z) (f : A → A) (l : list A) (i : nat) (x : A) :
  l !! i = Some x →
  foldr (fun c acc => h c + acc) 0 (alter f i l)
  = foldr (fun c acc => h c + acc) 0 l + (h (f x) - h x).
Proof.
  unfold alter. revert i; induction l as [|c l IH]; intros [|i]; simpl; try done.
  - intros [= ->]. lia.
  - intros Hi. rewrite (IH i Hi). lia.
Qed.

End CartSums.

(** X2: with a store selected, adding [quantity] units of a product to
    the cart raises the count shown on that product's card by exactly
    [quantity], whether a line is merged or created, and leaves the count
    of every other product as it was; without a store the cart does not
    change. *)
Theorem addToCart_card_count now product quantity brandName price st :
  (is_Some (CustomerApp.selectedStore st) →
   CustomerApp.countInCart product
     (CustomerApp.cart
        (CustomerApp.addToCart now product quantity brandName price st))
   = CustomerApp.countInCart product (CustomerApp.cart st) + quantity
   ∧ ∀ other, Product.id other ≠ Product.id product →
       CustomerApp.countInCart other
         (CustomerApp.cart
            (CustomerApp.addToCart now product quantity brandName price st))
       = CustomerApp.countInCart other (CustomerApp.cart st))
  ∧ (CustomerApp.selectedStore st = None →
     CustomerApp.addToCart now product quantity brandName price st = st).
Proof.
  split.
  - intros [store Hs]. unfold CustomerApp.addToCart. rewrite Hs.
    destruct (findIndex _ (CustomerApp.cart st)) as [idx|] eqn:Hf; simpl.
    + apply findIndex_Some in Hf as (x & Hx & Hp & _).
      apply andb_prop in Hp as [Ho%String.eqb_eq _].
      split; [|intros other Hne]; rewrite !countInCart_units.
      * rewrite (foldr_add_alter _ _ _ _ _ Hx). unfold units_of. simpl.
        rewrite Ho, String.eqb_refl. lia.
      * rewrite (foldr_add_alter _ _ _ _ _ Hx). unfold units_of. simpl.
        rewrite Ho.
        destruct (String.eqb_spec (Product.id product) (Product.id other)); [done|].
        lia.
    + split; [|intros other Hne]; rewrite !countInCart_units, foldr_add_app.
      * simpl. unfold units_of at 2. simpl. rewrite String.eqb_refl. lia.
      * simpl. unfold units_of at 2. simpl.
        destruct (String.eqb_spec (Product.id product) (Product.id other)); [done|].
        lia.
  - intros Hs. unfold CustomerApp.addToCart. by rewrite Hs.
Qed.

Lemma addToCart_card_count_witness :
  CustomerApp.countInCart rice
    (CustomerApp.cart
       (CustomerApp.addToCart 2 rice 3 "Tata" None (paying [rice_item 2])))
  = 5.
Proof.
  exact (proj1 (proj1 (addToCart_card_count 2 rice 3 "Tata" None
                         (paying [rice_item 2])) ltac:(by eexists))).
Defined.

(** A merge is not charged as an addition to the old total: with a line at
    19.99 followed by a line at 0.1, two more units of the first give a
    total of [60.07], while the old total plus [2 * 19.99] is
    [60.06999999999999]. *)
Example addToCart_total_recomputed :
  let cart := [priced_item "1" (Double.dec 1999 2) 1;
               priced_item "2" (Double.dec 1 1) 1] in
  let st := CustomerApp.addToCart 1700000000001 rice 2 "Generic" None (paying cart) in
  CartItem.quantity <$> CustomerApp.cart st = [3; 1]
  ∧ CustomerApp.totalAmount (CustomerApp.cart st) = Double.dec 6007 2
  ∧ Double.add (CustomerApp.totalAmount cart)
      (Double.mul (Double.dec 1999 2) (Double.of_Z 2))
    = Double.dec 6006999999999999 14
  ∧ Double.dec 6007 2 ≠ Double.dec 6006999999999999 14.
Proof. by vm_compute. Qed.



(** X4: after any change of quantity every line left in the cart has a
    positive quantity and the cart has not grown; each line left comes from
    a line that was there, with the same id, product, brand and price; and
    the line with the given id is left only if its quantity plus the delta
    is positive, which is then its new quantity. *)
Theorem updateQuantity_cart cartItemId delta st :
  Forall (fun c => 0 < CartItem.quantity c)
    (CustomerApp.cart (CustomerApp.updateQuantity cartItemId delta st))
  ∧ (length (CustomerApp.cart (CustomerApp.updateQuantity cartItemId delta st))
     ≤ length (CustomerApp.cart st))%nat
  ∧ ∀ c, c ∈ CustomerApp.cart (CustomerApp.updateQuantity cartItemId delta st) →
      ∃ c0, c0 ∈ CustomerApp.cart st
            ∧ CartItem.id c = CartItem.id c0 ∧ line_key c = line_key c0
            ∧ CartItem.price c = CartItem.price c0
            ∧ (CartItem.id c0 = cartItemId →
               CartItem.quantity c = CartItem.quantity c0 + delta)
            ∧ (CartItem.id c0 ≠ cartItemId → c = c0).
Proof.
  unfold CustomerApp.updateQuantity. simpl. split; [|split].
  - apply Forall_forall. intros c Hc%list_elem_of_In%filter_In.
    destruct Hc as [_ Hq]. by apply Z.ltb_lt in Hq.
  - etransitivity; [apply filter_length_le|]. by rewrite length_map.
  - intros c Hc%list_elem_of_In%filter_In. destruct Hc as [Hin Hq].
    apply list_elem_of_In, list_elem_of_fmap in Hin as (c0 & -> & Hin0).
    exists c0. split; [done|].
    destruct (String.eqb_spec (CartItem.id c0) cartItemId) as [He|Hne].
    + repeat split; try done. intros _. simpl in *.
      apply Z.ltb_lt in Hq. lia.
    + repeat split; done.
Qed.

Lemma updateQuantity_cart_witness :
  Forall (fun c => 0 < CartItem.quantity c)
    (CustomerApp.cart
       (CustomerApp.updateQuantity "1-Generic-1700000000000" (-2)
          (paying [rice_item 2; rice_item 5]))).
Proof.
  exact (proj1 (updateQuantity_cart "1-Generic-1700000000000" (-2)
                  (paying [rice_item 2; rice_item 5]))).
Defined.

(** X5: with a checkout pending and a cart that is not empty, the payment
    handler hands exactly one order to [saveOrder] when the user has an id,
    and none otherwise.  When the save succeeds, and also when the user has
    no id and nothing was saved, it empties the cart, closes the payment
    sheet and shows the orders view; when the save fails it leaves the
    state as it was and fails with the save's error. *)
Theorem handlePaymentSuccess_outcomes saveOrder user now iso st details first rest :
  CustomerApp.pendingOrderDetails st = Some details →
  CustomerApp.cart st = first :: rest →
  let r := CustomerApp.handlePaymentSuccess saveOrder user now iso st in
  (truthy_str (CustomerApp.UserState.id user) = false →
   CustomerApp.saved r = [] ∧ CustomerApp.completion r = Fulfilled ()
   ∧ CustomerApp.cart (CustomerApp.state r) = []
   ∧ CustomerApp.activeView (CustomerApp.state r) = CustomerApp.ORDERS)
  ∧ (∀ uid, CustomerApp.UserState.id user = Some uid → uid ≠ "" →
       ∃ o, CustomerApp.saved r = [(uid, o)]
            ∧ match saveOrder uid o with
              | Fulfilled _ =>
                CustomerApp.completion r = Fulfilled ()
                ∧ CustomerApp.cart (CustomerApp.state r) = []
                ∧ CustomerApp.showPayment (CustomerApp.state r) = false
                ∧ CustomerApp.activeView (CustomerApp.state r) = CustomerApp.ORDERS
              | RejectedWith e =>
                CustomerApp.completion r = RejectedWith e
                ∧ CustomerApp.state r = st
              end).
Proof.
  intros Hd Hc r. subst r. unfold CustomerApp.handlePaymentSuccess.
  rewrite Hd, Hc. split.
  - destruct (CustomerApp.UserState.id user) as [u|]; simpl; [|done].
    destruct (u =? ""); by simpl.
  - intros uid Hu Hne. rewrite Hu.
    destruct (String.eqb_spec uid "") as [->|_]; [done|].
    match goal with
    | |- context [saveOrder uid ?o] => exists o; destruct (saveOrder uid o)
    end; by simpl.
Qed.

Lemma handlePaymentSuccess_outcomes_witness :
  CustomerApp.cart
    (CustomerApp.state
       (CustomerApp.handlePaymentSuccess saveOrder_ok
          (CustomerApp.UserState.mk None None "9000000000" None) 1700000000000
          "2025-01-01T10:00:00.000Z" (paying [rice_item 2]))) = []
  ∧ CustomerApp.saved
      (CustomerApp.handlePaymentSuccess saveOrder_ok
         (CustomerApp.UserState.mk None None "9000000000" None) 1700000000000
         "2025-01-01T10:00:00.000Z" (paying [rice_item 2])) = [].
Proof.
  destruct (proj1 (handlePaymentSuccess_outcomes saveOrder_ok
              (CustomerApp.UserState.mk None None "9000000000" None) 1700000000000
              "2025-01-01T10:00:00.000Z" (paying [rice_item 2]) _ _ _
              eq_refl eq_refl) eq_refl) as (Hs & _ & Hc & _).
  split; [exact Hc|exact Hs].
Defined.

(** ** Statuses across the two applications *)

(** X6: a status the store console writes reads back unchanged in the
    console, but the customer's change handler shows Placed, Accepted and
    Rejected as Pending (and every other status as it is); whatever the
    status column holds, the customer view never shows Placed, Accepted or
    Rejected. *)
Theorem customer_view_of_console_status :
  (∀ s : OrderStatus,
     StoreAdminService.mapDbStatusToAppStatus
       (StoreAdminService.dbStatus_of (status_str s)) = s
     ∧ MyOrders.appStatus_of (StoreAdminService.dbStatus_of (status_str s))
       = if bool_decide (s ∈ [Placed; Accepted; Rejected]) then Pending else s)
  ∧ (∀ dbStatus : string,
       MyOrders.appStatus_of dbStatus ∉ [Placed; Accepted; Rejected]).
Proof.
  split.
  - intros s. split; [apply dbStatus_roundtrip|by destruct s].
  - intros d. unfold MyOrders.appStatus_of.
    destruct (d =? "cancelled"), (d =? "picked_up"), (d =? "delivered"),
      (d =? "on_way"), (d =? "ready"), (d =? "packing").
    all: by apply (bool_decide_unpack _).
Qed.

(** X7: for an order whose status is in the step list of its mode, the
    position shown by the progress indicator lies between 0 and 3, a tick
    of the simulator either leaves the order as it is or moves the position
    forward by exactly one, and the position is 3 (the full line) exactly
    when the order is delivered or picked up; the width of the line is, by
    position, 0, 33.33333333333333, 66.66666666666666 and 100 percent, the
    doubles that [(position / 3) * 100] evaluates to. *)
Theorem progress_follows_simulator (o : Order.t) :
  status_str (Order.status o) ∈ steps_of (Order.mode o) →
  let pos := fun o' : Order.t =>
    MyOrders.StatusInfo.currentIndex
      (MyOrders.getStatusInfo (status_str (Order.status o')) (Order.mode o')) in
  (0 ≤ pos o ≤ 3)%Z
  ∧ (MyOrders.tick_order o = o ∨ pos (MyOrders.tick_order o) = (pos o + 1)%Z)
  ∧ (pos o = 3%Z ↔ Order.status o = Delivered ∨ Order.status o = PickedUp)
  ∧ Some (MyOrders.StatusInfo.progress
            (MyOrders.getStatusInfo (status_str (Order.status o)) (Order.mode o)))
    = [Double.zero; Double.dec 3333333333333333 14;
       Double.dec 6666666666666666 14; Double.of_Z 100] !! Z.to_nat (pos o).
Proof.
  intros Hin pos. subst pos.
  order_cases o; simpl in Hin.
  all: try (exfalso;
            repeat (apply elem_of_cons in Hin as [Hin|Hin]; [discriminate Hin|]);
            by apply elem_of_nil in Hin).
  all: split; [by vm_compute|].
  all: split; [first [by left | by right]|].
  all: split; [|by vm_compute].
  all: split; [try (by intros [=]); intros _; first [by left | by right]
              | try (by intros [[=]|[=]]); reflexivity].
Qed.

Lemma progress_follows_simulator_witness :
  MyOrders.StatusInfo.currentIndex
    (MyOrders.getStatusInfo "On the way" DELIVERY) = 2.
Proof.
  pose proof (progress_follows_simulator
                (order_in "o1" Preparing PAID DELIVERY INSTANT)
                ltac:(by apply (bool_decide_unpack _))) as (_ & [H|H] & _).
  - discriminate H.
  - exact H.
Defined.

(** ** The incoming-orders fetch *)

Section IncomingOrderRows.
Import StoreAdminService.

Lemma uniq_from_spec (seen l : list string) :
  NoDup (uniq_from seen l)
  ∧ ∀ c, c ∈ uniq_from seen l ↔ c ∈ l ∧ c ∉ seen.
Proof.
  revert seen; induction l as [|x l IH]; intros seen; simpl.
  - split; [apply NoDup_nil_2|]. intros c. split; [by intros ?%elem_of_nil|].
    by intros [?%elem_of_nil _].
  - destruct (bool_decide_reflect (x ∈ seen)) as [Hx|Hx].
    + destruct (IH seen) as [Hnd Hin]. split; [done|].
      intros c. rewrite Hin, elem_of_cons. intuition congruence.
    + destruct (IH (x :: seen)) as [Hnd Hin]. split.
      * apply NoDup_cons. split; [|done]. rewrite Hin, elem_of_cons.
        intuition congruence.
      * intros c. rewrite !elem_of_cons, Hin, elem_of_cons.
        destruct (decide (c = x)) as [->|Hne]; intuition congruence.
Qed.

Lemma profilesMap_of_lookup (profiles : list DbProfile.t) (k : string) :
  profilesMap_of profiles !! k
  = List.find (fun p => DbProfile.id p =? k) (reverse profiles).
Proof.
  unfold profilesMap_of.
  induction profiles as [|p ps IH] using rev_ind; [apply lookup_empty|].
  rewrite foldl_snoc, reverse_snoc. simpl.
  destruct (String.eqb_spec (DbProfile.id p) k) as [->|Hne].
  - apply lookup_insert_eq.
  - by rewrite lookup_insert_ne.
Qed.

End IncomingOrderRows.

(** X8: the customer ids sent to the profile lookup are exactly the
    non-empty customer ids of the rows, each listed once. *)
Theorem customerIds_of_exact (orders : list DbOrder.t) :
  NoDup (StoreAdminService.customerIds_of orders)
  ∧ ∀ c : string,
      c ∈ StoreAdminService.customerIds_of orders
      ↔ c ≠ "" ∧ ∃ row, row ∈ orders ∧ DbOrder.customer_id row = Some c.
Proof.
  unfold StoreAdminService.customerIds_of.
  destruct (uniq_from_spec [] (omap (fun o =>
              match DbOrder.customer_id o with
              | Some c => if c =? "" then None else Some c
              | None => None
              end) orders)) as [Hnd Hin].
  split; [exact Hnd|]. intros c. rewrite Hin, list_elem_of_omap. split.
  - intros [(row & Hrow & Hc) _].
    destruct (DbOrder.customer_id row) as [c'|] eqn:E; [|done].
    destruct (String.eqb_spec c' "") as [->|Hne]; [done|].
    injection Hc as <-. split; [done|]. by exists row.
  - intros [Hne (row & Hrow & Hc)]. split; [|apply not_elem_of_nil].
    exists row. split; [done|]. rewrite Hc.
    by destruct (String.eqb_spec c "").
Qed.

(** X9: when the order query returns rows and the profile lookup returns
    profiles, the fetch yields one order per row, in the rows' order, with
    the row's id, items and stored total, the status its column maps to and
    DELIVERY when the row has no type; the customer name is the name of the
    last profile returned for the row's customer, and 'Guest' when there is
    none or its name is empty. *)
Theorem incoming_orders_per_row db storeId row rows profiles :
  StoreAdminService.Backend.select_orders db storeId
  = Fulfilled (Response.mk (Some (row :: rows)) None) →
  StoreAdminService.customerIds_of (row :: rows) ≠ [] →
  StoreAdminService.Backend.select_profiles db
    (StoreAdminService.customerIds_of (row :: rows))
  = Fulfilled (Response.mk (Some profiles) None) →
  length (StoreAdminService.getIncomingOrders db storeId) = length (row :: rows)
  ∧ ∀ (i : nat) r, (row :: rows) !! i = Some r →
      ∃ o, StoreAdminService.getIncomingOrders db storeId !! i = Some o
           ∧ Order.id o = DbOrder.id r
           ∧ Order.items o = DbOrder.items r
           ∧ Order.total o = DbOrder.total_amount r
           ∧ Order.status o
             = StoreAdminService.mapDbStatusToAppStatus (DbOrder.status r)
           ∧ Order.mode o = default DELIVERY (DbOrder.type r)
           ∧ Order.customerName o
             = Some (or_str (profile_for r profiles ≫= DbProfile.full_name)
                            "Guest").
Proof.
  intros Ho Hids Hp.
  assert (E : StoreAdminService.getIncomingOrders db storeId
              = StoreAdminService.order_of_row
                  (StoreAdminService.profilesMap_of profiles) <$> (row :: rows)).
  { unfold StoreAdminService.getIncomingOrders,
      StoreAdminService.getIncomingOrders_try.
    rewrite Ho. simpl. rewrite Hp. simpl.
    by destruct (StoreAdminService.customerIds_of (row :: rows)). }
  rewrite E. split; [by rewrite length_fmap|].
  intros i r Hi. rewrite list_lookup_fmap, Hi. simpl.
  eexists. split; [reflexivity|]. simpl. repeat split.
  unfold profile_for. by rewrite profilesMap_of_lookup.
Qed.

Lemma incoming_orders_per_row_witness :
  let db :=
    {| StoreAdminService.Backend.select_orders := fun _ =>
         Fulfilled (Response.mk (Some [row_in "o1" "placed" (Some "c1")]) None);
       StoreAdminService.Backend.select_profiles := fun _ =>
         Fulfilled (Response.mk
           (Some [DbProfile.mk "c1" (Some "Old") None;
                  DbProfile.mk "c1" (Some "Asha") None]) None) |} in
  Order.customerName <$> StoreAdminService.getIncomingOrders db "s1"
  = [Some "Asha"].
Proof.
  intros db.
  destruct (proj2 (incoming_orders_per_row db "s1"
                     (row_in "o1" "placed" (Some "c1")) []
                     [DbProfile.mk "c1" (Some "Old") None;
                      DbProfile.mk "c1" (Some "Asha") None]
                     eq_refl ltac:(discriminate) eq_refl)
                  0%nat (row_in "o1" "placed" (Some "c1")) eq_refl)
    as (o & Hlook & _ & _ & _ & _ & _ & Hname).
  vm_compute in Hlook. injection Hlook as <-. reflexivity.
Defined.

(** ** The inventory of the store console *)

Section InventoryUpdates.
Import StoreApp.

Lemma offeredStock_insert_fresh (d : gmap string BrandInventoryInfo.t) k x :
  d !! k = None →
  offeredStock (<[k:=x]> d) = Count.add (offeredStock d) (offered_units x).
Proof.
  intros Hk. unfold offeredStock.
  rewrite map_fold_insert_L; [reflexivity| |done].
  intros j1 j2 z1 z2 y _ _ _.
  rewrite <- !count_add_assoc. f_equal. apply count_add_comm.
Qed.

(** Writing an entry of the brand table: the aggregate is the sum over the
    other entries plus what the entry written adds. *)
Lemma offeredStock_insert (d : gmap string BrandInventoryInfo.t) k x :
  offeredStock (<[k:=x]> d)
  = Count.add (offeredStock (delete k d)) (offered_units x).
Proof.
  rewrite <- (insert_delete_eq d k x).
  apply offeredStock_insert_fresh, lookup_delete_eq.
Qed.

Lemma offeredStock_delete (d : gmap string BrandInventoryInfo.t) k y :
  d !! k = Some y →
  offeredStock d = Count.add (offeredStock (delete k d)) (offered_units y).
Proof.
  intros Hk. rewrite <- (insert_delete_id d k y Hk) at 1.
  apply offeredStock_insert_fresh, lookup_delete_eq.
Qed.

End InventoryUpdates.

(** X10: an inventory update keeps the length of the inventory and the id,
    name, category and catalogue price of every entry, changes no entry
    whose id differs from the product's, and marks every entry with the
    product's id as listed; with no store loaded it changes nothing. *)
Theorem handleInventoryUpdate_frame myStore inventory product newPrice
    newStockStatus newStockQty newMrp newBrandDetails :
  let inventory' :=
    StoreApp.handleInventoryUpdate myStore inventory product newPrice
      newStockStatus newStockQty newMrp newBrandDetails in
  length inventory' = length inventory
  ∧ (myStore = None → inventory' = inventory)
  ∧ ∀ (i : nat) item, inventory !! i = Some item →
      ∃ item', inventory' !! i = Some item'
        ∧ StoreApp.InventoryItem.id item' = StoreApp.InventoryItem.id item
        ∧ StoreApp.InventoryItem.name item' = StoreApp.InventoryItem.name item
        ∧ StoreApp.InventoryItem.category item'
          = StoreApp.InventoryItem.category item
        ∧ StoreApp.InventoryItem.price item' = StoreApp.InventoryItem.price item
        ∧ (StoreApp.InventoryItem.id item ≠ StoreApp.InventoryItem.id product →
           item' = item)
        ∧ (is_Some myStore →
           StoreApp.InventoryItem.id item = StoreApp.InventoryItem.id product →
           StoreApp.InventoryItem.isActive item' = true
           ∧ StoreApp.InventoryItem.storePrice item' = newPrice).
Proof.
  intros inventory'. subst inventory'. unfold StoreApp.handleInventoryUpdate.
  destruct myStore as [store|].
  - split; [by rewrite length_map|]. split; [done|].
    intros i item Hi. rewrite list_lookup_fmap, Hi. simpl.
    eexists. split; [reflexivity|].
    destruct (String.eqb_spec (StoreApp.InventoryItem.id item)
                (StoreApp.InventoryItem.id product)) as [He|Hne]; simpl.
    + repeat split; done.
    + repeat split; done.
  - split; [done|]. split; [done|]. intros i item Hi. exists item.
    repeat split; try done. all: by intros [? ?].
Qed.

Lemma handleInventoryUpdate_frame_witness :
  length (StoreApp.handleInventoryUpdate (Some corner_mart) [atta] atta
            (rupees 48) true (Count.Int 9) None None) = 1%nat.
Proof.
  exact (proj1 (handleInventoryUpdate_frame (Some corner_mart) [atta] atta
                  (rupees 48) true (Count.Int 9) None None)).
Defined.

(** X11: switching an item off and on again (or on and off) brings back its
    offered flag, and keeps its stock count, its store price and its
    variant table throughout; after the two switches the entry is marked as
    listed. *)
Theorem toggleInStock_twice store inventory (i : nat) item :
  inventory !! i = Some item →
  ∃ item1 item2,
    StoreApp.toggleInStock (Some store) inventory item !! i = Some item1
    ∧ StoreApp.toggleInStock (Some store)
        (StoreApp.toggleInStock (Some store) inventory item) item1 !! i
      = Some item2
    ∧ StoreApp.InventoryItem.inStock item1
      = negb (StoreApp.InventoryItem.inStock item)
    ∧ StoreApp.InventoryItem.inStock item2 = StoreApp.InventoryItem.inStock item
    ∧ StoreApp.InventoryItem.stock item2 = StoreApp.InventoryItem.stock item
    ∧ StoreApp.InventoryItem.storePrice item2
      = StoreApp.InventoryItem.storePrice item
    ∧ default ∅ (StoreApp.InventoryItem.brandDetails item2)
      = default ∅ (StoreApp.InventoryItem.brandDetails item)
    ∧ StoreApp.InventoryItem.isActive item2 = true.
Proof.
  intros Hi. unfold StoreApp.toggleInStock, StoreApp.handleInventoryUpdate.
  eexists. eexists. split.
  { rewrite list_lookup_fmap, Hi. simpl. rewrite String.eqb_refl. reflexivity. }
  split.
  { rewrite !list_lookup_fmap, Hi. simpl. rewrite !String.eqb_refl. simpl.
    rewrite ?String.eqb_refl. reflexivity. }
  simpl. rewrite negb_involutive. repeat split.
Qed.

Lemma toggleInStock_twice_witness :
  StoreApp.InventoryItem.inStock
    <$> StoreApp.toggleInStock (Some corner_mart) [atta] atta
  = [false].
Proof.
  destruct (toggleInStock_twice corner_mart [atta] 0 atta eq_refl)
    as (item1 & item2 & H1 & _ & Hoff & _).
  vm_compute in H1. injection H1 as <-. reflexivity.
Defined.

(** X12: when a variant's stock count or offered flag is edited, the new
    aggregate stock of the item is the sum over the other variants plus
    what the edited variant adds after the edit; neither the stock count
    the item carried nor what the edited variant held before plays a part,
    and the aggregate is [NaN] exactly when another offered variant holds
    [NaN] or the edited one now adds it.  While the aggregate over the
    table before the edit is a number, the new aggregate is that number,
    minus what the edited variant added to it (nothing if it had no entry
    yet), plus what it adds after the edit. *)
Theorem brand_edit_aggregate product brandName u :
  StoreApp.touches_stock u = true →
  let d := default ∅ (StoreApp.InventoryItem.brandDetails product) in
  let new :=
    StoreApp.apply_update u
      (default (StoreApp.defaultBrandInfo product brandName) (d !! brandName)) in
  StoreApp.newTotalStock_of product brandName u
  = Count.add (StoreApp.offeredStock (delete brandName d)) (offered_units new)
  ∧ (StoreApp.newTotalStock_of product brandName u = Count.NaN
     ↔ StoreApp.offeredStock (delete brandName d) = Count.NaN
       ∨ offered_units new = Count.NaN)
  ∧ ∀ total : Z,
      StoreApp.offeredStock d = Count.Int total →
      ∃ old : Z,
        from_option offered_units (Count.Int 0) (d !! brandName) = Count.Int old
        ∧ StoreApp.newTotalStock_of product brandName u
          = Count.add (Count.Int (total - old)) (offered_units new).
Proof.
  intros Hu d new.
  assert (E : StoreApp.newTotalStock_of product brandName u
              = Count.add (StoreApp.offeredStock (delete brandName d))
                          (offered_units new)).
  { unfold StoreApp.newTotalStock_of. rewrite Hu.
    unfold StoreApp.newBrandDetails_of. fold d. apply offeredStock_insert. }
  split; [exact E|]. split.
  - rewrite E.
    destruct (StoreApp.offeredStock (delete brandName d)), (offered_units new);
      simpl.
    all: split; [intros ?; first [done | by left | by right]|].
    all: by intros [?|?].
  - intros total Ht. rewrite E.
    destruct (d !! brandName) as [y|] eqn:Hy; simpl.
    + rewrite (offeredStock_delete d brandName y Hy) in Ht.
      destruct (StoreApp.offeredStock (delete brandName d)) as [rest|];
        [|done].
      destruct (offered_units y) as [old|]; [|done].
      exists old. split; [done|]. injection Ht as <-.
      destruct (offered_units new); simpl; [|done]. f_equal. lia.
    + exists 0. split; [done|].
      rewrite delete_id in * by done. rewrite Ht.
      destruct (offered_units new); simpl; [|done]. f_equal. lia.
Qed.

(** Tata is switched off; a brand never edited gets 4 in stock; and a stock
    field that was cleared is filled in again. *)
Lemma brand_edit_aggregate_witness :
  StoreApp.newTotalStock_of atta "Tata" (StoreApp.SetInStock false) = Count.Int 0
  ∧ StoreApp.newTotalStock_of atta "Fortune" (StoreApp.SetStock (Count.Int 4))
    = Count.Int 9
  ∧ StoreApp.newTotalStock_of atta "Tata" (StoreApp.SetStock Count.NaN)
    = Count.NaN.
Proof.
  split; [|split].
  - rewrite (proj1 (brand_edit_aggregate atta "Tata" (StoreApp.SetInStock false)
                      eq_refl)).
    reflexivity.
  - rewrite (proj1 (brand_edit_aggregate atta "Fortune"
                      (StoreApp.SetStock (Count.Int 4)) eq_refl)).
    reflexivity.
  - apply (proj1 (proj2 (brand_edit_aggregate atta "Tata"
                           (StoreApp.SetStock Count.NaN) eq_refl))).
    by right.
Defined.

(** X13: removing an item takes every entry with its id off the managed
    list, out of stock and to stock 0; when the backend delete then fails,
    the entry is put back on the managed list but stays out of stock with
    stock 0, and its variant table is as it was before the removal. *)
Theorem handleDeleteItem_revert deleted store inventory (i : nat) item :
  inventory !! i = Some item →
  ∃ item',
    StoreApp.handleDeleteItem_live deleted (Some store) inventory item !! i
    = Some item'
    ∧ StoreApp.InventoryItem.inStock item' = false
    ∧ StoreApp.InventoryItem.stock item' = 0
    ∧ StoreApp.InventoryItem.brandDetails item'
      = StoreApp.InventoryItem.brandDetails item
    ∧ StoreApp.InventoryItem.isActive item'
      = match deleted with Fulfilled _ => false | RejectedWith _ => true end.
Proof.
  intros Hi. unfold StoreApp.handleDeleteItem_live, StoreApp.revertDelete,
    StoreApp.handleDeleteItem.
  destruct deleted as [[]|e].
  - rewrite list_lookup_fmap, Hi. simpl. rewrite String.eqb_refl.
    eexists. split; [reflexivity|]. by simpl.
  - rewrite !list_lookup_fmap, Hi. simpl. rewrite !String.eqb_refl. simpl.
    rewrite ?String.eqb_refl. eexists. split; [reflexivity|]. by simpl.
Qed.

Lemma handleDeleteItem_revert_witness :
  (fun it => (StoreApp.InventoryItem.isActive it, StoreApp.InventoryItem.stock it))
    <$> StoreApp.handleDeleteItem_live (RejectedWith (BackendError "offline"))
          (Some corner_mart) [atta] atta
  = [(true, Count.Int 0)].
Proof.
  destruct (handleDeleteItem_revert (RejectedWith (BackendError "offline"))
              corner_mart [atta] 0 atta eq_refl) as (item' & H & _).
  vm_compute in H. injection H as <-. reflexivity.
Defined.

(** ** The dashboard and the profile form of the store console *)

Section Dashboard.
Import StoreApp.

(** The revenue figure depends on the orders through their totals only,
    taken in the order of the list. *)
Lemma totalRevenue_sum (orders : list Order.t) :
  totalRevenue orders = sum_doubles (Order.total <$> orders).
Proof.
  unfold totalRevenue, sum_doubles. generalize Double.zero.
  induction orders as [|o l IH]; intros acc; [reflexivity|].
  rewrite fmap_cons. cbn [fold_left foldl]. apply IH.
Qed.

Lemma pendingOrders_cons o orders :
  pendingOrders (o :: orders)
  = ((if countsAsPending o then 1 else 0) + pendingOrders orders)%nat.
Proof. unfold pendingOrders. simpl. by destruct (countsAsPending o). Qed.

End Dashboard.

(** X14: a status action never changes the revenue figure of the
    dashboard, so an order counts toward it whatever its status, rejected
    included; the count of active orders does not grow when the status
    written is not Placed, Accepted or Preparing, and does not shrink when
    it is. *)
Theorem dashboard_after_status_action orderId s orders :
  StoreApp.totalRevenue (StoreApp.handleOrderStatus_demo orderId s orders)
  = StoreApp.totalRevenue orders
  ∧ (s ∉ [Placed; Accepted; Preparing] →
     (StoreApp.pendingOrders (StoreApp.handleOrderStatus_demo orderId s orders)
      ≤ StoreApp.pendingOrders orders)%nat)
  ∧ (s ∈ [Placed; Accepted; Preparing] →
     (StoreApp.pendingOrders orders
      ≤ StoreApp.pendingOrders (StoreApp.handleOrderStatus_demo orderId s orders))%nat).
Proof.
  unfold StoreApp.handleOrderStatus_demo. split; [|split].
  - rewrite !totalRevenue_sum. f_equal.
    induction orders as [|o l IH]; [reflexivity|].
    cbn [map]. rewrite !fmap_cons, <- IH. f_equal.
    by destruct (Order.id o =? orderId).
  - intros Hs. induction orders as [|o l IH]; [reflexivity|].
    cbn [map]. rewrite !pendingOrders_cons.
    destruct (Order.id o =? orderId); [|lia].
    assert (StoreApp.countsAsPending (Order.with_status o s) = false) as ->.
    { destruct s; try reflexivity; exfalso; apply Hs;
        by apply (bool_decide_unpack _). }
    destruct (StoreApp.countsAsPending o); lia.
  - intros Hs. induction orders as [|o l IH]; [reflexivity|].
    cbn [map]. rewrite !pendingOrders_cons.
    destruct (Order.id o =? orderId); [|lia].
    assert (StoreApp.countsAsPending (Order.with_status o s) = true) as ->.
    { destruct s; try reflexivity; exfalso.
      all: repeat (apply elem_of_cons in Hs as [Hs|Hs]; [discriminate Hs|]).
      all: by apply elem_of_nil in Hs. }
    destruct (StoreApp.countsAsPending o); lia.
Qed.

Lemma dashboard_after_status_action_witness :
  StoreApp.totalRevenue
    (StoreApp.handleOrderStatus_demo "o1" Rejected
       [order_in "o1" Placed PAID DELIVERY INSTANT]) = rupees 120
  ∧ (StoreApp.pendingOrders
       (StoreApp.handleOrderStatus_demo "o1" Rejected
          [order_in "o1" Placed PAID DELIVERY INSTANT]) ≤ 1)%nat.
Proof.
  destruct (dashboard_after_status_action "o1" Rejected
              [order_in "o1" Placed PAID DELIVERY INSTANT]) as (Hr & Hle & _).
  split; [exact Hr|]. apply Hle.
  intros Hin. repeat (apply elem_of_cons in Hin as [Hin|Hin]; [discriminate Hin|]).
  by apply elem_of_nil in Hin.
Defined.

(** X15: saving the profile form does nothing while the form's name or
    address is empty; otherwise the console shows the store merged with the
    form at once and keeps showing it when the backend update fails, in
    which case the backend table is as before, the form stays open and an
    alert is raised; the demo account writes the merged store to its local
    slot and never touches the table; and saving the form just opened for a
    store leaves the store as it is. *)
Theorem saveProfile_behaviour demo failure store form st :
  StoreApp.myStore st = Some store →
  StoreApp.profileForm st = form →
  (truthy_str (StoreAdminService.StoreUpdates.name form) = false
   ∨ truthy_str (StoreAdminService.StoreUpdates.address form) = false →
   StoreApp.saveProfile demo failure st = st)
  ∧ (truthy_str (StoreAdminService.StoreUpdates.name form) = true →
     truthy_str (StoreAdminService.StoreUpdates.address form) = true →
     let st' := StoreApp.saveProfile demo failure st in
     StoreApp.myStore st' = Some (StoreApp.mergeStore store form)
     ∧ (demo = true →
        StoreApp.demo_store_profile st' = Some (StoreApp.mergeStore store form)
        ∧ StoreApp.stores_table st' = StoreApp.stores_table st
        ∧ StoreApp.isEditingProfile st' = false)
     ∧ (demo = false → is_Some failure →
        StoreApp.stores_table st' = StoreApp.stores_table st
        ∧ StoreApp.isEditingProfile st' = StoreApp.isEditingProfile st
        ∧ StoreApp.alerts st'
          = (StoreApp.alerts st ++ ["Failed to update profile"])%list)
     ∧ (demo = false → failure = None →
        StoreApp.isEditingProfile st' = false
        ∧ StoreApp.alerts st' = StoreApp.alerts st))
  ∧ StoreApp.mergeStore store (StoreApp.formOf store) = store.
Proof.
  intros Hs Hf. split; [|split].
  - intros Hfalsy. unfold StoreApp.saveProfile. rewrite Hs, Hf.
    by destruct Hfalsy as [-> | ->]; rewrite ?orb_true_r.
  - intros Hn Ha st'. subst st'. unfold StoreApp.saveProfile.
    rewrite Hs, Hf, Hn, Ha. simpl.
    destruct demo; simpl.
    + repeat split; try done; by intros [=].
    + unfold StoreAdminService.updateStoreProfile.
      destruct failure as [e|]; simpl.
      * repeat split; try done; by intros _ [=].
      * repeat split; try done; by intros _ [? [=]].
  - destruct store as [? ? ? ? ? ? ? ? ? ? upi ?]. by destruct upi.
Qed.

Lemma saveProfile_behaviour_witness :
  StoreApp.myStore
    (StoreApp.saveProfile false (Some (BackendError "offline"))
       (editing corner_mart equator_form [store_row]))
  = Some (StoreApp.mergeStore corner_mart equator_form)
  ∧ StoreApp.stores_table
      (StoreApp.saveProfile false (Some (BackendError "offline"))
         (editing corner_mart equator_form [store_row])) = [store_row].
Proof.
  destruct (proj1 (proj2 (saveProfile_behaviour false
              (Some (BackendError "offline")) corner_mart equator_form
              (editing corner_mart equator_form [store_row]) eq_refl eq_refl))
              eq_refl eq_refl) as (Hm & _ & Hfail & _).
  split; [exact Hm|]. apply Hfail; [reflexivity|by eexists].
Defined.

(** X16: when a registered owner saves a form whose latitude (or
    longitude) is 0, the console shows the store at 0 while every row of
    the backend table keeps the latitude (longitude) it had: the two
    diverge until the store is fetched again. *)
Theorem saveProfile_zero_coordinate store form st (i : nat) row col q :
  StoreApp.myStore st = Some store →
  StoreApp.profileForm st = form →
  truthy_str (StoreAdminService.StoreUpdates.name form) = true →
  truthy_str (StoreAdminService.StoreUpdates.address form) = true →
  (col = "lat" ∧ StoreAdminService.StoreUpdates.lat form = Some q
   ∨ col = "lng" ∧ StoreAdminService.StoreUpdates.lng form = Some q) →
  Qeq q 0 →
  StoreApp.stores_table st !! i = Some row →
  let st' := StoreApp.saveProfile false None st in
  (∃ shown, StoreApp.myStore st' = Some shown
            ∧ (if col =? "lat" then Store.lat shown else Store.lng shown) = q)
  ∧ ∃ row', StoreApp.stores_table st' !! i = Some row'
            ∧ row' !! col = row !! col.
Proof.
  intros Hs Hf Hn Ha Hcol Hq Hi st'. subst st'.
  unfold StoreApp.saveProfile. rewrite Hs, Hf, Hn, Ha. simpl. split.
  - eexists. split; [reflexivity|].
    destruct Hcol as [[-> Hl]|[-> Hl]]; simpl; by rewrite Hl.
  - apply update_where_id_keeps; [done|].
    assert (Hz : truthy_Q (Some q) = false).
    { simpl. apply negb_false_iff. by apply Qeq_bool_iff. }
    apply dbUpdates_of_None; intros E.
    all: destruct Hcol as [[-> Hl]|[-> Hl]]; try discriminate E.
    all: by rewrite Hl.
Qed.

Lemma saveProfile_zero_coordinate_witness :
  ∃ row',
    StoreApp.stores_table
      (StoreApp.saveProfile false None
         (editing corner_mart equator_form [store_row])) !! 0%nat = Some row'
    ∧ row' !! "lat" = Some (JNum (129716 # 10000)).
Proof.
  destruct (proj2 (saveProfile_zero_coordinate corner_mart equator_form
              (editing corner_mart equator_form [store_row]) 0 store_row "lat"
              0%Q eq_refl eq_refl eq_refl eq_refl
              (or_introl (conj eq_refl eq_refl)) ltac:(reflexivity) eq_refl))
    as (row' & Hrow & Hlat).
  exists row'. split; [exact Hrow|]. by rewrite Hlat.
Defined.

(** ** Reading and writing the inventory table *)

Section InventoryRows.
Import StoreInventory.

Lemma rowOf_Some dbInv id r :
  rowOf dbInv id = Some r → r ∈ dbInv ∧ DbInventory.product_id r = id.
Proof.
  unfold rowOf. intros [Hin Hp]%find_some.
  split; [by apply list_elem_of_In|by apply String.eqb_eq].
Qed.

Lemma rowOf_None dbInv id :
  rowOf dbInv id = None → ∀ r, r ∈ dbInv → DbInventory.product_id r ≠ id.
Proof.
  unfold rowOf. intros Hnone r Hr%list_elem_of_In.
  pose proof (find_none _ _ Hnone r Hr) as Hp. by apply String.eqb_neq.
Qed.

Lemma Forall2_fmap_same {A B} (P : A → B → Prop) (f : A → B) (l : list A) :
  (∀ x, P x (f x)) → Forall2 P l (f <$> l).
Proof. intros H. induction l; constructor; auto. Qed.

Lemma catalogEntry_lists dbInv c : lists_product c (catalogEntry dbInv c).
Proof. by repeat split. Qed.

Lemma unlisted_lists c : lists_product c (unlisted c) ∧ not_listed (unlisted c).
Proof. by repeat split. Qed.

Lemma catalogEntry_active dbInv c :
  (StoreApp.InventoryItem.isActive (catalogEntry dbInv c) = true
   ↔ ∃ r, r ∈ dbInv ∧ DbInventory.product_id r = Product.id c)
  ∧ (StoreApp.InventoryItem.isActive (catalogEntry dbInv c) = false →
     not_listed (catalogEntry dbInv c)).
Proof.
  unfold catalogEntry, not_listed. simpl.
  destruct (rowOf dbInv (Product.id c)) as [r|] eqn:Hr; simpl.
  - split; [|done]. split; [|done]. intros _.
    apply rowOf_Some in Hr as [? ?]. by exists r.
  - split; [|done]. split; [done|]. intros (r & Hin & Hid).
    by eapply rowOf_None in Hr.
Qed.

(** The row just written is the only row of its store and product. *)
Lemma upsert_row row table :
  row ∈ upsert row table
  ∧ ∀ x, x ∈ upsert row table → same_key row x = true → x = row.
Proof.
  unfold upsert. destruct (existsb (same_key row) table) eqn:He.
  - apply existsb_exists in He as (r & Hr & Hk). split.
    + apply list_elem_of_fmap. exists r. rewrite Hk.
      split; [done|by apply list_elem_of_In].
    + intros x (r' & -> & _)%list_elem_of_fmap.
      destruct (same_key row r') eqn:Hk'; [done|]. intros ?. congruence.
  - split; [apply elem_of_app; right; by apply list_elem_of_singleton|].
    intros x [Hx|Hx%list_elem_of_singleton]%elem_of_app Hk; [|done].
    exfalso. assert (existsb (same_key row) table = true); [|congruence].
    apply existsb_exists. exists x. split; [by apply list_elem_of_In|done].
Qed.

Lemma rowOf_select_upsert row table :
  rowOf (select_store (DbInventory.store_id row) (upsert row table))
        (DbInventory.product_id row) = Some row.
Proof.
  destruct (upsert_row row table) as [Hin Huniq].
  destruct (rowOf _ _) as [x|] eqn:Hx.
  - apply rowOf_Some in Hx as [Hxin Hxid]. f_equal.
    unfold select_store in Hxin.
    apply list_elem_of_In, filter_In in Hxin as [Hxin Hs%String.eqb_eq].
    apply Huniq; [by apply list_elem_of_In|].
    unfold same_key. rewrite Hs, Hxid, !String.eqb_refl. done.
  - exfalso. eapply (rowOf_None _ _ Hx row); [|done].
    unfold select_store. apply list_elem_of_In, filter_In.
    split; [by apply list_elem_of_In|apply String.eqb_refl].
Qed.

(** Rows of other products are read back as before the write. *)
Lemma rowOf_select_upsert_other row table id :
  id ≠ DbInventory.product_id row →
  rowOf (select_store (DbInventory.store_id row) (upsert row table)) id
  = rowOf (select_store (DbInventory.store_id row) table) id.
Proof.
  intros Hne. unfold upsert, rowOf, select_store.
  assert (Hrow : (DbInventory.product_id row =? id) = false)
    by (apply String.eqb_neq; congruence).
  destruct (existsb (same_key row) table).
  - induction table as [|r l IH]; [reflexivity|].
    cbn [map List.filter]. destruct (same_key row r) eqn:Hk.
    + unfold same_key in Hk. apply andb_prop in Hk as [Hs%String.eqb_eq Hp%String.eqb_eq].
      rewrite <- Hs, !String.eqb_refl. simpl. rewrite Hrow, <- Hp, Hrow. exact IH.
    + destruct (DbInventory.store_id r =? DbInventory.store_id row); [|exact IH].
      simpl. destruct (DbInventory.product_id r =? id); [reflexivity|exact IH].
  - induction table as [|r l IH].
    + simpl. rewrite String.eqb_refl. simpl. by rewrite Hrow.
    + cbn [app List.filter].
      destruct (DbInventory.store_id r =? DbInventory.store_id row); [|exact IH].
      simpl. destruct (DbInventory.product_id r =? id); [reflexivity|exact IH].
Qed.

End InventoryRows.

(** X17: the inventory fetch always ends with one entry per catalogue
    product, in catalogue order, carrying the product's own id, name,
    category, price and MRP, after the entries of the custom products,
    which are all listed.  When the inventory query fails in any way the
    result is the catalogue alone with every product unlisted (inactive,
    out of stock, stock 0, store price equal to the catalogue price).  When
    it delivers rows, a catalogue product is listed exactly when one of the
    rows is for it, and is in the unlisted state otherwise. *)
Theorem getStoreInventory_catalogue INITIAL_PRODUCTS inventory products :
  let r := StoreInventory.getStoreInventory INITIAL_PRODUCTS inventory products in
  (∃ customs cat,
     r = (customs ++ cat)%list
     ∧ Forall2 lists_product INITIAL_PRODUCTS cat
     ∧ Forall (fun e => StoreApp.InventoryItem.isActive e = true) customs)
  ∧ (inventory_unreadable inventory →
     Forall2 (fun c e => lists_product c e ∧ not_listed e) INITIAL_PRODUCTS r)
  ∧ (∀ dbInv,
       inventory = Fulfilled (Response.mk (Some dbInv) None) →
       (∀ ids, ∃ pr, products ids = Fulfilled pr) →
       ∃ customs cat,
         r = (customs ++ cat)%list
         ∧ Forall2 (fun c e =>
                      (StoreApp.InventoryItem.isActive e = true
                       ↔ ∃ row, row ∈ dbInv
                                ∧ DbInventory.product_id row = Product.id c)
                      ∧ (StoreApp.InventoryItem.isActive e = false → not_listed e))
                   INITIAL_PRODUCTS cat).
Proof.
  intros r. subst r.
  assert (Hfallback : Forall2 (fun c e => lists_product c e ∧ not_listed e)
            INITIAL_PRODUCTS (StoreInventory.unlisted <$> INITIAL_PRODUCTS)).
  { apply Forall2_fmap_same. intros c. apply unlisted_lists. }
  assert (Hfb1 : ∃ customs cat,
            StoreInventory.unlisted <$> INITIAL_PRODUCTS = (customs ++ cat)%list
            ∧ Forall2 lists_product INITIAL_PRODUCTS cat
            ∧ Forall (fun e => StoreApp.InventoryItem.isActive e = true) customs).
  { exists [], (StoreInventory.unlisted <$> INITIAL_PRODUCTS).
    split; [done|]. split; [|done].
    apply Forall2_fmap_same. intros c. apply unlisted_lists. }
  unfold StoreInventory.getStoreInventory, StoreInventory.getStoreInventory_try.
  split; [|split].
  - destruct inventory as [resp|e]; [|done].
    destruct (Response.error resp); [done|].
    destruct (Response.data resp) as [dbInv|]; [|done].
    destruct (0 <? length _)%nat.
    + destruct (products _) as [pr|e]; [|done].
      eexists _, _. split; [reflexivity|]. split.
      * apply Forall2_fmap_same. intros c. apply catalogEntry_lists.
      * apply Forall_fmap, Forall_forall. by intros p _.
    + eexists [], _. split; [reflexivity|]. split; [|done].
      apply Forall2_fmap_same. intros c. apply catalogEntry_lists.
  - destruct inventory as [resp|e]; simpl; [|done].
    intros [[e ->]| ->]; [done|].
    by destruct (Response.error resp).
  - intros dbInv -> Hp. simpl.
    destruct (0 <? length _)%nat.
    + destruct (Hp (StoreInventory.customIds_of INITIAL_PRODUCTS dbInv))
        as [pr ->].
      eexists _, _. split; [reflexivity|].
      apply Forall2_fmap_same. intros c. apply catalogEntry_active.
    + eexists [], _. split; [reflexivity|].
      apply Forall2_fmap_same. intros c. apply catalogEntry_active.
Qed.

Lemma getStoreInventory_catalogue_witness :
  Forall2 (fun c e => lists_product c e ∧ not_listed e) [rice; atta_product]
    (StoreInventory.getStoreInventory [rice; atta_product]
       (RejectedWith (BackendError "offline"))
       (products_answer (Response.mk None None))).
Proof.
  exact (proj1 (proj2 (getStoreInventory_catalogue [rice; atta_product]
                         (RejectedWith (BackendError "offline"))
                         (products_answer (Response.mk None None)))) I).
Defined.

(** X18: what an inventory update stores for a catalogue product of a
    store, the next inventory fetch of that store reads back: the price as
    store price, the offered flag, the stock count, the variant table, and
    the product as listed; the MRP is not stored and reads back as the
    catalogue's; the rows read for the store's other products are the ones
    read before the update.  This is for a whole stock count and for a
    price and a variant table whose numbers travel as they are (no [NaN],
    infinity or [-0], which JSON does not carry). *)
Theorem inventory_update_read_back INITIAL_PRODUCTS table storeId c price
    inStock (stock : Z) d :
  c ∈ INITIAL_PRODUCTS →
  Double.json_exact price = true →
  map_Forall (fun _ b => brand_json_exact b) d →
  let table' :=
    (StoreInventory.updateInventoryItem None storeId (Product.id c) price
       inStock stock (Some d) table).1 in
  let entry :=
    StoreInventory.catalogEntry (StoreInventory.select_store storeId table') c in
  (∀ products', (∀ ids, ∃ pr, products' ids = Fulfilled pr) →
     entry ∈ StoreInventory.getStoreInventory INITIAL_PRODUCTS
               (Fulfilled (Response.mk
                  (Some (StoreInventory.select_store storeId table')) None))
               products')
  ∧ StoreApp.InventoryItem.storePrice entry = price
  ∧ StoreApp.InventoryItem.inStock entry = inStock
  ∧ StoreApp.InventoryItem.stock entry = stock
  ∧ StoreApp.InventoryItem.brandDetails entry = Some d
  ∧ StoreApp.InventoryItem.isActive entry = true
  ∧ StoreApp.InventoryItem.mrp entry = Product.mrp c
  ∧ ∀ id, id ≠ Product.id c →
      StoreInventory.rowOf (StoreInventory.select_store storeId table') id
      = StoreInventory.rowOf (StoreInventory.select_store storeId table) id.
Proof.
  intros Hc _ _ table' entry.
  set (row := {| DbInventory.store_id := storeId;
                 DbInventory.product_id := Product.id c;
                 DbInventory.price := price;
                 DbInventory.in_stock := inStock;
                 DbInventory.stock := Some stock;
                 DbInventory.brand_data := Some d |}).
  assert (Hrow : StoreInventory.rowOf
                   (StoreInventory.select_store storeId table') (Product.id c)
                 = Some row).
  { exact (rowOf_select_upsert row table). }
  split; [|split; [|split; [|split; [|split; [|split; [|split]]]]]].
  - intros products' Hp.
    unfold StoreInventory.getStoreInventory,
      StoreInventory.getStoreInventory_try. simpl.
    destruct (0 <? length _)%nat.
    + destruct (Hp (StoreInventory.customIds_of INITIAL_PRODUCTS
                      (StoreInventory.select_store storeId table'))) as [pr ->].
      apply elem_of_app. right. apply list_elem_of_fmap. by exists c.
    + apply list_elem_of_fmap. by exists c.
  - subst entry. unfold StoreInventory.catalogEntry. simpl. by rewrite Hrow.
  - subst entry. unfold StoreInventory.catalogEntry. simpl. by rewrite Hrow.
  - subst entry. unfold StoreInventory.catalogEntry. simpl. rewrite Hrow.
    unfold StoreInventory.stock_or_0. simpl.
    destruct (Z.eqb_spec stock 0) as [->|_]; reflexivity.
  - subst entry. unfold StoreInventory.catalogEntry. simpl. by rewrite Hrow.
  - subst entry. unfold StoreInventory.catalogEntry. simpl. rewrite Hrow.
    apply bool_decide_eq_true. by eexists.
  - reflexivity.
  - intros id Hne. exact (rowOf_select_upsert_other row table id Hne).
Qed.

Lemma inventory_update_read_back_witness :
  StoreApp.InventoryItem.storePrice
    (StoreInventory.catalogEntry
       (StoreInventory.select_store "s1"
          (StoreInventory.updateInventoryItem None "s1" "7" (Double.dec 4850 2)
             false (Count.Int 9) (Some ∅) inventory_table).1) atta_product)
  = Double.dec 4850 2.
Proof.
  exact (proj1 (proj2 (inventory_update_read_back [rice; atta_product]
    inventory_table "s1" atta_product (Double.dec 4850 2) false 9 ∅
    ltac:(apply elem_of_cons; right; apply elem_of_cons; by left)
    ltac:(by vm_compute) ltac:(apply map_Forall_empty)))).
Defined.

(** ** The products a customer sees in a store *)

Section StoreProducts.
Import StoreService.

Lemma inventoryMap_of_lookup (rows : list DbInventory.t) (k : string) :
  inventoryMap_of rows !! k
  = List.find (fun r => DbInventory.product_id r =? k) (reverse rows).
Proof.
  unfold inventoryMap_of.
  induction rows as [|r rs IH] using rev_ind; [apply lookup_empty|].
  rewrite foldl_snoc, reverse_snoc. simpl.
  destruct (String.eqb_spec (DbInventory.product_id r) k) as [->|Hne].
  - apply lookup_insert_eq.
  - by rewrite lookup_insert_ne.
Qed.

Lemma find_customProduct_of (l : list DbProduct.t) (id : string) :
  List.find (fun p => Product.id p =? id) (customProduct_of <$> l)
  = customProduct_of <$> List.find (fun x => DbProduct.id x =? id) l.
Proof.
  induction l as [|x l IH]; [reflexivity|].
  rewrite fmap_cons. cbn [List.find]. change (Product.id (customProduct_of x))
    with (DbProduct.id x).
  by destruct (DbProduct.id x =? id).
Qed.

Lemma length_omap_le {A B} (f : A → option B) (l : list A) :
  (length (omap f l) ≤ length l)%nat.
Proof.
  induction l as [|x l IH]; [done|].
  change (omap f (x :: l))
    with (match f x with Some y => y :: omap f l | None => omap f l end).
  destruct (f x); simpl; lia.
Qed.

(** The products of the final [map]: each has a row, whose price it
    carries, and is otherwise the first catalogue product of its id, or
    else the first custom product of its id. *)
Lemma merged_products INITIAL_PRODUCTS customProducts rows p :
  p ∈ omap (fun id =>
              match inventoryMap_of rows !! id with
              | None => None
              | Some invItem =>
                (fun base => with_price base (DbInventory.price invItem))
                  <$> baseProduct_of INITIAL_PRODUCTS customProducts id
              end) (DbInventory.product_id <$> rows) →
  ∃ row,
    List.find (fun x => DbInventory.product_id x =? Product.id p) (reverse rows)
    = Some row
    ∧ Product.price p = DbInventory.price row
    ∧ match List.find (fun c => Product.id c =? Product.id p) INITIAL_PRODUCTS with
      | Some c => p = with_price c (DbInventory.price row)
      | None =>
        ∃ base,
          List.find (fun c => Product.id c =? Product.id p) customProducts
          = Some base
          ∧ p = with_price base (DbInventory.price row)
      end.
Proof.
  intros (id & _ & Hf)%list_elem_of_omap.
  rewrite inventoryMap_of_lookup in Hf.
  destruct (List.find _ (reverse rows)) as [invItem|] eqn:Hrow; [|done].
  unfold baseProduct_of in Hf.
  destruct (List.find _ INITIAL_PRODUCTS) as [c|] eqn:Hc.
  - injection Hf as <-. pose proof (find_some _ _ Hc) as [_ Hid%String.eqb_eq].
    simpl. rewrite Hid, Hrow, Hc. by exists invItem.
  - destruct (List.find _ customProducts) as [base|] eqn:Hb; [|done].
    injection Hf as <-. pose proof (find_some _ _ Hb) as [_ Hid%String.eqb_eq].
    simpl. rewrite Hid, Hrow, Hc, Hb. exists invItem.
    split; [done|]. split; [done|]. by exists base.
Qed.

End StoreProducts.

(** X19: every product the store service returns for a store carries the
    price of the store's inventory row for it (the last row, should there
    be several), not the catalogue price.  Its other fields are those of
    the first catalogue product with its id; when the catalogue has none,
    they come from the first row of that id that the products query
    delivered for the ids outside the catalogue: the row's name and
    category, its image as emoji (a parcel when it has none), no MRP and
    no brands.  There are at most as many products as rows, and when the
    row query fails the result is empty. *)
Theorem fetchStoreProducts_store_prices INITIAL_PRODUCTS inventory products :
  let r := StoreService.fetchStoreProducts INITIAL_PRODUCTS inventory products in
  (stock_query_failed inventory → r = [])
  ∧ (length r ≤ length (rows_of inventory))%nat
  ∧ ∀ p, p ∈ r →
      ∃ row,
        List.find (fun x => DbInventory.product_id x =? Product.id p)
                  (reverse (rows_of inventory)) = Some row
        ∧ Product.price p = DbInventory.price row
        ∧ match List.find (fun c => Product.id c =? Product.id p)
                  INITIAL_PRODUCTS with
          | Some c => p = StoreService.with_price c (DbInventory.price row)
          | None =>
            ∃ pr dbProducts dbp,
              products (StoreInventory.customIds_of INITIAL_PRODUCTS
                          (rows_of inventory)) = Fulfilled pr
              ∧ Response.error pr = None
              ∧ Response.data pr = Some dbProducts
              ∧ List.find (fun x => DbProduct.id x =? Product.id p) dbProducts
                = Some dbp
              ∧ Product.name p = DbProduct.name dbp
              ∧ Product.category p = DbProduct.category dbp
              ∧ Product.emoji p = or_str (DbProduct.image_url dbp) "📦"
              ∧ Product.mrp p = None
              ∧ Product.brands p = Some []
          end.
Proof.
  intros r. subst r.
  unfold StoreService.fetchStoreProducts, StoreService.fetchStoreProducts_try,
    stock_query_failed, rows_of.
  destruct inventory as [resp|e];
    [|split; [by intros _|split; [simpl; lia|by intros ? ?%elem_of_nil]]].
  destruct (Response.error resp) as [e|].
  { split; [by intros _|split; [simpl; lia|by intros ? ?%elem_of_nil]]. }
  destruct (Response.data resp) as [[|row0 rows]|].
  1, 3: split; [by intros _|split; [simpl; lia|by intros ? ?%elem_of_nil]].
  split; [by intros [? [=]]|].
  set (all := row0 :: rows).
  change (default [] (Some all)) with all.
  change (List.filter _ (DbInventory.product_id <$> all))
    with (StoreInventory.customIds_of INITIAL_PRODUCTS all).
  destruct (0 <? length _)%nat.
  - destruct (products _) as [pr|e] eqn:Hpr;
      [|split; [simpl; lia|by intros ? ?%elem_of_nil]].
    split.
    + etransitivity; [apply length_omap_le|]. by rewrite length_fmap.
    + intros p Hp. apply merged_products in Hp as (row & Hrow & Hprice & Hbase).
      exists row. split; [done|]. split; [done|].
      destruct (List.find _ INITIAL_PRODUCTS) as [c|]; [done|].
      destruct Hbase as (base & Hb & ->).
      destruct (Response.error pr) eqn:He; [done|].
      destruct (Response.data pr) as [dbProducts|] eqn:Hd; [|done].
      rewrite find_customProduct_of in Hb.
      destruct (List.find _ dbProducts) as [dbp|] eqn:Hdbp; [|done].
      injection Hb as <-. exists pr, dbProducts, dbp. by repeat split.
  - split.
    + etransitivity; [apply length_omap_le|]. by rewrite length_fmap.
    + intros p Hp. apply merged_products in Hp as (row & Hrow & Hprice & Hbase).
      exists row. split; [done|]. split; [done|].
      destruct (List.find _ INITIAL_PRODUCTS) as [c|]; [done|].
      by destruct Hbase as (base & Hb & _).
Qed.

(** Two rows for atta and one for a product outside the catalogue, which
    the products query describes. *)
Lemma fetchStoreProducts_store_prices_witness :
  let rows :=
    [DbInventory.mk "s1" "7" (rupees 50) true (Some 5) None;
     DbInventory.mk "s1" "7" (Double.dec 4750 2) true (Some 5) None;
     DbInventory.mk "s1" "99" (rupees 10) true None None] in
  let described :=
    products_answer
      (Response.mk (Some [DbProduct.mk "99" "Jaggery" "Staples" None (rupees 12)])
                   None) in
  Nat.le
    (length
       (StoreService.fetchStoreProducts [rice; atta_product]
          (Fulfilled (Response.mk (Some rows) None)) described)) 3
  ∧ (fun p => (Product.name p, Product.price p))
      <$> StoreService.fetchStoreProducts [rice; atta_product]
            (Fulfilled (Response.mk (Some rows) None)) described
    = [("Atta", Double.dec 4750 2); ("Atta", Double.dec 4750 2);
       ("Jaggery", rupees 10)].
Proof.
  intros rows described. split; [|by vm_compute].
  exact (proj1 (proj2 (fetchStoreProducts_store_prices [rice; atta_product]
    (Fulfilled (Response.mk (Some rows) None)) described))).
Defined.

(** ** The store profile update, seen from the table *)

Lemma put_str_lookup_eq col v (d : gmap string JsVal) :
  StoreAdminService.put_str col v d !! col
  = if truthy_str v then JStr <$> v else d !! col.
Proof.
  unfold StoreAdminService.put_str. destruct (truthy_str v) eqn:E; [|done].
  rewrite lookup_insert_eq. by destruct v.
Qed.

Lemma put_str_lookup_ne col v (d : gmap string JsVal) c :
  c ≠ col → StoreAdminService.put_str col v d !! c = d !! c.
Proof.
  intros Hne. unfold StoreAdminService.put_str.
  destruct (truthy_str v); [|done]. by rewrite lookup_insert_ne.
Qed.

Lemma put_num_lookup_eq col v (d : gmap string JsVal) :
  StoreAdminService.put_num col v d !! col
  = if truthy_Q v then JNum <$> v else d !! col.
Proof.
  unfold StoreAdminService.put_num. destruct (truthy_Q v) eqn:E; [|done].
  rewrite lookup_insert_eq. by destruct v.
Qed.

Lemma put_num_lookup_ne col v (d : gmap string JsVal) c :
  c ≠ col → StoreAdminService.put_num col v d !! c = d !! c.
Proof.
  intros Hne. unfold StoreAdminService.put_num.
  destruct (truthy_Q v); [|done]. by rewrite lookup_insert_ne.
Qed.

Lemma update_where_id_row storeId patch stores (i : nat) row :
  stores !! i = Some row →
  ∃ row', StoreAdminService.update_where_id storeId patch stores !! i = Some row'
          ∧ (row !! "id" = Some (JStr storeId) → row' = patch ∪ row)
          ∧ (row !! "id" ≠ Some (JStr storeId) → row' = row).
Proof.
  intros Hi. unfold StoreAdminService.update_where_id.
  rewrite list_lookup_fmap, Hi. simpl. eexists. split; [reflexivity|]. split.
  - intros ->. by rewrite String.eqb_refl.
  - intros Hid. destruct (row !! "id") as [[j|?]|]; try done.
    destruct (String.eqb_spec j storeId) as [->|_]; done.
Qed.

(** X20: the profile update sends exactly the truthy ones among name,
    address, UPI id, latitude and longitude, each under its column with
    the value of the form; when the backend accepts it, every row of the
    given store holds the values sent, and every row of another store is
    left as it was. *)
Theorem profile_update_written storeId updates stores (i : nat) row :
  stores !! i = Some row →
  let sent := StoreAdminService.dbUpdates_of updates in
  sent !! "name"
  = (if truthy_str (StoreAdminService.StoreUpdates.name updates)
     then JStr <$> StoreAdminService.StoreUpdates.name updates else None)
  ∧ sent !! "address"
    = (if truthy_str (StoreAdminService.StoreUpdates.address updates)
       then JStr <$> StoreAdminService.StoreUpdates.address updates else None)
  ∧ sent !! "upi_id"
    = (if truthy_str (StoreAdminService.StoreUpdates.upiId updates)
       then JStr <$> StoreAdminService.StoreUpdates.upiId updates else None)
  ∧ sent !! "lat"
    = (if truthy_Q (StoreAdminService.StoreUpdates.lat updates)
       then JNum <$> StoreAdminService.StoreUpdates.lat updates else None)
  ∧ sent !! "lng"
    = (if truthy_Q (StoreAdminService.StoreUpdates.lng updates)
       then JNum <$> StoreAdminService.StoreUpdates.lng updates else None)
  ∧ ∃ row',
      (StoreAdminService.updateStoreProfile None storeId updates stores).1 !! i
      = Some row'
      ∧ (row !! "id" = Some (JStr storeId) →
         ∀ col v, sent !! col = Some v → row' !! col = Some v)
      ∧ (row !! "id" ≠ Some (JStr storeId) → row' = row).
Proof.
  intros Hi sent.
  assert (Hrows : ∃ row',
            (StoreAdminService.updateStoreProfile None storeId updates stores).1
              !! i = Some row'
            ∧ (row !! "id" = Some (JStr storeId) →
               ∀ col v, sent !! col = Some v → row' !! col = Some v)
            ∧ (row !! "id" ≠ Some (JStr storeId) → row' = row)).
  { destruct (update_where_id_row storeId sent stores i row Hi)
      as (row' & Hrow & Hsame & Hother).
    exists row'. split; [exact Hrow|]. split; [|exact Hother].
    intros Hid col v Hv. rewrite (Hsame Hid). by apply lookup_union_Some_l. }
  split_and?; try exact Hrows.
  all: clear Hrows; subst sent; unfold StoreAdminService.dbUpdates_of.
  all: rewrite ?put_num_lookup_ne, ?put_str_lookup_ne by done.
  all: rewrite ?put_num_lookup_eq, ?put_str_lookup_eq.
  all: rewrite ?put_num_lookup_ne, ?put_str_lookup_ne by done.
  all: by rewrite lookup_empty.
Qed.

Lemma profile_update_written_witness :
  ∃ row',
    (StoreAdminService.updateStoreProfile None "s1" blank_name_form [store_row]).1
      !! 0%nat = Some row'
    ∧ row' !! "address" = Some (JStr "HAL 2nd Stage")
    ∧ row' !! "lng" = Some (JNum (776400 # 10000)).
Proof.
  destruct (profile_update_written "s1" blank_name_form [store_row] 0 store_row
              eq_refl) as (_ & Ha & _ & _ & Hl & row' & Hrow & Hw & _).
  exists row'. split; [exact Hrow|].
  split; apply Hw; try reflexivity.
Defined.

(** ** Signing in *)

(** X21: the passwordless sync always returns a signed-in state and never
    fails: when the profile lookup delivers a row, whether or not it also
    reports an error, the state carries the row's id and the mock cards;
    when it delivers none, or rejects, the state is a temporary user whose
    id is "temp-" followed by the current time, with no saved cards and the
    identifier in the phone or the email field according to its type. *)
Theorem syncUser_always_signed_in now lookup identifier type :
  let u := UserService.syncUserWithSupabase now lookup identifier type in
  UserService.UserState.isAuthenticated u = true
  ∧ (∀ r p, lookup = Fulfilled r → Response.data r = Some p →
       UserService.UserState.id u = Some (UserService.Profile.id p)
       ∧ UserService.UserState.savedCards u = Some UserService.MOCK_CARDS)
  ∧ ((∀ r, lookup = Fulfilled r → Response.data r = None) →
     UserService.UserState.id u = Some ("temp-" ++ pretty now)
     ∧ UserService.UserState.savedCards u = Some []
     ∧ (type = UserService.PHONE →
        UserService.UserState.phone u = identifier
        ∧ UserService.UserState.email u = Some "")
     ∧ (type = UserService.EMAIL →
        UserService.UserState.phone u = ""
        ∧ UserService.UserState.email u = Some identifier)).
Proof.
  intros u. subst u. unfold UserService.syncUserWithSupabase.
  destruct lookup as [r|e].
  - destruct (Response.data r) as [p|] eqn:Hd.
    + split; [done|]. split.
      * intros r' p' [= <-] Hp. rewrite Hd in Hp. by injection Hp as <-.
      * intros H. specialize (H r eq_refl). congruence.
    + split; [by destruct type|]. split.
      * intros r' p' [= <-] Hp. congruence.
      * intros _. by destruct type.
  - split; [by destruct type|]. split; [done|]. intros _. by destruct type.
Qed.

Lemma syncUser_always_signed_in_witness :
  UserService.UserState.id
    (UserService.syncUserWithSupabase 1700000000000
       (Fulfilled (Response.mk None (Some (BackendError "42P01"))))
       "9000000000" UserService.PHONE)
  = Some "temp-1700000000000".
Proof.
  refine (proj1 (proj2 (proj2 (syncUser_always_signed_in 1700000000000
    (Fulfilled (Response.mk None (Some (BackendError "42P01"))))
    "9000000000" UserService.PHONE)) _)).
  by intros r [= <-].
Defined.

(** X22: the password login fails with the sign-in's error when the
    sign-in rejects or reports one, and with "Login failed" when it reports
    no user; every state it returns is signed in and carries the mock
    cards; and when the user's profile is read without error, the result
    does not depend on the profile upsert at all: the state then carries
    the profile's id, or the sign-in user's id when that id is empty. *)
Theorem loginUser_outcomes auth profile heal :
  (∀ e, auth = RejectedWith e →
     UserService.loginUser auth profile heal = RejectedWith e)
  ∧ (∀ a e, auth = Fulfilled a → UserService.AuthResponse.error a = Some e →
       UserService.loginUser auth profile heal = RejectedWith e)
  ∧ (∀ a, auth = Fulfilled a → UserService.AuthResponse.error a = None →
       UserService.AuthResponse.user a = None →
       UserService.loginUser auth profile heal
       = RejectedWith (BackendError "Login failed"))
  ∧ (∀ u, UserService.loginUser auth profile heal = Fulfilled u →
       UserService.UserState.isAuthenticated u = true
       ∧ UserService.UserState.savedCards u = Some UserService.MOCK_CARDS
       ∧ is_Some (UserService.UserState.id u))
  ∧ (∀ a user p,
       auth = Fulfilled a → UserService.AuthResponse.error a = None →
       UserService.AuthResponse.user a = Some user →
       profile (UserService.AuthUser.id user)
       = Fulfilled (Response.mk (Some p) None) →
       (∀ heal', UserService.loginUser auth profile heal'
                 = UserService.loginUser auth profile heal)
       ∧ ∃ u, UserService.loginUser auth profile heal = Fulfilled u
              ∧ UserService.UserState.id u
                = Some (if UserService.Profile.id p =? ""
                        then UserService.AuthUser.id user
                        else UserService.Profile.id p)).
Proof.
  unfold UserService.loginUser. split_and?.
  - by intros e ->.
  - by intros a e -> ->.
  - by intros a -> -> ->.
  - intros u. destruct auth as [a|e]; [|done].
    destruct (UserService.AuthResponse.error a); [done|].
    destruct (UserService.AuthResponse.user a) as [user|]; [|done].
    destruct (profile _) as [pr|e]; [|done].
    destruct (_ || _).
    + destruct (heal _) as [hr|e]; [|done].
      destruct (Response.data hr); intros [= <-]; by repeat split.
    + intros [= <-]. by repeat split.
  - intros a user p -> -> -> Hp. rewrite Hp. simpl. split; [done|].
    eexists. split; [reflexivity|]. done.
Qed.

Lemma loginUser_outcomes_witness :
  UserService.loginUser
    (Fulfilled (UserService.AuthResponse.mk None None))
    (fun _ => RejectedWith (BackendError "unused"))
    (fun _ => RejectedWith (BackendError "unused"))
  = RejectedWith (BackendError "Login failed").
Proof.
  exact (proj1 (proj2 (proj2 (loginUser_outcomes
    (Fulfilled (UserService.AuthResponse.mk None None))
    (fun _ => RejectedWith (BackendError "unused"))
    (fun _ => RejectedWith (BackendError "unused")))))
    _ eq_refl eq_refl eq_refl).
Defined.

(** ** The minus button of a product card *)

Section CardMinus.
Import CustomerApp.

Lemma updateQuantity_untouched cartItemId delta (l : list CartItem.t) :
  Forall (fun c => 0 < CartItem.quantity c) l →
  (∀ c, c ∈ l → CartItem.id c ≠ cartItemId) →
  List.filter (fun item => (0 <? CartItem.quantity item)%Z)
    (map (requantified cartItemId delta) l) = l.
Proof.
  induction l as [|c l IH]; [done|].
  intros [Hc Hl]%Forall_cons Hid. cbn [map List.filter].
  assert (Hsame : requantified cartItemId delta c = c).
  { unfold requantified.
    destruct (String.eqb_spec (CartItem.id c) cartItemId) as [He|_]; [|done].
    exfalso. by apply (Hid c); [left|]. }
  rewrite Hsame. apply Z.ltb_lt in Hc. rewrite Hc. f_equal.
  apply IH; [done|]. intros c' Hc'. apply Hid. by right.
Qed.

Lemma units_after_updateQuantity pid cartItemId delta (l : list CartItem.t)
    (line : CartItem.t) :
  Forall (fun c => 0 < CartItem.quantity c) l →
  NoDup (CartItem.id <$> l) →
  line ∈ l → CartItem.id line = cartItemId →
  foldr (fun c acc => units_of pid c + acc) 0
    (List.filter (fun item => (0 <? CartItem.quantity item)%Z)
       (map (requantified cartItemId delta) l))
  = foldr (fun c acc => units_of pid c + acc) 0 l
    + (if CartItem.originalProductId line =? pid
       then Z.max 0 (CartItem.quantity line + delta) - CartItem.quantity line
       else 0).
Proof.
  induction l as [|c l IH]; [by intros _ _ ?%elem_of_nil|].
  rewrite fmap_cons. intros [Hc Hl]%Forall_cons [Hnin Hnd]%NoDup_cons Hin Hid.
  cbn [map List.filter foldr].
  apply elem_of_cons in Hin as [->|Hin].
  - assert (Hnew : requantified cartItemId delta c
                   = CustomerApp.add_quantity
                       (Z.max 0 (CartItem.quantity c + delta)) c)
      by (unfold requantified; by rewrite Hid, String.eqb_refl).
    rewrite Hnew.
    rewrite updateQuantity_untouched; [|done|].
    2:{ intros c' Hc' He. apply Hnin. rewrite Hid, <- He.
        apply list_elem_of_fmap. by exists c'. }
    simpl.
    destruct (Z.ltb_spec 0 (Z.max 0 (CartItem.quantity c + delta))) as [Hp|Hp];
      cbn [foldr]; unfold units_of; simpl;
      destruct (CartItem.originalProductId c =? pid); lia.
  - assert (Hsame : requantified cartItemId delta c = c).
    { unfold requantified.
      destruct (String.eqb_spec (CartItem.id c) cartItemId) as [He|_]; [|done].
      exfalso. apply Hnin. rewrite He, <- Hid. apply list_elem_of_fmap.
      by exists line. }
    rewrite Hsame. apply Z.ltb_lt in Hc. rewrite Hc. cbn [foldr].
    rewrite (IH Hl Hnd Hin Hid). lia.
Qed.

End CardMinus.

(** X23: pressing plus or minus on a product card changes the first cart
    line of that product, whatever its brand; in a cart whose lines have
    distinct ids and positive quantities, the count on the card then moves
    from the line's quantity [q] to [max 0 (q + delta)] for that line, so it
    drops by at most [q]; with no line for the product nothing happens. *)
Theorem card_quantity_button product delta st :
  (List.find (fun c => CartItem.originalProductId c =? Product.id product)
             (CustomerApp.cart st) = None →
   CustomerApp.onUpdateQuantity (Product.id product) delta st = st)
  ∧ ∀ line,
      List.find (fun c => CartItem.originalProductId c =? Product.id product)
                (CustomerApp.cart st) = Some line →
      Forall (fun c => 0 < CartItem.quantity c) (CustomerApp.cart st) →
      NoDup (CartItem.id <$> CustomerApp.cart st) →
      CustomerApp.countInCart product
        (CustomerApp.cart
           (CustomerApp.onUpdateQuantity (Product.id product) delta st))
      = CustomerApp.countInCart product (CustomerApp.cart st)
        + (Z.max 0 (CartItem.quantity line + delta) - CartItem.quantity line).
Proof.
  unfold CustomerApp.onUpdateQuantity. split.
  - by intros ->.
  - intros line Hfind Hpos Hnd. rewrite Hfind.
    apply find_some in Hfind as [Hin%list_elem_of_In Hp].
    rewrite !countInCart_units.
    pose proof (units_after_updateQuantity (Product.id product)
                  (CartItem.id line) delta (CustomerApp.cart st) line
                  Hpos Hnd Hin eq_refl) as Hunits.
    rewrite Hp in Hunits. exact Hunits.
Qed.

Lemma card_quantity_button_witness :
  CustomerApp.countInCart rice
    (CustomerApp.cart
       (CustomerApp.onUpdateQuantity "1" (-5) (paying [rice_item 2])))
  = 2 + (Z.max 0 (2 + -5) - 2).
Proof.
  refine (proj2 (card_quantity_button rice (-5) (paying [rice_item 2]))
            (rice_item 2) eq_refl _ _).
  - repeat constructor.
  - apply NoDup_singleton.
Defined.

(** ** The console's order list and the backend *)

(** X24: in live mode the console's order list is whatever the latest
    fetch returned: after a status write that succeeded, and after every
    change event, a fetch whose order query fails leaves the console with
    an empty list, whatever it showed before; a status write that fails
    leaves the list as it was. *)
Theorem console_orders_after_fetch db store prev :
  (orders_query_failed db (Store.id store) →
   StoreApp.handleOrderStatus_live (Fulfilled ()) db (Some store) prev = []
   ∧ StoreApp.onOrdersChange db (Store.id store) prev = [])
  ∧ (∀ e, StoreApp.handleOrderStatus_live (RejectedWith e) db (Some store) prev
          = prev)
  ∧ (∀ o, o ∈ StoreApp.handleOrderStatus_live (Fulfilled ()) db (Some store) prev →
          o ∈ StoreAdminService.getIncomingOrders db (Store.id store)).
Proof.
  split; [|split].
  - intros Hf. unfold StoreApp.handleOrderStatus_live, StoreApp.onOrdersChange.
    by rewrite (getIncomingOrders_orders_query_failed _ _ Hf).
  - done.
  - done.
Qed.

Lemma console_orders_after_fetch_witness :
  StoreApp.handleOrderStatus_live (Fulfilled ()) db_orders_unreadable
    (Some corner_mart) [order_in "o1" Placed PAID DELIVERY INSTANT] = [].
Proof.
  exact (proj1 (proj1 (console_orders_after_fetch db_orders_unreadable
                         corner_mart [order_in "o1" Placed PAID DELIVERY INSTANT])
                  ltac:(by eexists))).
Defined.

(** ** The simulator settles *)

(** X25: the demo simulator leaves an order as it is exactly when the order
    is scheduled and unpaid or its status is Cancelled, Delivered, Picked
    Up, Placed, Accepted or Rejected; every order is in such a state after
    at most three ticks, and further ticks change nothing. *)
Theorem simulator_settles (o : Order.t) :
  (MyOrders.tick_order o = o
   ↔ (Order.deliveryType o = SCHEDULED ∧ Order.paymentStatus o = PENDING)
     ∨ Order.status o ∈ [Cancelled; Delivered; PickedUp; Placed; Accepted; Rejected])
  ∧ ∀ n, (3 ≤ n)%nat →
      Nat.iter n MyOrders.tick_order o = Nat.iter 3 MyOrders.tick_order o.
Proof.
  split.
  - order_cases o; split.
    all: try (intros _; first
           [ by left
           | right; by apply (bool_decide_unpack _) ]).
    all: try done.
    all: intros [[? ?]|Hin]; try done.
    all: exfalso.
    all: repeat (apply elem_of_cons in Hin as [Hin|Hin]; [discriminate Hin|]).
    all: by apply elem_of_nil in Hin.
  - assert (Hfix : MyOrders.tick_order (Nat.iter 3 MyOrders.tick_order o)
                   = Nat.iter 3 MyOrders.tick_order o) by by order_cases o.
    intros n Hn. replace n with ((n - 3) + 3)%nat by lia.
    rewrite Nat.iter_add. generalize (n - 3)%nat. intros k.
    set (settled := Nat.iter 3 MyOrders.tick_order o) in *.
    induction k as [|k IH]; [done|].
    rewrite Nat.iter_succ. by rewrite IH.
Qed.

Lemma simulator_settles_witness :
  Nat.iter 10 MyOrders.tick_order (order_in "o1" Pending PAID PICKUP INSTANT)
  = order_in "o1" PickedUp PAID PICKUP INSTANT.
Proof.
  exact (proj2 (simulator_settles (order_in "o1" Pending PAID PICKUP INSTANT))
           10%nat ltac:(lia)).
Defined.
